(** * keras/inceptionv3/hdf5_generators.py: a shallow embedding

    The script fine-tunes InceptionV3 in two phases.  It is a straight-line
    program over the Keras API: parse the arguments, open four HDF5 arrays,
    build or load a model, fit once (fresh model only), save and reload an
    intermediate file, fit again with a checkpoint callback, plot.

    The embedding keeps the script's control flow and the values it passes
    to Keras.  The framework itself is represented by
    - a small executable model of the Keras entry points the script calls
      ([HDF5Matrix], [to_categorical], [load_model], [Model.fit],
      [ModelCheckpoint], [History]), following their Python sources, and
    - a record [Backend] of the numerical parts (the pretrained network,
      one epoch of gradient descent, device replication, how numbers print
      in the replacement fields of a checkpoint path), which stay abstract.
    Every run yields a result or a Python exception, the final file system
    and the chronological trace of the framework calls it made. *)

From Stdlib Require Import ZArith Lia Floats QArith Ascii String.
From Stdlib Require Import DecimalString.
From stdpp Require Import base option list strings gmap.

Local Open Scope Z_scope.

(** ** Python built-ins used by the script *)

(** [str.rstrip(c)] for a one-character argument: drop trailing [c]s. *)
Fixpoint rstrip (c : Ascii.ascii) (s : string) : string :=
  match s with
  | EmptyString => EmptyString
  | String a s' =>
      match rstrip c s' with
      | EmptyString => if Ascii.eqb a c then EmptyString else String a EmptyString
      | r => String a r
      end
  end.

(** Truth value of an optional string ([None] and [''] are false). *)
Definition truthy (o : option string) : bool :=
  match o with
  | None => false
  | Some s => negb (String.eqb s "")
  end.

(** [x in s] for strings: [x] occurs as a substring of [s]. *)
Fixpoint str_contains (x s : string) : bool :=
  String.prefix x s ||
  match s with
  | EmptyString => false
  | String _ s' => str_contains x s'
  end.

(** The braces of [str.format]. *)
Definition is_brace (a : Ascii.ascii) : bool :=
  Ascii.eqb a "{"%char || Ascii.eqb a "}"%char.

(** A string cut after its last brace: the part up to and including that
    brace (empty when the string has no brace) and the brace-free rest. *)
Fixpoint split_last_brace (s : string) : string * string :=
  match s with
  | EmptyString => (EmptyString, EmptyString)
  | String a s' =>
      let '(fields, rest) := split_last_brace s' in
      if negb (String.eqb fields EmptyString) then (String a fields, rest)
      else if is_brace a then (String a EmptyString, rest)
      else (EmptyString, String a rest)
  end.

Fixpoint has_brace (s : string) : bool :=
  match s with
  | EmptyString => false
  | String a s' => is_brace a || has_brace s'
  end.

(** [range(a, a + n)] as a list of integers. *)
Definition py_range (a : Z) (n : nat) : list Z :=
  map (fun i => a + Z.of_nat i) (seq 0 n).

(** ** binary64 arithmetic for [int(args.tiles*0.8)]

    [args.tiles] is a Python [int] and [0.8] a [float], so the product is
    computed in binary64: the integer is converted to the nearest double
    (ties to even, [OverflowError] beyond the largest double), the doubles
    are multiplied with one rounding (ties to even), and [int()] truncates
    the result toward zero.  A finite non-negative double is written
    [(m, e)], standing for [m * 2^e] with [m < 2^53]. *)

Definition binary64 : Type := Z * Z.

(** Round [m * 2^e] (with [0 <= m]) to 53 significant bits, ties to even. *)
Definition round53 (m e : Z) : binary64 :=
  let d := Z.log2 m + 1 - 53 in
  if d <=? 0 then (m, e)
  else
    let q := m / 2 ^ d in
    let r := m mod 2 ^ d in
    let h := 2 ^ (d - 1) in
    let q' := if r <? h then q
              else if h <? r then q + 1
              else if Z.even q then q else q + 1 in
    (q', e + d).

(** [int(x)] for a non-negative double: the integer part. *)
Definition float_trunc (x : binary64) : Z := Z.shiftl (fst x) (snd x).

(** [float(n)] for [0 <= n]; [None] is Python's [OverflowError]. *)
Definition float_of_int (n : Z) : option binary64 :=
  let x := round53 n 0 in
  if 2 ^ 1024 <=? float_trunc x then None else Some x.

Definition float_mul (x y : binary64) : binary64 :=
  round53 (fst x * fst y) (snd x + snd y).

(** [int(n * c)] for an integer [n] and a double [0 < c < 1]. *)
Definition int_mul_float (n : Z) (c : binary64) : option Z :=
  match float_of_int (Z.abs n) with
  | None => None
  | Some x => Some (Z.sgn n * float_trunc (float_mul x c))
  end.

(** The literals [0.8] and [0.2]: 0x1.999999999999ap-1 and
    0x1.999999999999ap-3. *)
Definition f0_8 : binary64 := (7205759403792794, -53).
Definition f0_2 : binary64 := (7205759403792794, -55).

(** The same computation on Rocq's hardware doubles, for inputs below
    [2^63]; used only to cross-check the model above. *)
Definition prim_trunc (f : float) : option Z :=
  match Prim2SF f with
  | S754_zero _ => Some 0
  | S754_finite s m e => Some ((if s then -1 else 1) * Z.shiftl (Z.pos m) e)
  | _ => None
  end.

Definition prim_int_mul_float (n : Z) (c : float) : option Z :=
  prim_trunc (PrimFloat.mul (PrimFloat.of_uint63 (Uint63.of_Z n)) c).

(** ** Python exceptions *)

Inductive exn : Type :=
  | KeyError (key : string)
  | IndexError
  | ValueError (msg : string)
  | OverflowError
  | OSError (path : string)
  | RuntimeError (msg : string).

Inductive Res (A : Type) : Type :=
  | Ok (a : A)
  | Raise (e : exn).
Arguments Ok {A} a.
Arguments Raise {A} e.

Definition is_Ok {A} (r : Res A) : Prop :=
  match r with Ok _ => True | Raise _ => False end.

(** ** [keras.utils.HDF5Matrix] and [keras.utils.to_categorical] *)

(** A lazy view [data[start:end]] of a named array of an HDF5 file.  The
    constructor stores [end] as given: it is not clamped to the array. *)
Record HDF5Matrix (A : Type) : Type := {
  hm_data : list A;
  hm_start : Z;
  hm_end : Z
}.
Arguments hm_data {A} _.
Arguments hm_start {A} _.
Arguments hm_end {A} _.

(** [HDF5Matrix.__init__(datapath, dataset, start=0, end=None)] on the
    array already looked up in the file. *)
Definition hm_init {A} (data : list A) (end_ : option Z) : HDF5Matrix A :=
  {| hm_data := data;
     hm_start := 0;
     hm_end := match end_ with
               | None => Z.of_nat (length data)
               | Some e => e
               end |}.

(** [len(m)], i.e. [m.shape[0]]. *)
Definition hm_len {A} (m : HDF5Matrix A) : Z := hm_end m - hm_start m.

(** [m[key]] for an integer key. *)
Definition hm_getitem {A} (m : HDF5Matrix A) (key : Z) : Res A :=
  if key + hm_start m <? hm_end m then
    let idx := key + hm_start m in
    if idx <? 0 then Raise IndexError
    else match hm_data m !! Z.to_nat idx with
         | Some x => Ok x
         | None => Raise (ValueError "Index out of range")
         end
  else Raise IndexError.

(** [np.array(m)]: numpy reads the rows [m[0] .. m[len(m)-1]]. *)
Fixpoint read_rows {A} (m : HDF5Matrix A) (keys : list Z) : Res (list A) :=
  match keys with
  | [] => Ok []
  | k :: ks =>
      match hm_getitem m k with
      | Raise e => Raise e
      | Ok x => match read_rows m ks with
                | Raise e => Raise e
                | Ok xs => Ok (x :: xs)
                end
      end
  end.

Definition np_array {A} (m : HDF5Matrix A) : Res (list A) :=
  if hm_len m <? 0 then Raise (ValueError "__len__() should return >= 0")
  else read_rows m (py_range 0 (Z.to_nat (hm_len m))).

(** [np.max(y)]; numpy raises on an empty array. *)
Definition np_max (y : list Z) : Res Z :=
  match y with
  | [] => Raise (ValueError "zero-size array to reduction operation maximum")
  | x :: xs => Ok (foldr Z.max x xs)
  end.

(** One row of [categorical[np.arange(n), y] = 1]: a zero row of width
    [num_classes] with position [c] set, negative [c] counting from the
    end. *)
Definition one_hot (num_classes c : Z) : Res (list Z) :=
  let i := if c <? 0 then c + num_classes else c in
  if (0 <=? i) && (i <? num_classes)
  then Ok (<[Z.to_nat i := 1]> (replicate (Z.to_nat num_classes) 0))
  else Raise IndexError.

Fixpoint one_hot_rows (num_classes : Z) (y : list Z) : Res (list (list Z)) :=
  match y with
  | [] => Ok []
  | c :: cs =>
      match one_hot num_classes c with
      | Raise e => Raise e
      | Ok r => match one_hot_rows num_classes cs with
                | Raise e => Raise e
                | Ok rs => Ok (r :: rs)
                end
      end
  end.

(** [to_categorical(y)] with [num_classes=None]: the width is inferred
    from the data as [np.max(y) + 1]. *)
Definition to_categorical (labels : HDF5Matrix Z) : Res (list (list Z)) :=
  match np_array labels with
  | Raise e => Raise e
  | Ok y =>
      match np_max y with
      | Raise e => Raise e
      | Ok mx =>
          let num_classes := mx + 1 in
          if num_classes <? 0
          then Raise (ValueError "negative dimensions are not allowed")
          else one_hot_rows num_classes y
      end
  end.

(** The class cardinality of a one-hot label matrix: its row width. *)
Definition num_classes_of (labels : list (list Z)) : option nat :=
  match labels with
  | [] => None
  | r :: _ => Some (length r)
  end.

(** ** Keras models, files and the trace of framework calls *)

(** Training and validation metrics are floats in Keras; only their order
    is used (by the checkpoint callback), so they are kept as rationals. *)
Definition Q_ltb (x y : Q) : bool := (Qnum x * QDen y <? Qnum y * QDen x)%Z.

Inductive LayerKind : Type :=
  | Pretrained (name : string)
  | GlobalAveragePooling2D
  | Dense (units : Z) (activation : string)
  | Dropout (rate : binary64)
  | Other (name : string).

Record Layer : Type := {
  kind : LayerKind;
  trainable : bool
}.

Definition set_trainable (b : bool) (l : Layer) : Layer :=
  {| kind := kind l; trainable := b |}.

(** [for layer in layers[:n]: f(layer)] and [for layer in layers[n:]: ...] *)
Definition for_layers_upto (n : nat) (f : Layer -> Layer) (ls : list Layer) :=
  (f <$> take n ls) ++ drop n ls.
Definition for_layers_from (n : nat) (f : Layer -> Layer) (ls : list Layer) :=
  take n ls ++ (f <$> drop n ls).

Record CompileCfg : Type := {
  optimizer : string;
  loss : string;
  metrics : list string
}.

(** Arguments of [keras.callbacks.ModelCheckpoint]. *)
Record ModelCheckpoint : Type := {
  filepath : string;
  monitor : string;
  verbose : Z;
  save_best_only : bool;
  save_weights_only : bool;
  mode : string;
  period : Z
}.

(** The callback's mutable fields.  [best = None] is the initial infinite
    value ([-inf] when larger is better, [inf] otherwise). *)
Record CkptState : Type := {
  best : option Q;
  epochs_since_last_save : Z
}.

(** The two [model.fit] and three [model.compile] call sites of the
    script (lines 148 and 203; lines 142, 160 and 183). *)
Inductive FitSite : Type := FitHead | FitFinal.
Inductive CompileSite : Type := CompileHead | CompileUnfrozen | CompileFinal.

Section Script.

Context {Img W : Type}.

Record Model : Type := {
  layers : list Layer;
  weights : W;
  compiled : option CompileCfg
}.

(** [Model(inputs=m.input, outputs=m.output)]: a new, uncompiled model over
    the same layer objects. *)
Definition Model_of (m : Model) : Model :=
  {| layers := layers m; weights := weights m; compiled := None |}.

Definition with_layers (m : Model) (ls : list Layer) : Model :=
  {| layers := ls; weights := weights m; compiled := compiled m |}.

Definition with_weights (m : Model) (w : W) : Model :=
  {| layers := layers m; weights := w; compiled := compiled m |}.

(** [model.compile(...)] *)
Definition compile_with (m : Model) (c : CompileCfg) : Model :=
  {| layers := layers m; weights := weights m; compiled := Some c |}.

(** An HDF5 data file: its named image arrays and integer arrays. *)
Record H5File : Type := {
  h5_images : gmap string (list Img);
  h5_ints : gmap string (list Z)
}.

Inductive File : Type :=
  | ModelFile (m : Model)
  | WeightsFile (w : W)
  | DataFile (d : H5File)
  | FigureFile (curves : list (string * list Z * list Q)).

Record FitArgs : Type := {
  fit_x : HDF5Matrix Img;
  fit_y : list (list Z);
  fit_validation_data : option (HDF5Matrix Img * list (list Z));
  fit_epochs : Z;
  fit_batch_size : Z;
  fit_shuffle : string;
  fit_callbacks : list ModelCheckpoint
}.

(** What one epoch of training computes. *)
Record EpochOutcome : Type := {
  eo_weights : W;
  eo_loss : Q;
  eo_acc : Q;
  eo_val_loss : Q;
  eo_val_acc : Q
}.

(** The numerical side of the framework, left abstract. *)
Record Backend : Type := {
  (** layers of [InceptionV3(weights='imagenet', include_top=False,
      input_shape=(256, 256, 3))] *)
  InceptionV3 : list Layer;
  (** the pretrained weights together with the initialised head *)
  initial_weights : W;
  (** [multi_gpu_model(model, gpus)]; [None] when replication fails *)
  multi_gpu_model : Model -> Z -> option Model;
  (** one epoch of [fit] on the given model ([None]: any framework error) *)
  train_epoch : Model -> FitArgs -> nat -> option EpochOutcome;
  (** [s.format(epoch=epoch, **logs)] for a string [s] that ends in a
      brace: how its replacement fields expand (number printing, the
      format-spec mini-language), or the exception that a malformed or
      unknown field raises *)
  str_format : string -> Z -> gmap string Q -> Res string
}.

Inductive Event : Type :=
  | EvOpen (path dataset : string)
  | EvLoadModel (path : string) (found : option File)
  | EvSave (path : string) (f : File)
  | EvCompile (site : CompileSite) (m : Model)
  | EvFit (site : FitSite) (m : Model) (a : FitArgs)
  | EvEpochEnd (epoch : nat) (logs : gmap string Q) (m : Model)
      (* the epoch is over and every callback has run *)
  | EvPrint (s : string)
  | EvPlot (xs : list Z) (ys : list Q) (label : string)
  | EvSavefig (path : string).

(** ** The monad of the script: file system, exceptions, trace *)

Definition M (A : Type) : Type :=
  gmap string File -> Res A * gmap string File * list Event.

Definition ret {A} (a : A) : M A := fun fs => (Ok a, fs, []).

Definition bind {A B} (c : M A) (k : A -> M B) : M B :=
  fun fs =>
    match c fs with
    | (Ok a, fs1, t1) =>
        match k a fs1 with
        | (r, fs2, t2) => (r, fs2, t1 ++ t2)
        end
    | (Raise e, fs1, t1) => (Raise e, fs1, t1)
    end.

Definition raise {A} (e : exn) : M A := fun fs => (Raise e, fs, []).

Definition emit (ev : Event) : M unit := fun fs => (Ok tt, fs, [ev]).

Definition read_file (path : string) : M (option File) :=
  fun fs => (Ok (fs !! path), fs, []).

Definition write_file (path : string) (f : File) : M unit :=
  fun fs => (Ok tt, <[path := f]> fs, []).

Definition lift {A} (r : Res A) : M A :=
  match r with
  | Ok a => ret a
  | Raise e => raise e
  end.

Definition lift_opt {A} (o : option A) (e : exn) : M A :=
  match o with
  | Some a => ret a
  | None => raise e
  end.

Notation "x <- c ;; k" := (bind c (fun x => k))
  (at level 100, c at next level, right associativity).
Notation "c ;;; k" := (bind c (fun _ => k))
  (at level 100, right associativity).

Definition result {A} (o : Res A * gmap string File * list Event) : Res A :=
  o.1.1.
Definition files {A} (o : Res A * gmap string File * list Event) :
  gmap string File := o.1.2.
Definition trace {A} (o : Res A * gmap string File * list Event) :
  list Event := o.2.

(** ** The Keras entry points *)

(** [HDF5Matrix(datapath, dataset, end=end_)]: open the file and look the
    array up.  [proj] selects image or integer arrays. *)
Definition HDF5Matrix_open {A} (proj : H5File -> gmap string (list A))
    (datapath dataset : string) (end_ : option Z) : M (HDF5Matrix A) :=
  emit (EvOpen datapath dataset);;;
  f <- read_file datapath;;
  match f with
  | Some (DataFile d) =>
      match proj d !! dataset with
      | Some data => ret (hm_init data end_)
      | None => raise (KeyError dataset)
      end
  | Some (ModelFile _) | Some (WeightsFile _) => raise (KeyError dataset)
  | Some (FigureFile _) | None => raise (OSError datapath)
  end.

(** [load_model(path)] *)
Definition load_model (path : string) : M Model :=
  f <- read_file path;;
  emit (EvLoadModel path f);;;
  match f with
  | Some (ModelFile m) => ret m
  | Some (WeightsFile _) | Some (DataFile _) =>
      raise (ValueError "No model found in config file.")
  | Some (FigureFile _) | None => raise (OSError path)
  end.

(** [model.save(path)] and [model.save_weights(path)] *)
Definition save (m : Model) (path : string) : M unit :=
  write_file path (ModelFile m);;;
  emit (EvSave path (ModelFile m)).

Definition save_weights (m : Model) (path : string) : M unit :=
  write_file path (WeightsFile (weights m));;;
  emit (EvSave path (WeightsFile (weights m))).

(** [model.compile(optimizer=..., loss=..., metrics=...)] *)
Definition compile (site : CompileSite) (m : Model) (c : CompileCfg) : M Model :=
  let m' := compile_with m c in
  emit (EvCompile site m');;;
  ret m'.

(** [ModelCheckpoint.__init__]: which direction counts as an improvement. *)
Definition monitor_greater (cb : ModelCheckpoint) : bool :=
  if String.eqb (mode cb) "min" then false
  else if String.eqb (mode cb) "max" then true
  else str_contains "acc" (monitor cb) || String.prefix "fmeasure" (monitor cb).

Definition checkpoint_init (cb : ModelCheckpoint) : CkptState :=
  {| best := None; epochs_since_last_save := 0 |}.

(** [self.monitor_op(current, self.best)] *)
Definition improves (cb : ModelCheckpoint) (current : Q) (b : option Q) : bool :=
  match b with
  | None => true
  | Some b => if monitor_greater cb then Q_ltb b current else Q_ltb current b
  end.

Variable backend : Backend.

(** [s.format(epoch=epoch, **logs)].  A string without braces has no
    replacement field and is returned as it is.  Otherwise the text after
    the last brace is literal and is copied, and the part that ends in
    that brace is expanded by the backend. *)
Definition py_format (s : string) (epoch : Z) (logs : gmap string Q) :
    Res string :=
  let '(fields, rest) := split_last_brace s in
  if String.eqb fields EmptyString then Ok s
  else match str_format backend fields epoch logs with
       | Ok expanded => Ok (expanded +:+ rest)
       | Raise e => Raise e
       end.

(** [ModelCheckpoint.on_epoch_end(epoch, logs)]: the file path is
    [self.filepath.format(epoch=epoch + 1, **logs)], computed before the
    callback decides whether to save. *)
Definition checkpoint_on_epoch_end (cb : ModelCheckpoint) (st : CkptState)
    (epoch : nat) (logs : gmap string Q) (m : Model) : M CkptState :=
  let since := epochs_since_last_save st + 1 in
  if period cb <=? since then
    path <- lift (py_format (filepath cb) (Z.of_nat epoch + 1) logs);;
    let write := if save_weights_only cb
                 then save_weights m path
                 else save m path in
    if save_best_only cb then
      match logs !! monitor cb with
      | None => ret {| best := best st; epochs_since_last_save := 0 |}
      | Some current =>
          if improves cb current (best st) then
            write;;;
            ret {| best := Some current; epochs_since_last_save := 0 |}
          else ret {| best := best st; epochs_since_last_save := 0 |}
      end
    else
      write;;;
      ret {| best := best st; epochs_since_last_save := 0 |}
  else ret {| best := best st; epochs_since_last_save := since |}.

Fixpoint callbacks_on_epoch_end (cbs : list (ModelCheckpoint * CkptState))
    (epoch : nat) (logs : gmap string Q) (m : Model) :
    M (list (ModelCheckpoint * CkptState)) :=
  match cbs with
  | [] => ret []
  | (cb, st) :: rest =>
      st' <- checkpoint_on_epoch_end cb st epoch logs m;;
      rest' <- callbacks_on_epoch_end rest epoch logs m;;
      ret ((cb, st') :: rest')
  end.

(** The logs of one epoch: the loss, the accuracy when the model was
    compiled with that metric, and their [val_] counterparts when
    validation data was given.  The accuracy is logged as [acc], the name
    the script monitors and plots. *)
Definition has_accuracy (c : CompileCfg) : bool :=
  existsb (fun s => String.eqb s "accuracy" || String.eqb s "acc") (metrics c).

Definition epoch_logs (c : CompileCfg) (a : FitArgs) (o : EpochOutcome) :
    gmap string Q :=
  let l0 : gmap string Q := <["loss" := eo_loss o]> ∅ in
  let l1 := if has_accuracy c then <["acc" := eo_acc o]> l0 else l0 in
  match fit_validation_data a with
  | None => l1
  | Some _ =>
      let l2 := <["val_loss" := eo_val_loss o]> l1 in
      if has_accuracy c then <["val_acc" := eo_val_acc o]> l2 else l2
  end.

(** [History.on_epoch_end]: [self.history.setdefault(k, []).append(v)] for
    every entry of the logs. *)
Definition history_append (h : gmap string (list Q)) (logs : gmap string Q) :
    gmap string (list Q) :=
  merge (fun ol ov =>
           match ov with
           | Some v => Some (default [] ol ++ [v])
           | None => ol
           end) h logs.

(** The epoch loop of [Model.fit]: [n] epochs are left, [epoch] is next. *)
Fixpoint fit_loop (c : CompileCfg) (a : FitArgs) (n : nat) (epoch : nat)
    (m : Model) (cbs : list (ModelCheckpoint * CkptState))
    (h : gmap string (list Q)) : M (Model * gmap string (list Q)) :=
  match n with
  | O => ret (m, h)
  | S n' =>
      o <- lift_opt (train_epoch backend m a epoch)
                    (RuntimeError "training failed");;
      let m' := with_weights m (eo_weights o) in
      let logs := epoch_logs c a o in
      let h' := history_append h logs in
      cbs' <- callbacks_on_epoch_end cbs epoch logs m';;
      emit (EvEpochEnd epoch logs m');;;
      fit_loop c a n' (S epoch) m' cbs' h'
  end.

(** [model.fit(x, y, ...)]: runs [range(0, epochs)], returns the trained
    model (Python updates it in place) and the [History.history] dict.
    What Keras checks of the data before the first epoch is part of the
    first training step here: a fit over no epoch returns. *)
Definition fit (site : FitSite) (m : Model) (a : FitArgs) :
    M (Model * gmap string (list Q)) :=
  match compiled m with
  | None => raise (RuntimeError "You must compile your model before using it.")
  | Some c =>
      emit (EvFit site m a);;;
      fit_loop c a (Z.to_nat (fit_epochs a)) 0 m
               ((fun cb => (cb, checkpoint_init cb)) <$> fit_callbacks a) ∅
  end.

(** ** The script *)

(** The namespace returned by [get_arguments()]. *)
Record Args : Type := {
  GPUs : Z;
  input_model : option string;
  epochs : Z;
  batch_size : Z;
  tiles : option Z;
  file_input : string;
  output_directory : string;
  output_name : string;
  graphical_history : bool
}.

Record Data : Type := {
  train_data : HDF5Matrix Img;
  train_labels : list (list Z);
  val_data : HDF5Matrix Img;
  val_labels : list (list Z)
}.

Notation "'do' p <- c ;; k" := (bind c (fun p => k))
  (at level 100, p pattern, c at next level, right associativity).

(** Lines 75-94: the four arrays, then optionally their prefixes. *)
Definition load_data (args : Args) : M Data :=
  let hdf5_path := file_input args in
  train_data0 <- HDF5Matrix_open h5_images hdf5_path "train_img" None;;
  train_labels0 <- HDF5Matrix_open h5_ints hdf5_path "train_labels" None;;
  train_labels0 <- lift (to_categorical train_labels0);;
  val_data0 <- HDF5Matrix_open h5_images hdf5_path "val_img" None;;
  val_labels0 <- HDF5Matrix_open h5_ints hdf5_path "val_labels" None;;
  val_labels0 <- lift (to_categorical val_labels0);;
  match tiles args with
  | Some t =>
      train_frac <- lift_opt (int_mul_float t f0_8) OverflowError;;
      val_frac <- lift_opt (int_mul_float t f0_2) OverflowError;;
      train_data1 <- HDF5Matrix_open h5_images hdf5_path "train_img"
                                     (Some train_frac);;
      train_labels1 <- HDF5Matrix_open h5_ints hdf5_path "train_labels"
                                       (Some train_frac);;
      train_labels1 <- lift (to_categorical train_labels1);;
      val_data1 <- HDF5Matrix_open h5_images hdf5_path "val_img"
                                   (Some val_frac);;
      val_labels1 <- HDF5Matrix_open h5_ints hdf5_path "val_labels"
                                     (Some val_frac);;
      val_labels1 <- lift (to_categorical val_labels1);;
      ret {| train_data := train_data1; train_labels := train_labels1;
             val_data := val_data1; val_labels := val_labels1 |}
  | None =>
      ret {| train_data := train_data0; train_labels := train_labels0;
             val_data := val_data0; val_labels := val_labels0 |}
  end.

(** [if(args.input_model)]: the path when one was given and is non-empty. *)
Definition given_input_model (args : Args) : option string :=
  if truthy (input_model args) then input_model args else None.

(** Lines 101-106, 126-132 and 171-177: wrap the graph in a [Model], on
    one device or replicated from a CPU-placed template. *)
Definition place_model (args : Args) (m : Model) : M Model :=
  if GPUs args <=? 1 then ret (Model_of m)
  else lift_opt (multi_gpu_model backend (Model_of m) (GPUs args))
                (ValueError "multi_gpu_model").

Definition sgd_crossentropy (ms : list string) : CompileCfg :=
  {| optimizer := "sgd"; loss := "categorical_crossentropy"; metrics := ms |}.

Definition intermediate_file : string := "intermediate_model.hdf5".

(** Lines 118-122: the classification head. *)
Definition head_layers : list Layer :=
  [ {| kind := GlobalAveragePooling2D; trainable := true |};
    {| kind := Dense 1024 "relu"; trainable := true |};
    {| kind := Dropout f0_2; trainable := true |};
    {| kind := Dense 2 "softmax"; trainable := true |} ].

(** Lines 110-165: build the network, train the head, unfreeze, save. *)
Definition new_model_phase (args : Args) (d : Data) : M Model :=
  let graph := {| layers := InceptionV3 backend ++ head_layers;
                  weights := initial_weights backend;
                  compiled := None |} in
  model <- place_model args graph;;
  emit (EvPrint "Freezing Inception Weights");;;
  let model := with_layers model
                 (for_layers_upto 280 (set_trainable false) (layers model)) in
  let model := with_layers model
                 (for_layers_from 280 (set_trainable true) (layers model)) in
  model <- compile CompileHead model (sgd_crossentropy ["accuracy"]);;
  do (model, _) <- fit FitHead model
        {| fit_x := train_data d;
           fit_y := train_labels d;
           fit_validation_data := None;
           fit_epochs := 1;
           fit_batch_size := batch_size args;
           fit_shuffle := "batch";
           fit_callbacks := [] |};;
  emit (EvPrint "Unfreezing inception weights");;;
  let model := with_layers model
                 (for_layers_upto 280 (set_trainable true) (layers model)) in
  model <- compile CompileUnfrozen model (sgd_crossentropy []);;
  save model intermediate_file;;;
  ret model.

(** [plt.plot(x, y, label=...)]; matplotlib rejects unequal lengths. *)
Definition plot (xs : list Z) (ys : list Q) (label : string) : M unit :=
  if Nat.eqb (length xs) (length ys) then emit (EvPlot xs ys label)
  else raise (ValueError "x and y must have same first dimension").

(** Lines 216-229: the four curves and the figure file. *)
Definition plot_history (dir name : string) (history : gmap string (list Q)) :
    M unit :=
  loss <- lift_opt (history !! "loss") (KeyError "loss");;
  let arange := py_range 1 (length loss) in
  plot arange loss "training loss";;;
  val_loss <- lift_opt (history !! "val_loss") (KeyError "val_loss");;
  plot arange val_loss "validation loss";;;
  acc <- lift_opt (history !! "acc") (KeyError "acc");;
  plot arange acc "training accuracy";;;
  val_acc <- lift_opt (history !! "val_acc") (KeyError "val_acc");;
  plot arange val_acc "validation accuracy";;;
  let path := dir +:+ "/" +:+ name +:+ "_training_history.png" in
  write_file path
    (FigureFile [("training loss", arange, loss);
                 ("validation loss", arange, val_loss);
                 ("training accuracy", arange, acc);
                 ("validation accuracy", arange, val_acc)]);;;
  emit (EvSavefig path).

(** Lines 96-165: load the given model, or build and head-train one.
    Returns the model and the flag [new_model]. *)
Definition model_phase (args : Args) (d : Data) : M (Model * bool) :=
  match given_input_model args with
  | Some path =>
      input <- load_model path;;
      model <- place_model args input;;
      ret (model, false)
  | None =>
      model <- new_model_phase args d;;
      ret (model, true)
  end.

(** Lines 167-180: on a new model, reload the intermediate file; returns
    the model and the local variable [epochs]. *)
Definition reload_phase (args : Args) (model : Model) (new_model : bool) :
    M (Model * Z) :=
  if new_model then
    let n := Z.max 1 (epochs args - 1) in
    intermediate_model <- load_model intermediate_file;;
    model <- place_model args intermediate_model;;
    ret (model, n)
  else ret (model, epochs args).

(** Lines 190-198: the checkpoint callback. *)
Definition checkpoint (out_dir : string) (args : Args) : ModelCheckpoint :=
  {| filepath := out_dir +:+ "/" +:+ output_name args +:+ "_model.h5";
     monitor := "val_acc";
     verbose := 1;
     save_best_only := true;
     save_weights_only := false;
     mode := "auto";
     period := 1 |}.

(** Lines 182-211: compile and train with validation and the checkpoint. *)
Definition train_phase (args : Args) (out_dir : string) (d : Data)
    (model : Model) (n_epochs : Z) : M (Model * gmap string (list Q)) :=
  model <- compile CompileFinal model (sgd_crossentropy ["accuracy"]);;
  let callbacks_list := [checkpoint out_dir args] in
  fit FitFinal model
      {| fit_x := train_data d;
         fit_y := train_labels d;
         fit_validation_data := Some (val_data d, val_labels d);
         fit_epochs := n_epochs;
         fit_batch_size := batch_size args;
         fit_shuffle := "batch";
         fit_callbacks := callbacks_list |}.

(** Lines 215-229. *)
Definition report_phase (args : Args) (out_dir : string)
    (history : gmap string (list Q)) : M unit :=
  if graphical_history args
  then plot_history out_dir (output_name args) history
  else ret tt.

(** The whole script, from line 71 on. *)
Definition main (args : Args) : M (Model * gmap string (list Q)) :=
  let out_dir := rstrip "/"%char (output_directory args) in
  d <- load_data args;;
  do (model, new_model) <- model_phase args d;;
  do (model, n_epochs) <- reload_phase args model new_model;;
  do (model, history) <- train_phase args out_dir d model n_epochs;;
  report_phase args out_dir history;;;
  ret (model, history).

(** ** Observations on traces *)

(** The call of [model.fit] an event records, if it is one at [site]. *)
Definition fit_call_of (site : FitSite) (e : Event) :
    option (Model * FitArgs) :=
  match e, site with
  | EvFit FitHead m a, FitHead | EvFit FitFinal m a, FitFinal => Some (m, a)
  | _, _ => None
  end.

(** The calls of [model.fit] made at a given site, in order. *)
Definition fit_calls (site : FitSite) (tr : list Event) :
    list (Model * FitArgs) :=
  omap (fit_call_of site) tr.

(** The first call of [model.fit] at a given site: the events before it,
    the model and arguments of the call, and the events after it. *)
Fixpoint split_at_fit (site : FitSite) (tr : list Event) :
    option (list Event * Model * FitArgs * list Event) :=
  match tr with
  | [] => None
  | e :: rest =>
      match fit_call_of site e with
      | Some (m, a) => Some ([], m, a, rest)
      | None =>
          match split_at_fit site rest with
          | Some (pre, m, a, post) => Some (e :: pre, m, a, post)
          | None => None
          end
      end
  end.

(** The path an event writes to, and the path it reads from. *)
Definition written_path (e : Event) : option string :=
  match e with
  | EvSave p _ | EvSavefig p => Some p
  | _ => None
  end.

Definition read_path (e : Event) : option string :=
  match e with
  | EvOpen p _ | EvLoadModel p _ => Some p
  | _ => None
  end.

(** The logs of the epochs that ended in a trace, in order. *)
Definition epoch_end_logs (e : Event) : option (gmap string Q) :=
  match e with
  | EvEpochEnd _ logs _ => Some logs
  | _ => None
  end.

Definition epoch_logs_of (tr : list Event) : list (gmap string Q) :=
  omap epoch_end_logs tr.

(** The curves drawn in a trace, in order. *)
Definition plot_of (e : Event) : option (list Z * list Q * string) :=
  match e with
  | EvPlot xs ys label => Some (xs, ys, label)
  | _ => None
  end.

Definition plots_of (tr : list Event) : list (list Z * list Q * string) :=
  omap plot_of tr.

(** The last file saved to [path] in a trace, if any. *)
Definition saved_to (path : string) (e : Event) : option File :=
  match e with
  | EvSave p f => if String.eqb p path then Some f else None
  | _ => None
  end.

Definition last_saved (path : string) (tr : list Event) : option File :=
  last (omap (saved_to path) tr).

End Script.

(** ** A concrete world

    A small backend and file system on which the script can be run by
    evaluation: images and weights are numbers, an epoch increments the
    weights, and the validation accuracy over the epochs of one fit is
    0.5, 0.7, 0.6, 0.7, then 0.1.  Of [str.format] this world knows the
    field [{epoch}] and the escapes [{{] and [}}]; it refuses every other
    use of a brace with a [ValueError], and the runs below make none. *)

Inductive format_state : Type :=
  | InText
  | AfterOpen
  | InField (name : string)
  | AfterClose.

Fixpoint demo_expand (st : format_state) (s epoch : string) : Res string :=
  let emit_char a (r : Res string) :=
    match r with Ok t => Ok (String a t) | Raise e => Raise e end in
  match s with
  | EmptyString =>
      match st with
      | InText => Ok EmptyString
      | _ => Raise (ValueError "Single brace encountered in format string")
      end
  | String a s' =>
      match st with
      | InText =>
          if Ascii.eqb a "{"%char then demo_expand AfterOpen s' epoch
          else if Ascii.eqb a "}"%char then demo_expand AfterClose s' epoch
          else emit_char a (demo_expand InText s' epoch)
      | AfterOpen =>
          if Ascii.eqb a "{"%char
          then emit_char a (demo_expand InText s' epoch)
          else if Ascii.eqb a "}"%char
          then Raise (ValueError "field not known to this world")
          else demo_expand (InField (String a EmptyString)) s' epoch
      | InField name =>
          if Ascii.eqb a "}"%char then
            if String.eqb name "epoch" then
              match demo_expand InText s' epoch with
              | Ok t => Ok (epoch +:+ t)
              | Raise e => Raise e
              end
            else Raise (ValueError "field not known to this world")
          else if Ascii.eqb a "{"%char
          then Raise (ValueError "unexpected '{' in field name")
          else demo_expand (InField (name +:+ String a EmptyString)) s' epoch
      | AfterClose =>
          if Ascii.eqb a "}"%char
          then emit_char a (demo_expand InText s' epoch)
          else Raise (ValueError "Single '}' encountered in format string")
      end
  end.

Definition demo_str_format (s : string) (epoch : Z) (logs : gmap string Q) :
    Res string :=
  demo_expand InText s (NilZero.string_of_int (Z.to_int epoch)).

Definition demo_backend : @Backend nat nat :=
  {| InceptionV3 :=
       replicate 311 {| kind := Pretrained "inception_v3"; trainable := true |};
     initial_weights := 0%nat;
     multi_gpu_model := fun m g =>
       Some {| layers := [ {| kind := Other "replicas"; trainable := true |} ];
               weights := weights m;
               compiled := None |};
     train_epoch := fun m a e =>
       Some {| eo_weights := S (weights m);
               eo_loss := 1 # Pos.of_nat (S e);
               eo_acc := 1 # 2;
               eo_val_loss := 1 # 3;
               eo_val_acc := nth e [5 # 10; 7 # 10; 6 # 10; 7 # 10] (1 # 10) |};
     str_format := demo_str_format |}.

Definition demo_labels (n : nat) : list Z :=
  flat_map (fun _ => [0; 1]) (seq 0 n).

(** 40 training rows and 10 validation rows, both with alternating
    labels. *)
Definition demo_data : @H5File nat :=
  {| h5_images := <["train_img" := seq 0 40]> (<["val_img" := seq 100 10]> ∅);
     h5_ints := <["train_labels" := demo_labels 20]>
                  (<["val_labels" := demo_labels 5]> ∅) |}.

Definition demo_fs : gmap string (@File nat nat) :=
  <["data.h5" := DataFile demo_data]> ∅.

(** [-e 4 -b 8 -t 20 -f data.h5 -o out/ -n run -H] *)
Definition demo_args : Args :=
  {| GPUs := 1; input_model := None; epochs := 4; batch_size := 8;
     tiles := Some 20; file_input := "data.h5"; output_directory := "out/";
     output_name := "run"; graphical_history := true |}.

(** [-m prior.h5 -e 5 -b 8 -f data.h5 -H], with [prior.h5] on disk *)
Definition demo_prior : @Model nat :=
  {| layers := replicate 315 {| kind := Other "layer"; trainable := true |};
     weights := 7%nat;
     compiled := None |}.

Definition resume_fs : gmap string (@File nat nat) :=
  <["prior.h5" := ModelFile demo_prior]> demo_fs.

Definition resume_args : Args :=
  {| GPUs := 1; input_model := Some "prior.h5"; epochs := 5; batch_size := 8;
     tiles := None; file_input := "data.h5"; output_directory := ".";
     output_name := ""; graphical_history := true |}.

(** ** Vocabulary of the statements

    The shapes a run of the script can take, and the predicates on
    traces that the theorems are stated with. *)

Section Vocabulary.
Context {Img W : Type} (backend : @Backend Img W).
Implicit Types (fs : gmap string (@File Img W)) (m : @Model W).
Implicit Types (t tr seen t_fit t_p t_d : list (@Event Img W)).

(** Classes of events *)
Definition is_open (p : string) (e : @Event Img W) : Prop :=
  exists d, e = EvOpen p d.

(** Events of an epoch loop: epoch ends and saves. *)
Definition is_epoch_event (e : @Event Img W) : Prop :=
  match e with
  | EvEpochEnd _ _ _ | EvSave _ _ => True
  | _ => False
  end.

(** The outcome of [place_model]. *)
Definition placed (args : Args) (m m' : @Model W) : Prop :=
  if GPUs args <=? 1 then m' = Model_of m
  else multi_gpu_model backend (Model_of m) (GPUs args) = Some m'.

(** The graph of lines 112-122, the model of lines 137-146 and the
    arguments of the first [fit]. *)
Definition fresh_graph : @Model W :=
  {| layers := InceptionV3 backend ++ head_layers;
     weights := initial_weights backend;
     compiled := None |}.

Definition frozen_model (m0 : @Model W) : @Model W :=
  compile_with
    (with_layers (with_layers m0 (for_layers_upto 280 (set_trainable false) (layers m0)))
       (for_layers_from 280 (set_trainable true)
          (for_layers_upto 280 (set_trainable false) (layers m0))))
    (sgd_crossentropy ["accuracy"]).

Definition head_fit_args (args : Args) (d : @Data Img) : @FitArgs Img :=
  {| fit_x := train_data d;
     fit_y := train_labels d;
     fit_validation_data := None;
     fit_epochs := 1;
     fit_batch_size := batch_size args;
     fit_shuffle := "batch";
     fit_callbacks := [] |}.

(** The model of lines 157-163, from the model the first [fit] left. *)
Definition unfrozen_model (m : @Model W) : @Model W :=
  compile_with
    (with_layers m (for_layers_upto 280 (set_trainable true) (layers m)))
    (sgd_crossentropy []).

Definition out_dir (args : Args) : string :=
  rstrip "/"%char (output_directory args).

Definition final_fit_args (args : Args) (d : @Data Img) (n : Z) : @FitArgs Img :=
  {| fit_x := train_data d;
     fit_y := train_labels d;
     fit_validation_data := Some (val_data d, val_labels d);
     fit_epochs := n;
     fit_batch_size := batch_size args;
     fit_shuffle := "batch";
     fit_callbacks := [checkpoint (out_dir args) args] |}.

Definition final_model (m : @Model W) : @Model W :=
  compile_with m (sgd_crossentropy ["accuracy"]).

(** Lines 182-229 from a placed model [m] and an epoch count [n]: the
    events are the final compile and fit, the epochs of the fit, and the
    plots. *)
Definition train_report (args : Args) (d : @Data Img) (m : @Model W) (n : Z)
    fs (r : Res (@Model W * gmap string (list Q))) fs' t : Prop :=
  exists r_t fs_t t_fit,
    fit_loop backend (sgd_crossentropy ["accuracy"]) (final_fit_args args d n)
      (Z.to_nat n) 0 (final_model m)
      [(checkpoint (out_dir args) args,
        checkpoint_init (checkpoint (out_dir args) args))] ∅ fs
    = (r_t, fs_t, t_fit) /\
    match r_t with
    | Raise e =>
        r = Raise e /\ fs' = fs_t /\
        t = EvCompile CompileFinal (final_model m)
            :: EvFit FitFinal (final_model m) (final_fit_args args d n) :: t_fit
    | Ok (model, h) =>
        exists r_p t_p,
          report_phase args (out_dir args) h fs_t = (r_p, fs', t_p) /\
          t = EvCompile CompileFinal (final_model m)
              :: EvFit FitFinal (final_model m) (final_fit_args args d n)
              :: t_fit ++ t_p /\
          r = match r_p with Ok _ => Ok (model, h) | Raise e => Raise e end
    end.

Inductive resume_outcome (args : Args) (path : string) fs :
    Res (@Model W * gmap string (list Q)) -> gmap string (@File Img W) ->
    list (@Event Img W) -> Prop :=
  | resume_data_failed e t_d :
      load_data args fs = (Raise e, fs, t_d) ->
      resume_outcome args path fs (Raise e) fs t_d
  | resume_model_failed d t_d e :
      load_data args fs = (Ok d, fs, t_d) ->
      resume_outcome args path fs (Raise e) fs
        (t_d ++ [EvLoadModel path (fs !! path)])
  | resume_trained d t_d m0 m r fs' t :
      load_data args fs = (Ok d, fs, t_d) ->
      fs !! path = Some (ModelFile m0) ->
      placed args m0 m ->
      train_report args d m (epochs args) fs r fs' t ->
      resume_outcome args path fs r fs'
        (t_d ++ EvLoadModel path (Some (ModelFile m0)) :: t).

(** The model after the one head-training epoch, the model written to
    the intermediate file, and the events of lines 134-165. *)
Definition head_trained (m0 : @Model W) (o : @EpochOutcome W) : @Model W :=
  with_weights (frozen_model m0) (eo_weights o).

Definition intermediate_model (m0 : @Model W) (o : @EpochOutcome W) : @Model W :=
  unfrozen_model (head_trained m0 o).

Definition head_events (args : Args) (d : @Data Img) (m0 : @Model W)
    (o : @EpochOutcome W) : list (@Event Img W) :=
  [ EvPrint "Freezing Inception Weights";
    EvCompile CompileHead (frozen_model m0);
    EvFit FitHead (frozen_model m0) (head_fit_args args d);
    EvEpochEnd 0 (epoch_logs (sgd_crossentropy ["accuracy"])
                             (head_fit_args args d) o) (head_trained m0 o);
    EvPrint "Unfreezing inception weights";
    EvCompile CompileUnfrozen (intermediate_model m0 o);
    EvSave intermediate_file (ModelFile (intermediate_model m0 o)) ].

Inductive fresh_outcome (args : Args) fs :
    Res (@Model W * gmap string (list Q)) -> gmap string (@File Img W) ->
    list (@Event Img W) -> Prop :=
  | fresh_data_failed e t_d :
      load_data args fs = (Raise e, fs, t_d) ->
      fresh_outcome args fs (Raise e) fs t_d
  | fresh_place_failed d t_d e :
      load_data args fs = (Ok d, fs, t_d) ->
      fresh_outcome args fs (Raise e) fs t_d
  | fresh_head_failed d t_d m0 e :
      load_data args fs = (Ok d, fs, t_d) ->
      placed args fresh_graph m0 ->
      train_epoch backend (frozen_model m0) (head_fit_args args d) 0 = None ->
      fresh_outcome args fs (Raise e) fs
        (t_d ++ [EvPrint "Freezing Inception Weights";
                 EvCompile CompileHead (frozen_model m0);
                 EvFit FitHead (frozen_model m0) (head_fit_args args d)])
  | fresh_reload_failed d t_d m0 o e :
      load_data args fs = (Ok d, fs, t_d) ->
      placed args fresh_graph m0 ->
      train_epoch backend (frozen_model m0) (head_fit_args args d) 0 = Some o ->
      fresh_outcome args fs (Raise e)
        (<[intermediate_file := ModelFile (intermediate_model m0 o)]> fs)
        (t_d ++ head_events args d m0 o ++
           [EvLoadModel intermediate_file
                        (Some (ModelFile (intermediate_model m0 o)))])
  | fresh_trained d t_d m0 o m3 r fs' t :
      load_data args fs = (Ok d, fs, t_d) ->
      placed args fresh_graph m0 ->
      train_epoch backend (frozen_model m0) (head_fit_args args d) 0 = Some o ->
      placed args (intermediate_model m0 o) m3 ->
      train_report args d m3 (Z.max 1 (epochs args - 1))
        (<[intermediate_file := ModelFile (intermediate_model m0 o)]> fs)
        r fs' t ->
      fresh_outcome args fs r fs'
        (t_d ++ head_events args d m0 o ++
           EvLoadModel intermediate_file
                       (Some (ModelFile (intermediate_model m0 o))) :: t).

Definition is_report_event (e : @Event Img W) : Prop :=
  match e with
  | EvPlot _ _ _ | EvSavefig _ => True
  | _ => False
  end.

Definition curve_keys : list (string * string) :=
  [("training loss", "loss"); ("validation loss", "val_loss");
   ("training accuracy", "acc"); ("validation accuracy", "val_acc")].

Fixpoint ends_with (suffix s : string) : bool :=
  String.eqb s suffix ||
  match s with
  | EmptyString => false
  | String _ s' => ends_with suffix s'
  end.

Definition ckpt_path (args : Args) : string :=
  out_dir args +:+ "/" +:+ output_name args +:+ "_model.h5".

Definition history_png (args : Args) : string :=
  out_dir args +:+ "/" +:+ output_name args +:+ "_training_history.png".

(** The checkpoint file holds the model of a finished epoch whose
    validation accuracy is [vb], and no finished epoch exceeds [vb]. *)
Definition kept_with (path : string) (seen : list (@Event Img W)) (vb : Q) :
    Prop :=
  exists jb logsb mb,
    last_saved path seen = Some (ModelFile mb) /\
    EvEpochEnd jb logsb mb ∈ seen /\
    logsb !! "val_acc" = Some vb /\
    forall logs, logs ∈ epoch_logs_of seen ->
      exists v, logs !! "val_acc" = Some v /\ (v <= vb)%Q.

Definition best_kept (path : string) (seen : list (@Event Img W)) : Prop :=
  exists vb, kept_with path seen vb.

Definition all_kept (path : string) (seen : list (@Event Img W)) : Prop :=
  forall p1 j logs mj p2,
    seen = p1 ++ EvEpochEnd j logs mj :: p2 ->
    best_kept path (p1 ++ [EvEpochEnd j logs mj]).

Definition ckpt_inv (path : string) (seen : list (@Event Img W))
    (st : CkptState) (fs : gmap string (@File Img W)) : Prop :=
  epochs_since_last_save st = 0 /\
  (forall f, last_saved path seen = Some f -> fs !! path = Some f) /\
  match best st with
  | None => epoch_logs_of seen = []
  | Some vb => kept_with path seen vb
  end.

Definition is_final_fit_event (path : string) (e : @Event Img W) : Prop :=
  match e with
  | EvEpochEnd _ _ _ => True
  | EvSave p (ModelFile _) => p = path
  | _ => False
  end.

(** What the final [fit] can emit whatever the checkpoint path expands
    to: the end of an epoch, or a model saved under a name that ends in
    [_model.h5]. *)
Definition is_checkpoint_event (e : @Event Img W) : Prop :=
  match e with
  | EvEpochEnd _ _ _ => True
  | EvSave p (ModelFile _) => ends_with "_model.h5" p = true
  | _ => False
  end.

Definition after_head_epoch (args : Args) (d : @Data Img) (m0 : @Model W)
    (o : @EpochOutcome W) (rest : list (@Event Img W)) : list (@Event Img W) :=
  EvEpochEnd 0 (epoch_logs (sgd_crossentropy ["accuracy"])
                           (head_fit_args args d) o) (head_trained m0 o)
  :: EvPrint "Unfreezing inception weights"
  :: EvCompile CompileUnfrozen (intermediate_model m0 o)
  :: EvSave intermediate_file (ModelFile (intermediate_model m0 o))
  :: EvLoadModel intermediate_file (Some (ModelFile (intermediate_model m0 o)))
  :: rest.

End Vocabulary.

(** The two runs of the concrete world. *)
Definition demo_run := main demo_backend demo_args demo_fs.

Definition resume_run := main demo_backend resume_args resume_fs.

(** The same data file, except that the first four validation labels are
    all 0: with [-t 20] the validation slice holds one class only. *)
Definition skewed_data : @H5File nat :=
  {| h5_images := h5_images demo_data;
     h5_ints := <["val_labels" := [0; 0; 0; 0; 1; 1; 0; 1; 0; 1]]>
                  (h5_ints demo_data) |}.

Definition skewed_fs : gmap string (@File nat nat) :=
  <["data.h5" := DataFile skewed_data]> ∅.

(** [-m intermediate_model.hdf5 -e 5 -b 8 -f data.h5 -H]: training is
    resumed from the file an earlier fresh run left behind. *)
Definition restart_fs : gmap string (@File nat nat) :=
  <["intermediate_model.hdf5" := ModelFile demo_prior]> demo_fs.

Definition restart_args : Args :=
  {| GPUs := 1; input_model := Some "intermediate_model.hdf5"; epochs := 5;
     batch_size := 8; tiles := None; file_input := "data.h5";
     output_directory := "."; output_name := ""; graphical_history := true |}.

Definition restart_run := main demo_backend restart_args restart_fs.

(** [-e 4 -b 8 -t 20 -f data.h5 -o out/ -n {epoch} -H]: the checkpoint
    path has a replacement field. *)
Definition numbered_args : Args :=
  {| GPUs := 1; input_model := None; epochs := 4; batch_size := 8;
     tiles := Some 20; file_input := "data.h5"; output_directory := "out/";
     output_name := "{epoch}"; graphical_history := true |}.

Definition numbered_run := main demo_backend numbered_args demo_fs.

(** A row of zeros of the given width with a one at [pos]: what a one-hot
    row looks like, written without reference to how it is built. *)
Definition indicator_row (width pos : Z) : list Z :=
  (fun j => if j =? pos then 1 else 0) <$> py_range 0 (Z.to_nat width).

Section CheckpointVocabulary.
Context {Img W : Type}.

(** The last model written to [path] is [mb], written just before the end
    of its epoch; every epoch that ended earlier had a strictly lower
    [val_acc], no epoch that ended later has a higher one, and nothing
    was saved since. *)
Definition first_best (path : string) (seen : list (@Event Img W))
    (mb : @Model W) : Prop :=
  exists s1 j logs vb s2,
    seen = s1 ++ EvSave path (ModelFile mb) :: EvEpochEnd j logs mb :: s2 /\
    logs !! "val_acc" = Some vb /\
    (forall l, l ∈ epoch_logs_of s1 ->
       exists v, l !! "val_acc" = Some v /\ (v < vb)%Q) /\
    (forall l, l ∈ epoch_logs_of s2 ->
       exists v, l !! "val_acc" = Some v /\ (v <= vb)%Q) /\
    (forall p f, EvSave p f ∉ s2).

(** The same, with the accuracy of the kept model exposed; [None] before
    the first epoch. *)
Definition first_best_inv (path : string) (seen : list (@Event Img W))
    (b : option Q) : Prop :=
  match b with
  | None => seen = []
  | Some vb =>
      exists s1 j logs mb s2,
        seen = s1 ++ EvSave path (ModelFile mb) :: EvEpochEnd j logs mb :: s2 /\
        logs !! "val_acc" = Some vb /\
        (forall l, l ∈ epoch_logs_of s1 ->
           exists v, l !! "val_acc" = Some v /\ (v < vb)%Q) /\
        (forall l, l ∈ epoch_logs_of s2 ->
           exists v, l !! "val_acc" = Some v /\ (v <= vb)%Q) /\
        (forall p f, EvSave p f ∉ s2)
  end.

End CheckpointVocabulary.

(** More inputs for the concrete world: a data file without arrays,
    [-t 4], a resumed run with [-e 0], a fresh run without [-H], and a
    backend whose device replication always fails. *)
Definition bare_fs : gmap string (@File nat nat) :=
  <["data.h5" := DataFile {| h5_images := ∅; h5_ints := ∅ |}]> ∅.

Definition tiny_args : Args :=
  {| GPUs := 1; input_model := None; epochs := 4; batch_size := 8;
     tiles := Some 4; file_input := "data.h5"; output_directory := "out/";
     output_name := "run"; graphical_history := true |}.

Definition idle_args : Args :=
  {| GPUs := 1; input_model := Some "prior.h5"; epochs := 0; batch_size := 8;
     tiles := None; file_input := "data.h5"; output_directory := ".";
     output_name := ""; graphical_history := true |}.

Definition idle_run := main demo_backend idle_args resume_fs.

Definition quiet_args : Args :=
  {| GPUs := 1; input_model := None; epochs := 2; batch_size := 8;
     tiles := Some 20; file_input := "data.h5"; output_directory := "out/";
     output_name := "run"; graphical_history := false |}.

Definition quiet_run := main demo_backend quiet_args demo_fs.

Definition single_device_backend : @Backend nat nat :=
  {| InceptionV3 := InceptionV3 demo_backend;
     initial_weights := initial_weights demo_backend;
     multi_gpu_model := fun _ _ => None;
     train_epoch := train_epoch demo_backend;
     str_format := str_format demo_backend |}.

(** * Properties of the script *)

Section Properties.
Context {Img W : Type} (backend : @Backend Img W).
Implicit Types (fs : gmap string (@File Img W)) (m : @Model W).
Implicit Types (t tr seen t_fit t_p t_d : list (@Event Img W)).


Lemma bind_inv {A B} (c : @M Img W A) (k : A -> @M Img W B) fs r fs' t :
  bind c k fs = (r, fs', t) ->
  (exists a fs1 t1 t2,
      c fs = (Ok a, fs1, t1) /\ k a fs1 = (r, fs', t2) /\ t = t1 ++ t2)
  \/ (exists e, c fs = (Raise e, fs', t) /\ r = Raise e).
Proof.
  unfold bind. destruct (c fs) as [[[a|e] fs1] t1].
  - destruct (k a fs1) as [[r2 fs2] t2] eqn:Hk. intros [= <- <- <-].
    left. eauto 10.
  - intros [= <- <- <-]. right. eauto.
Qed.

Lemma ret_inv {A} (a : A) fs r fs' t :
  @ret Img W A a fs = (r, fs', t) -> r = Ok a /\ fs' = fs /\ t = [].
Proof. intros [= <- <- <-]. auto. Qed.

Lemma raise_inv {A} e fs (r : Res A) fs' t :
  @raise Img W A e fs = (r, fs', t) -> r = Raise e /\ fs' = fs /\ t = [].
Proof. intros [= <- <- <-]. auto. Qed.

Lemma emit_inv ev fs r fs' t :
  emit ev fs = (r, fs', t) -> r = Ok tt /\ fs' = fs /\ t = [ev].
Proof. intros [= <- <- <-]. auto. Qed.

Lemma read_file_inv p fs r fs' t :
  read_file p fs = (r, fs', t) -> r = Ok (fs !! p) /\ fs' = fs /\ t = [].
Proof. intros [= <- <- <-]. auto. Qed.

Lemma write_file_inv p f fs r fs' t :
  write_file p f fs = (r, fs', t) -> r = Ok tt /\ fs' = <[p := f]> fs /\ t = [].
Proof. intros [= <- <- <-]. auto. Qed.

Lemma lift_inv {A} (x : Res A) fs r fs' t :
  @lift Img W A x fs = (r, fs', t) -> r = x /\ fs' = fs /\ t = [].
Proof. destruct x; intros [= <- <- <-]; auto. Qed.

Lemma lift_opt_inv {A} (x : option A) e fs r fs' t :
  @lift_opt Img W A x e fs = (r, fs', t) ->
  r = match x with Some a => Ok a | None => Raise e end /\ fs' = fs /\ t = [].
Proof. destruct x; intros [= <- <- <-]; auto. Qed.

(** One step of symbolic execution on a hypothesis [c fs = (r, fs', t)]. *)
Ltac run_step :=
  match goal with
  | H : bind _ _ _ = (_, _, _) |- _ =>
      apply bind_inv in H as [(? & ? & ? & ? & ? & H & ?) | (? & H & ?)]
  | H : ret _ _ = (_, _, _) |- _ => apply ret_inv in H as (? & ? & ?)
  | H : raise _ _ = (_, _, _) |- _ => apply raise_inv in H as (? & ? & ?)
  | H : emit _ _ = (_, _, _) |- _ => apply emit_inv in H as (? & ? & ?)
  | H : read_file _ _ = (_, _, _) |- _ =>
      apply read_file_inv in H as (? & ? & ?)
  | H : write_file _ _ _ = (_, _, _) |- _ =>
      apply write_file_inv in H as (? & ? & ?)
  | H : lift _ _ = (_, _, _) |- _ => apply lift_inv in H as (? & ? & ?)
  | H : lift_opt _ _ _ = (_, _, _) |- _ =>
      apply lift_opt_inv in H as (? & ? & ?)
  end; simplify_eq.

Ltac run_inv := repeat run_step.

Ltac destruct_match_hyp :=
  match goal with
  | H : context [match ?x with _ => _ end] |- _ => destruct x eqn:?
  end.

Lemma HDF5Matrix_open_run {A} proj p d end_ fs r fs' t :
  @HDF5Matrix_open Img W A proj p d end_ fs = (r, fs', t) ->
  fs' = fs /\ t = [EvOpen p d].
Proof.
  unfold HDF5Matrix_open. intros H. run_inv; auto.
  all: repeat match goal with
              | H : context [match ?x with _ => _ end] |- _ => destruct x
              end; run_inv; auto.
Qed.

Lemma load_data_run args fs r fs' t :
  load_data args fs = (r, fs', t) ->
  fs' = fs /\ Forall (is_open (file_input args)) t.
Proof.
  unfold load_data. intros H.
  repeat (run_step ||
    match goal with
    | H : HDF5Matrix_open _ _ _ _ _ = _ |- _ => apply HDF5Matrix_open_run in H as [-> ->]
    | H : match tiles args with _ => _ end _ = _ |- _ => destruct (tiles args)
    end).
  all: split; [reflexivity|].
  all: repeat apply Forall_app_2; repeat constructor; unfold is_open; eauto.
Qed.

Lemma load_model_run path fs r fs' t :
  @load_model Img W path fs = (r, fs', t) ->
  fs' = fs /\ t = [EvLoadModel path (fs !! path)] /\
  (forall m, r = Ok m -> fs !! path = Some (ModelFile m)).
Proof.
  unfold load_model. intros H. run_inv.
  repeat match goal with
         | H : context [match ?x with _ => _ end] |- _ => destruct x eqn:?
         end; run_inv.
  all: repeat split; auto; intros; congruence.
Qed.

Lemma place_model_run args m fs r fs' t :
  place_model backend args m fs = (r, fs', t) ->
  fs' = fs /\ t = [] /\
  (forall m', r = Ok m' ->
     if GPUs args <=? 1 then m' = Model_of m
     else multi_gpu_model backend (Model_of m) (GPUs args) = Some m').
Proof.
  unfold place_model. intros H. destruct (GPUs args <=? 1); run_inv.
  - repeat split; auto. congruence.
  - repeat split; auto. intros m' Hm.
    destruct (multi_gpu_model _ _ _); congruence.
Qed.

Lemma compile_run site m c fs :
  @compile Img W site m c fs =
  (Ok (compile_with m c), fs, [EvCompile site (compile_with m c)]).
Proof. reflexivity. Qed.

Lemma save_run (m : @Model W) path fs :
  @save Img W m path fs =
  (Ok tt, <[path := ModelFile m]> fs, [EvSave path (ModelFile m)]).
Proof. reflexivity. Qed.

Ltac run_keras :=
  repeat (run_step ||
    match goal with
    | H : compile _ _ _ _ = (_, _, _) |- _ =>
        rewrite compile_run in H; simplify_eq
    | H : save _ _ _ = (_, _, _) |- _ => rewrite save_run in H; simplify_eq
    | H : (let '(_, _) := ?x in _) _ = (_, _, _) |- _ => destruct x
    end).

Lemma fit_run site m a fs r fs' t :
  fit backend site m a fs = (r, fs', t) ->
  match compiled m with
  | None => t = [] /\ fs' = fs /\ ~ is_Ok r
  | Some c =>
      exists t', t = EvFit site m a :: t' /\
        fit_loop backend c a (Z.to_nat (fit_epochs a)) 0 m
          ((fun cb => (cb, checkpoint_init cb)) <$> fit_callbacks a) ∅ fs
        = (r, fs', t')
  end.
Proof.
  unfold fit. destruct (compiled m); intros H; run_inv; simpl; eauto.
Qed.

Lemma checkpoint_on_epoch_end_run cb st e logs m fs r fs' t :
  checkpoint_on_epoch_end backend cb st e logs m fs = (r, fs', t) ->
  Forall is_epoch_event t.
Proof.
  unfold checkpoint_on_epoch_end, save, save_weights. intros H.
  repeat match goal with
         | H : context [match ?x with _ => _ end] |- _ => destruct x eqn:?
         end; run_inv.
  all: simpl; auto; repeat constructor.
Qed.

Lemma callbacks_on_epoch_end_run cbs e logs m fs r fs' t :
  callbacks_on_epoch_end backend cbs e logs m fs = (r, fs', t) ->
  Forall is_epoch_event t.
Proof.
  revert fs r fs' t.
  induction cbs as [|[cb st] cbs IH]; simpl; intros fs r fs' t H; run_inv;
    repeat match goal with
    | H : checkpoint_on_epoch_end _ _ _ _ _ _ _ = _ |- _ =>
        apply checkpoint_on_epoch_end_run in H
    | H : callbacks_on_epoch_end _ _ _ _ _ _ = _ |- _ => apply IH in H
    end; simpl in *; try tauto.
  all: rewrite ?app_nil_r; repeat apply Forall_app_2; auto.
Qed.

Lemma fit_loop_events c a n e m cbs h fs r fs' t :
  fit_loop backend c a n e m cbs h fs = (r, fs', t) ->
  Forall is_epoch_event t.
Proof.
  revert e m cbs h fs r fs' t.
  induction n as [|n IH]; simpl; intros e m cbs h fs r fs' t H; run_inv;
    repeat match goal with
    | H : callbacks_on_epoch_end _ _ _ _ _ _ = _ |- _ =>
        apply callbacks_on_epoch_end_run in H
    | H : fit_loop _ _ _ _ _ _ _ _ _ = _ |- _ => apply IH in H
    end; simpl in *; try tauto; try constructor.
  all: repeat apply Forall_app_2; auto; repeat constructor; auto.
Qed.

Lemma new_model_phase_run args d fs r fs' t :
  new_model_phase backend args d fs = (r, fs', t) ->
  (t = [] /\ fs' = fs /\ ~ is_Ok r) \/
  exists m0, placed backend args (fresh_graph backend) m0 /\
    let m1 := frozen_model m0 in
    let a1 := head_fit_args args d in
    (t = [EvPrint "Freezing Inception Weights"; EvCompile CompileHead m1;
          EvFit FitHead m1 a1] /\ fs' = fs /\ ~ is_Ok r
       /\ train_epoch backend m1 a1 0 = None) \/
    exists o, train_epoch backend m1 a1 0 = Some o /\
      let m1' := with_weights m1 (eo_weights o) in
      let m2 := unfrozen_model m1' in
      t = [EvPrint "Freezing Inception Weights"; EvCompile CompileHead m1;
           EvFit FitHead m1 a1;
           EvEpochEnd 0 (epoch_logs (sgd_crossentropy ["accuracy"]) a1 o) m1';
           EvPrint "Unfreezing inception weights";
           EvCompile CompileUnfrozen m2;
           EvSave intermediate_file (ModelFile m2)] /\
      fs' = <[intermediate_file := ModelFile m2]> fs /\
      r = Ok m2.
Proof.
  unfold new_model_phase. intros H.
  apply bind_inv in H as [(m0 & fs1 & t1 & t2 & Hp & H & ->) | (e & Hp & ->)];
    apply place_model_run in Hp as (-> & -> & Hp).
  2: { left. simpl. auto. }
  right. exists m0. split; [exact (Hp _ eq_refl)|].
  unfold fit in H. simpl in H. run_keras; simpl in *; run_keras.
  all: fold (head_fit_args args d) in *; fold (frozen_model m0) in *.
  all: destruct (train_epoch backend (frozen_model m0) (head_fit_args args d) 0)
         as [o|] eqn:Ho; simplify_eq.
  - right. exists o. split; [reflexivity|]. simpl. repeat split; reflexivity.
  - left. simpl. repeat split; auto.
Qed.

(** *** The whole script, case by case *)

Lemma train_phase_run args d m n fs r fs' t :
  train_phase backend args (out_dir args) d m n fs = (r, fs', t) ->
  exists t_fit,
    t = EvCompile CompileFinal (final_model m)
        :: EvFit FitFinal (final_model m) (final_fit_args args d n) :: t_fit /\
    fit_loop backend (sgd_crossentropy ["accuracy"]) (final_fit_args args d n)
      (Z.to_nat n) 0 (final_model m)
      [(checkpoint (out_dir args) args,
        checkpoint_init (checkpoint (out_dir args) args))] ∅ fs
    = (r, fs', t_fit).
Proof.
  intros H. unfold train_phase, fit in H. run_keras; simpl in *; run_keras.
  all: eexists; split; [reflexivity|eassumption].
Qed.

Lemma train_report_ok args d m n fs model h fs_t t_t r_p fs' t_p :
  train_phase backend args (out_dir args) d m n fs = (Ok (model, h), fs_t, t_t) ->
  report_phase args (out_dir args) h fs_t = (r_p, fs', t_p) ->
  train_report backend args d m n fs
    (match r_p with Ok _ => Ok (model, h) | Raise e => Raise e end)
    fs' (t_t ++ t_p).
Proof.
  intros Ht Hr. apply train_phase_run in Ht as (t_fit & -> & Ht).
  eexists _, _, _. split; [eassumption|]. simpl. eauto.
Qed.

Lemma train_report_failed args d m n fs e fs_t t_t :
  train_phase backend args (out_dir args) d m n fs = (Raise e, fs_t, t_t) ->
  train_report backend args d m n fs (Raise e) fs_t t_t.
Proof.
  intros Ht. apply train_phase_run in Ht as (t_fit & -> & Ht).
  eexists _, _, _. split; [eassumption|]. simpl. eauto.
Qed.

Ltac run_phases :=
  repeat match goal with
  | H : load_data _ _ = _ |- _ =>
      pose proof (load_data_run _ _ _ _ _ H) as [-> _]; revert H
  | H : load_model _ _ = _ |- _ => apply load_model_run in H as (-> & -> & ?)
  | H : place_model _ _ _ _ = _ |- _ =>
      apply place_model_run in H as (-> & -> & ?)
  | H : forall m, Ok ?x = Ok m -> _ |- _ => specialize (H _ eq_refl)
  | H : forall m, Raise _ = Ok m -> _ |- _ => clear H
  end; intros.

Lemma main_resume_run args path fs r fs' tr :
  given_input_model args = Some path ->
  main backend args fs = (r, fs', tr) ->
  resume_outcome backend args path fs r fs' tr.
Proof.
  intros Hp H. unfold main, model_phase, reload_phase in H.
  rewrite Hp in H. fold (out_dir args) in H.
  run_keras; run_phases; rewrite <- ?app_assoc, ?app_nil_r; simpl.
  - match goal with H : fs !! path = _ |- _ => rewrite H end.
    eapply resume_trained; eauto.
    match goal with
    | H1 : train_phase _ _ _ _ _ _ _ = _, H2 : report_phase _ _ _ _ = _ |- _ =>
        pose proof (train_report_ok _ _ _ _ _ _ _ _ _ _ _ _ H1 H2) as Htr
    end. exact Htr.
  - match goal with H : fs !! path = _ |- _ => rewrite H end.
    eapply resume_trained; eauto.
    match goal with
    | H1 : train_phase _ _ _ _ _ _ _ = _, H2 : report_phase _ _ _ _ = _ |- _ =>
        pose proof (train_report_ok _ _ _ _ _ _ _ _ _ _ _ _ H1 H2) as Htr
    end. exact Htr.
  - match goal with H : fs !! path = _ |- _ => rewrite H end.
    eapply resume_trained; eauto using train_report_failed.
  - eapply resume_model_failed; eauto.
  - eapply resume_model_failed; eauto.
  - by constructor.
Qed.

Lemma main_fresh_run args fs r fs' tr :
  given_input_model args = None ->
  main backend args fs = (r, fs', tr) ->
  fresh_outcome backend args fs r fs' tr.
Proof.
  intros Hp H. unfold main, model_phase, reload_phase in H.
  rewrite Hp in H. fold (out_dir args) in H.
  run_keras;
    repeat match goal with
    | H : new_model_phase _ _ _ _ = _ |- _ =>
        apply new_model_phase_run in H
          as [(-> & -> & Hr) | (m0 & Hpl & [(-> & -> & Hr & Hnone)
                                           | (o & Ho & -> & -> & Hr)])];
        simpl in Hr; simplify_eq
    end; try tauto.
  all: run_phases; rewrite <- ?app_assoc, ?app_nil_r; simpl.
  all: repeat match goal with
       | H : context [<[?k := ?v]> ?m !! ?k] |- _ =>
           rewrite lookup_insert_eq in H; simplify_eq
       | |- context [<[?k := ?v]> ?m !! ?k] => rewrite lookup_insert_eq
       end.
  all: try match goal with
       | Hd : load_data ?args ?fs = (Ok ?d, ?fs, ?t_d),
         Hpl : placed _ _ (fresh_graph _) ?m0,
         Ho : train_epoch backend (frozen_model ?m0) _ 0 = Some ?o,
         Hpl2 : (if _ then ?m3 = _ else _ = Some ?m3),
         H1 : train_phase _ _ _ _ ?m3 _ _ = (Ok _, _, ?t_t),
         H2 : report_phase _ _ _ _ = (_, _, ?t_p) |- _ =>
           pose proof (train_report_ok _ _ _ _ _ _ _ _ _ _ _ _ H1 H2) as Htr;
           exact (fresh_trained backend args fs d t_d m0 o m3 _ _ (t_t ++ t_p)
                                Hd Hpl Ho Hpl2 Htr)
       | Hd : load_data ?args ?fs = (Ok ?d, ?fs, ?t_d),
         Hpl : placed _ _ (fresh_graph _) ?m0,
         Ho : train_epoch backend (frozen_model ?m0) _ 0 = Some ?o,
         Hpl2 : (if _ then ?m3 = _ else _ = Some ?m3),
         H1 : train_phase _ _ _ _ ?m3 _ _ = (Raise _, _, ?t_t) |- _ =>
           pose proof (train_report_failed _ _ _ _ _ _ _ _ H1) as Htr;
           exact (fresh_trained backend args fs d t_d m0 o m3 _ _ t_t
                                Hd Hpl Ho Hpl2 Htr)
       | Hd : load_data ?args ?fs = (Ok ?d, ?fs, ?t_d),
         Hpl : placed _ _ (fresh_graph _) ?m0,
         Ho : train_epoch backend (frozen_model ?m0) _ 0 = Some ?o |- _ =>
           exact (fresh_reload_failed backend args fs d t_d m0 o _ Hd Hpl Ho)
       | Hd : load_data ?args ?fs = (Ok ?d, ?fs, ?t_d),
         Hpl : placed _ _ (fresh_graph _) ?m0,
         Ho : train_epoch backend (frozen_model ?m0) _ 0 = None |- _ =>
           exact (fresh_head_failed backend args fs d t_d m0 _ Hd Hpl Ho)
       end.
  - eapply fresh_place_failed; eauto.
  - by constructor.
Qed.

(** *** Observations on the traces of the phases *)

Lemma omap_Forall_None {A B} (f : A -> option B) (P : A -> Prop) l :
  (forall x, P x -> f x = None) -> Forall P l -> omap f l = [].
Proof.
  intros Hf. induction 1 as [|x l Hx _ IH]; simpl; [done|].
  by rewrite (Hf _ Hx).
Qed.

Lemma fit_calls_app site t1 t2 :
  fit_calls site (t1 ++ t2) = fit_calls site t1 ++ fit_calls site t2.
Proof. apply omap_app. Qed.

Lemma fit_calls_opens p site t : Forall (is_open p) t -> fit_calls site t = [].
Proof. apply omap_Forall_None. by intros ? [? ->]. Qed.

Lemma fit_calls_epochs site t :
  Forall is_epoch_event t -> fit_calls site t = [].
Proof. apply omap_Forall_None. by intros []. Qed.

Lemma fit_calls_report site t :
  Forall is_report_event t -> fit_calls site t = [].
Proof. apply omap_Forall_None. by intros []. Qed.

Lemma epoch_logs_of_app t1 t2 :
  epoch_logs_of (t1 ++ t2) = epoch_logs_of t1 ++ epoch_logs_of t2.
Proof. apply omap_app. Qed.

Lemma epoch_logs_of_report t :
  Forall is_report_event t -> epoch_logs_of t = [].
Proof. apply omap_Forall_None. by intros []. Qed.

Lemma plots_of_app t1 t2 : plots_of (t1 ++ t2) = plots_of t1 ++ plots_of t2.
Proof. apply omap_app. Qed.

Lemma plots_of_opens p t : Forall (is_open p) t -> plots_of t = [].
Proof. apply omap_Forall_None. by intros ? [? ->]. Qed.

Lemma plots_of_epochs t : Forall is_epoch_event t -> plots_of t = [].
Proof. apply omap_Forall_None. by intros []. Qed.

Lemma last_saved_app p t1 t2 :
  last_saved p (t1 ++ t2) =
  match last_saved p t2 with Some f => Some f | None => last_saved p t1 end.
Proof. unfold last_saved. by rewrite omap_app, last_app. Qed.

Lemma last_saved_report p t :
  Forall is_report_event t -> last_saved p t = None.
Proof.
  intros H. unfold last_saved.
  erewrite omap_Forall_None; [done| |exact H]. by intros [].
Qed.

Lemma fit_calls_cons site (e : @Event Img W) t :
  fit_calls site (e :: t) =
  match fit_call_of site e with
  | Some c => c :: fit_calls site t
  | None => fit_calls site t
  end.
Proof. reflexivity. Qed.

Lemma split_at_fit_cons site (e : @Event Img W) t :
  split_at_fit site (e :: t) =
  match fit_call_of site e with
  | Some (m, a) => Some ([], m, a, t)
  | None =>
      match split_at_fit site t with
      | Some (pre, m, a, post) => Some (e :: pre, m, a, post)
      | None => None
      end
  end.
Proof. reflexivity. Qed.

Lemma split_at_fit_skip site t1 t2 :
  fit_calls site t1 = [] ->
  split_at_fit site (t1 ++ t2) =
  match split_at_fit site t2 with
  | Some (pre, m, a, post) => Some (t1 ++ pre, m, a, post)
  | None => None
  end.
Proof.
  induction t1 as [|e t1 IH].
  - intros _. simpl. by destruct (split_at_fit site t2) as [[[[??]?]?]|].
  - rewrite fit_calls_cons, <- app_comm_cons, split_at_fit_cons.
    destruct (fit_call_of site e) as [[m a]|]; [done|].
    intros H. rewrite (IH H).
    by destruct (split_at_fit site t2) as [[[[??]?]?]|].
Qed.

Lemma split_at_fit_None site t :
  fit_calls site t = [] -> split_at_fit site t = None.
Proof.
  intros H. pose proof (split_at_fit_skip site t [] H) as Hs.
  by rewrite app_nil_r in Hs.
Qed.

Lemma fit_call_of_Some site (e : @Event Img W) m a :
  fit_call_of site e = Some (m, a) -> e = EvFit site m a.
Proof. destruct e, site; try destruct site0; simpl; congruence. Qed.

Lemma split_at_fit_spec site t pre m a post :
  split_at_fit site t = Some (pre, m, a, post) ->
  t = pre ++ EvFit site m a :: post.
Proof.
  revert pre. induction t as [|e t IH]; intros pre; [done|].
  rewrite split_at_fit_cons.
  destruct (fit_call_of site e) as [[m' a']|] eqn:He.
  - intros [= <- <- <- <-]. apply fit_call_of_Some in He as ->. done.
  - destruct (split_at_fit site t) as [[[[pre' m'] a'] post']|]; [|done].
    intros [= <- <- <- <-]. simpl. f_equal. by apply IH.
Qed.

Lemma epoch_logs_of_cons (e : @Event Img W) t :
  epoch_logs_of (e :: t) =
  match epoch_end_logs e with
  | Some l => l :: epoch_logs_of t
  | None => epoch_logs_of t
  end.
Proof. reflexivity. Qed.

Lemma plots_of_cons (e : @Event Img W) t :
  plots_of (e :: t) =
  match plot_of e with
  | Some c => c :: plots_of t
  | None => plots_of t
  end.
Proof. reflexivity. Qed.

Ltac trace_simpl :=
  repeat (progress
    (rewrite ?fit_calls_app, ?epoch_logs_of_app, ?plots_of_app,
             ?fit_calls_cons, ?epoch_logs_of_cons, ?plots_of_cons;
     cbn [fit_call_of epoch_end_logs plot_of])).

(** *** The report *)

Lemma py_range_length a n : length (py_range a n) = n.
Proof. unfold py_range. by rewrite length_map, length_seq. Qed.

Lemma plot_run xs ys label fs r fs' t :
  @plot Img W xs ys label fs = (r, fs', t) ->
  fs' = fs /\
  ((length xs = length ys /\ r = Ok tt /\ t = [EvPlot xs ys label])
   \/ (~ is_Ok r /\ t = [])).
Proof.
  unfold plot. destruct (Nat.eqb_spec (length xs) (length ys)); intros H; run_inv.
  - auto.
  - split; [done|]. right. simpl. auto.
Qed.

Ltac plot_fin :=
  intros [= <- <- <-]; simpl; repeat split; try done;
  try (intros ? ?; by rewrite lookup_insert_ne);
  try (repeat constructor; simpl; try done; by intros ? [= <-]);
  unfold curve_keys;
  repeat match goal with
  | H : _ ∈ _ :: _ |- _ => apply elem_of_cons in H as [H|H]
  | H : _ ∈ [] |- _ => by apply elem_of_nil in H
  end; simplify_eq; try congruence;
  eexists; (split; [|eassumption]); set_solver.

Lemma plot_history_run dir name h fs r fs' t :
  @plot_history Img W dir name h fs = (r, fs', t) ->
  let png := dir +:+ "/" +:+ name +:+ "_training_history.png" in
  Forall is_report_event t /\
  (forall p, p <> png -> fs' !! p = fs !! p) /\
  Forall (fun e => forall p, written_path e = Some p -> p = png) t /\
  Forall (fun e => read_path e = None) t /\
  (forall xs ys label, (xs, ys, label) ∈ plots_of t ->
     xs = py_range 1 (length ys) /\
     exists key, (label, key) ∈ curve_keys /\ h !! key = Some ys) /\
  (is_Ok r -> (plots_of t).*2 = curve_keys.*1).
Proof.
  unfold plot_history, plot, bind, lift_opt, ret, raise, emit, write_file.
  destruct (h !! "loss") as [l1|] eqn:E1; cbn beta iota; [|plot_fin].
  rewrite py_range_length, Nat.eqb_refl; cbn beta iota.
  destruct (h !! "val_loss") as [l2|] eqn:E2; cbn beta iota; [|plot_fin].
  destruct (Nat.eqb_spec (length l1) (length l2)) as [L2|L2];
    cbn beta iota; [|plot_fin].
  destruct (h !! "acc") as [l3|] eqn:E3; cbn beta iota; [|plot_fin].
  destruct (Nat.eqb_spec (length l1) (length l3)) as [L3|L3];
    cbn beta iota; [|plot_fin].
  destruct (h !! "val_acc") as [l4|] eqn:E4; cbn beta iota; [|plot_fin].
  destruct (Nat.eqb_spec (length l1) (length l4)) as [L4|L4];
    cbn beta iota; plot_fin.
Qed.

Lemma report_phase_run args h fs r fs' t :
  @report_phase Img W args (out_dir args) h fs = (r, fs', t) ->
  let png := out_dir args +:+ "/" +:+ output_name args
             +:+ "_training_history.png" in
  Forall is_report_event t /\
  (forall p, p <> png -> fs' !! p = fs !! p) /\
  Forall (fun e => forall p, written_path e = Some p -> p = png) t /\
  Forall (fun e => read_path e = None) t /\
  (forall xs ys label, (xs, ys, label) ∈ plots_of t ->
     xs = py_range 1 (length ys) /\
     exists key, (label, key) ∈ curve_keys /\ h !! key = Some ys) /\
  (is_Ok r -> graphical_history args = true ->
   (plots_of t).*2 = curve_keys.*1).
Proof.
  unfold report_phase. destruct (graphical_history args); intros H.
  - apply plot_history_run in H. simpl in *. intuition.
  - run_inv. simpl. repeat split; try done; try constructor.
    all: match goal with H : _ ∈ [] |- _ => by apply elem_of_nil in H end.
Qed.

(** *** File names *)

Lemma ends_with_app suffix a s :
  ends_with suffix s = true -> ends_with suffix (a +:+ s) = true.
Proof.
  intros H. induction a as [|c a IH]; [done|].
  change (String c a +:+ s) with (String c (a +:+ s)). cbn [ends_with].
  rewrite IH. apply orb_true_r.
Qed.

Lemma ends_with_refl s : ends_with s s = true.
Proof. destruct s; cbn [ends_with]; by rewrite String.eqb_refl. Qed.

Lemma append_inj_r (a b c : string) : a +:+ b = a +:+ c -> b = c.
Proof. induction a as [|x a IH]; simpl; [done|]. intros [= H]. auto. Qed.

Lemma ckpt_path_not_intermediate args : ckpt_path args <> intermediate_file.
Proof.
  intros H.
  assert (ends_with "_model.h5" (ckpt_path args) = true) as He.
  { unfold ckpt_path. do 3 apply ends_with_app. apply ends_with_refl. }
  rewrite H in He. discriminate He.
Qed.

Lemma history_png_not_intermediate args : history_png args <> intermediate_file.
Proof.
  intros H.
  assert (ends_with "_training_history.png" (history_png args) = true) as He.
  { unfold history_png. do 3 apply ends_with_app. apply ends_with_refl. }
  rewrite H in He. discriminate He.
Qed.

Lemma ckpt_path_not_png args : ckpt_path args <> history_png args.
Proof.
  unfold ckpt_path, history_png. intros H.
  do 3 apply append_inj_r in H. discriminate H.
Qed.

(** *** Replacement fields in a path *)

Lemma split_last_brace_free s :
  has_brace s = false -> split_last_brace s = (EmptyString, s).
Proof.
  induction s as [|a s IH]; [done|]. cbn [has_brace split_last_brace].
  intros [Ha Hs]%orb_false_elim. by rewrite (IH Hs), Ha.
Qed.

Lemma py_format_free s e logs :
  has_brace s = false -> py_format backend s e logs = Ok s.
Proof. intros H. unfold py_format. by rewrite (split_last_brace_free s H). Qed.

Lemma split_last_brace_rest suffix s :
  has_brace suffix = false -> ends_with suffix s = true ->
  ends_with suffix (split_last_brace s).2 = true.
Proof.
  intros Hb. induction s as [|a s IH]; cbn [ends_with split_last_brace].
  - done.
  - intros [He|He]%orb_true_elim.
    + apply String.eqb_eq in He. rewrite <- He in Hb.
      pose proof (split_last_brace_free (String a s) Hb) as Hfree.
      cbn [split_last_brace] in Hfree. rewrite Hfree. cbn [snd].
      rewrite <- He. apply ends_with_refl.
    + specialize (IH He). destruct (split_last_brace s) as [f r].
      cbn [snd] in IH.
      destruct (negb (String.eqb f EmptyString)); [done|].
      destruct (is_brace a); [done|]. cbn [snd ends_with].
      rewrite IH. apply orb_true_r.
Qed.

Lemma py_format_suffix suffix s e logs p :
  has_brace suffix = false -> ends_with suffix s = true ->
  py_format backend s e logs = Ok p -> ends_with suffix p = true.
Proof.
  intros Hb Hs. unfold py_format.
  pose proof (split_last_brace_rest suffix s Hb Hs) as Hr.
  destruct (split_last_brace s) as [f r]. cbn [snd] in Hr.
  destruct (String.eqb f EmptyString); [by intros [= <-]|].
  destruct (str_format backend f e logs) as [x|]; [|done].
  intros [= <-]. by apply ends_with_app.
Qed.

Lemma ckpt_path_suffix args : ends_with "_model.h5" (ckpt_path args) = true.
Proof. unfold ckpt_path. do 3 apply ends_with_app. apply ends_with_refl. Qed.

Lemma model_suffix_not_intermediate p :
  ends_with "_model.h5" p = true -> p <> intermediate_file.
Proof. intros H ->. discriminate H. Qed.

Lemma length_append (a b : string) :
  String.length (a +:+ b) = (String.length a + String.length b)%nat.
Proof.
  induction a as [|c a IH]; [done|].
  change (String c a +:+ b) with (String c (a +:+ b)).
  cbn [String.length]. by rewrite IH.
Qed.

Lemma append_assoc (a b c : string) : a +:+ (b +:+ c) = (a +:+ b) +:+ c.
Proof.
  induction a as [|x a IH]; [done|].
  change (String x a +:+ (b +:+ c)) with (String x (a +:+ (b +:+ c))).
  change ((String x a +:+ b) +:+ c) with (String x ((a +:+ b) +:+ c)).
  by rewrite IH.
Qed.

Lemma model_suffix_not_png args p :
  ends_with "_model.h5" p = true -> p <> history_png args.
Proof.
  intros H ->.
  assert (forall a, ends_with "_model.h5" (a +:+ "_training_history.png") = false)
    as Hno.
  { intros a. induction a as [|c a IH]; [done|].
    change (String c a +:+ "_training_history.png")
      with (String c (a +:+ "_training_history.png")).
    cbn [ends_with]. rewrite IH, orb_false_r.
    apply String.eqb_neq. intros Heq.
    assert (String.length (String c (a +:+ "_training_history.png")) = 9%nat)
      as Hlen by (by rewrite Heq).
    cbn [String.length] in Hlen. rewrite length_append in Hlen.
    cbn in Hlen. lia. }
  unfold history_png in H.
  rewrite !append_assoc, Hno in H. discriminate H.
Qed.

(** *** The history dictionary *)

Lemma history_append_lookup (h : gmap string (list Q)) logs k :
  history_append h logs !! k =
  match logs !! k with
  | Some v => Some (default [] (h !! k) ++ [v])
  | None => h !! k
  end.
Proof.
  unfold history_append. rewrite lookup_merge.
  by destruct (h !! k), (logs !! k).
Qed.

Lemma history_fold_lookup (ls : list (gmap string Q)) h k :
  foldl history_append h ls !! k =
  match omap (fun logs : gmap string Q => logs !! k) ls with
  | [] => h !! k
  | vs => Some (default [] (h !! k) ++ vs)
  end.
Proof.
  revert h. induction ls as [|l ls IH]; intros h; [done|].
  cbn [foldl]. rewrite IH, history_append_lookup.
  set (f := fun logs : gmap string Q => logs !! k).
  assert (omap f (l :: ls) =
          match l !! k with Some y => y :: omap f ls | None => omap f ls end)
    as -> by reflexivity.
  destruct (l !! k) as [v|]; destruct (omap f ls); simpl;
    by rewrite <- ?app_assoc.
Qed.

Lemma omap_lookup_length (ls : list (gmap string Q)) k :
  Forall (fun logs => is_Some (logs !! k)) ls ->
  length (omap (fun logs : gmap string Q => logs !! k) ls) = length ls.
Proof.
  induction 1 as [|l ls [v Hv] _ IH]; [done|].
  set (f := fun logs : gmap string Q => logs !! k) in *.
  assert (omap f (l :: ls) = v :: omap f ls) as ->.
  { change (omap f (l :: ls))
      with (match f l with Some y => y :: omap f ls | None => omap f ls end).
    unfold f at 1. by rewrite Hv. }
  simpl. by rewrite IH.
Qed.

(** *** The checkpoint callback of the script *)

Lemma improves_checkpoint dir args v b :
  improves (checkpoint dir args) v b =
  match b with None => true | Some b => Q_ltb b v end.
Proof. by destruct b. Qed.

Lemma Q_ltb_lt x y : Q_ltb x y = true <-> (x < y)%Q.
Proof. unfold Q_ltb, Qlt. apply Z.ltb_lt. Qed.

Lemma checkpoint_step args st e (logs : gmap string Q) (m : @Model W) fs v :
  epochs_since_last_save st = 0 ->
  logs !! "val_acc" = Some v ->
  callbacks_on_epoch_end backend
    [(checkpoint (out_dir args) args, st)] e logs m fs =
  match py_format backend (ckpt_path args) (Z.of_nat e + 1) logs with
  | Raise ex => (Raise ex, fs, [])
  | Ok path =>
      if improves (checkpoint (out_dir args) args) v (best st)
      then (Ok [(checkpoint (out_dir args) args,
                 {| best := Some v; epochs_since_last_save := 0 |})],
            <[path := ModelFile m]> fs,
            [EvSave path (ModelFile m)])
      else (Ok [(checkpoint (out_dir args) args,
                 {| best := best st; epochs_since_last_save := 0 |})],
            fs, [])
  end.
Proof.
  intros Hs Hv. unfold callbacks_on_epoch_end, checkpoint_on_epoch_end.
  rewrite Hs. cbn [period save_best_only save_weights_only monitor filepath checkpoint].
  change (1 <=? 0 + 1) with true. cbv iota. fold (ckpt_path args).
  unfold bind at 1 2. unfold lift.
  destruct (py_format backend (ckpt_path args) (Z.of_nat e + 1) logs)
    as [path|ex]; [|reflexivity].
  cbn [ret]. rewrite Hv.
  destruct (improves _ v (best st)); reflexivity.
Qed.

Lemma final_logs_lookup args (d : @Data Img) n (o : @EpochOutcome W) :
  let logs := epoch_logs (sgd_crossentropy ["accuracy"])
                         (final_fit_args args d n) o in
  logs !! "loss" = Some (eo_loss o) /\
  logs !! "acc" = Some (eo_acc o) /\
  logs !! "val_loss" = Some (eo_val_loss o) /\
  logs !! "val_acc" = Some (eo_val_acc o).
Proof.
  cbn. repeat split.
  all: repeat (rewrite lookup_insert_ne by done); by rewrite lookup_insert_eq.
Qed.

(** *** The epochs of the final fit *)

Lemma snoc_split {A} (l : list A) x p1 y p2 :
  l ++ [x] = p1 ++ y :: p2 ->
  (p2 = [] /\ l = p1 /\ x = y) \/
  (exists p2', p2 = p2' ++ [x] /\ l = p1 ++ y :: p2').
Proof.
  destruct p2 as [|z p2 _] using rev_ind.
  - intros H. apply app_inj_tail in H as [-> ->]. auto.
  - rewrite app_comm_cons, app_assoc. intros H.
    apply app_inj_tail in H as [-> ->]. right. eauto.
Qed.

Lemma all_kept_nil path : all_kept path ([] : list (@Event Img W)).
Proof. intros p1 j logs mj p2 H. by destruct p1. Qed.

Lemma all_kept_snoc_epoch path seen j logs m :
  all_kept path seen ->
  best_kept path (seen ++ [EvEpochEnd j logs m]) ->
  all_kept path (seen ++ [EvEpochEnd j logs m]).
Proof.
  intros Ha Hb p1 j' logs' mj p2 H.
  apply snoc_split in H as [(-> & -> & <-) | (p2' & -> & ->)]; [done|].
  by eapply Ha.
Qed.

Lemma all_kept_snoc_save path seen p f :
  all_kept path seen -> all_kept path (seen ++ [EvSave p f]).
Proof.
  intros Ha p1 j' logs' mj p2 H.
  apply snoc_split in H as [(-> & -> & ?) | (p2' & -> & ->)]; [done|].
  by eapply Ha.
Qed.

Lemma last_saved_same path m :
  @last_saved Img W path [EvSave path (ModelFile m)] = Some (ModelFile m).
Proof. unfold last_saved. simpl. by rewrite String.eqb_refl. Qed.

Lemma kept_after_save path seen e (logs : gmap string Q) m1 v :
  logs !! "val_acc" = Some v ->
  (forall l, l ∈ epoch_logs_of seen ->
     exists v', l !! "val_acc" = Some v' /\ (v' <= v)%Q) ->
  kept_with path
    (seen ++ [EvSave path (ModelFile m1)] ++ [EvEpochEnd e logs m1]) v.
Proof.
  intros Hv Hle. exists e, logs, m1.
  rewrite !last_saved_app, !epoch_logs_of_app, last_saved_same.
  repeat split; auto.
  - set_solver.
  - intros l Hl. simpl in Hl. rewrite ?app_nil_r in Hl.
    apply elem_of_app in Hl as [Hl|Hl]; [auto|].
    apply list_elem_of_singleton in Hl as ->.
    exists v. split; [done|]. apply Qle_refl.
Qed.

Lemma kept_after_skip path seen e (logs : gmap string Q) (m1 : @Model W) v vb :
  logs !! "val_acc" = Some v -> (v <= vb)%Q ->
  kept_with path seen vb ->
  kept_with path (seen ++ [] ++ [EvEpochEnd e logs m1]) vb.
Proof.
  intros Hv Hle (jb & logsb & mb & Hls & Hin & Hvb & Hall).
  exists jb, logsb, mb.
  rewrite !last_saved_app, !epoch_logs_of_app. simpl. rewrite Hls.
  repeat split; auto.
  - set_solver.
  - intros l Hl.
    apply elem_of_app in Hl as [Hl|Hl]; [auto|].
    apply list_elem_of_singleton in Hl as ->. eauto.
Qed.

(** One epoch end of the final fit keeps the invariant. *)
Lemma epoch_end_inv path seen st fs e (logs : gmap string Q) (m1 : @Model W) v :
  ckpt_inv path seen st fs ->
  logs !! "val_acc" = Some v ->
  let saved := match best st with None => true | Some b => Q_ltb b v end in
  let t2 := if saved then [EvSave path (ModelFile m1)] else [] in
  let fs1 := if saved then <[path := ModelFile m1]> fs else fs in
  let st1 := {| best := if saved then Some v else best st;
                epochs_since_last_save := 0 |} in
  ckpt_inv path (seen ++ t2 ++ [EvEpochEnd e logs m1]) st1 fs1 /\
  best_kept path (seen ++ t2 ++ [EvEpochEnd e logs m1]).
Proof.
  intros (Hs & Hfs & Hbest) Hv.
  assert (forall vb, kept_with path
            (seen ++ [EvSave path (ModelFile m1)] ++ [EvEpochEnd e logs m1]) vb ->
          forall f, last_saved path
            (seen ++ [EvSave path (ModelFile m1)] ++ [EvEpochEnd e logs m1])
            = Some f ->
          <[path := ModelFile m1]> fs !! path = Some f) as Hsave.
  { intros _ _ f. rewrite !last_saved_app, last_saved_same. simpl.
    intros [= <-]. by rewrite lookup_insert_eq. }
  destruct (best st) as [vb|] eqn:Eb; simpl.
  - destruct (Q_ltb vb v) eqn:Elt.
    + apply Q_ltb_lt in Elt.
      assert (kept_with path
        (seen ++ [EvSave path (ModelFile m1)] ++ [EvEpochEnd e logs m1]) v)
        as Hk.
      { apply kept_after_save; [done|].
        destruct Hbest as (jb & logsb & mb & _ & _ & _ & Hall).
        intros l Hl. destruct (Hall _ Hl) as (v' & ? & ?).
        exists v'. split; [done|].
        apply Qlt_le_weak. eapply Qle_lt_trans; eauto. }
      split; [|by exists v]. repeat split; simpl; eauto.
    + assert (v <= vb)%Q as Hle.
      { apply Qnot_lt_le. intros Hlt. apply Q_ltb_lt in Hlt. congruence. }
      assert (kept_with path (seen ++ [] ++ [EvEpochEnd e logs m1]) vb) as Hk
        by (by eapply kept_after_skip).
      split; [|by exists vb]. repeat split; simpl; auto.
      intros f. rewrite !last_saved_app. simpl. apply Hfs.
  - assert (kept_with path
        (seen ++ [EvSave path (ModelFile m1)] ++ [EvEpochEnd e logs m1]) v)
        as Hk.
    { apply kept_after_save; [done|]. rewrite Hbest.
      intros l Hl. by apply elem_of_nil in Hl. }
    split; [|by exists v]. repeat split; simpl; eauto.
Qed.

Lemma ckpt_inv_end path seen st fs :
  ckpt_inv path seen st fs ->
  epoch_logs_of seen = [] \/ best_kept path seen.
Proof.
  intros (_ & _ & Hb). destruct (best st) as [vb|]; [right|by left].
  by exists vb.
Qed.

Lemma final_fit_loop_events args (d : @Data Img) nE n :
  forall e m st h fs r fs' t,
    fit_loop backend (sgd_crossentropy ["accuracy"])
      (final_fit_args args d nE) n e m
      [(checkpoint (out_dir args) args, st)] h fs = (r, fs', t) ->
    epochs_since_last_save st = 0 ->
    Forall is_checkpoint_event t /\
    (forall p, ends_with "_model.h5" p = false -> fs' !! p = fs !! p) /\
    Forall (fun logs =>
              exists o : @EpochOutcome W,
                logs = epoch_logs (sgd_crossentropy ["accuracy"])
                                  (final_fit_args args d nE) o)
           (epoch_logs_of t) /\
    (forall m' h', r = Ok (m', h') ->
       length (epoch_logs_of t) = n /\
       h' = foldl history_append h (epoch_logs_of t)).
Proof.
  induction n as [|n IH]; intros e m st h fs r fs' t H Hs.
  - simpl in H. run_inv. repeat split; auto; try constructor.
    all: intros; by simplify_eq.
  - cbn [fit_loop] in H.
    apply bind_inv in H as [(o & fs0 & t0 & t1 & Ho & H & ->) | (x & Ho & ->)];
      apply lift_opt_inv in Ho as (Ho & -> & ->).
    2: { repeat split; auto; try constructor. all: intros; by simplify_eq. }
    set (logs := epoch_logs (sgd_crossentropy ["accuracy"])
                            (final_fit_args args d nE) o) in *.
    set (m1 := with_weights m (eo_weights o)) in *.
    destruct (final_logs_lookup args d nE o) as (_ & _ & _ & Hv).
    fold logs in Hv.
    pose proof (checkpoint_step args st e logs m1 fs _ Hs Hv) as Hstep.
    pose proof (fun p => py_format_suffix "_model.h5" (ckpt_path args)
                           (Z.of_nat e + 1) logs p eq_refl
                           (ckpt_path_suffix args)) as Hsuf.
    destruct (py_format backend (ckpt_path args) (Z.of_nat e + 1) logs)
      as [path|ex].
    2: { apply bind_inv in H
           as [(cbs & fs1 & t2 & t3 & Hc & H & ->) | (x & Hc & ->)];
           rewrite Hstep in Hc; simplify_eq.
         repeat split; auto; try constructor. all: intros; by simplify_eq. }
    specialize (Hsuf path eq_refl).
    apply bind_inv in H as [(cbs & fs1 & t2 & t3 & Hc & H & ->) | (x & Hc & ->)];
      rewrite Hstep in Hc.
    2: { destruct (improves _ _ _); discriminate. }
    apply bind_inv in H as [([] & fs2 & t4 & t5 & He & H & ->) | (x & He & ->)];
      apply emit_inv in He as (He & -> & ->); [|discriminate].
    assert (Forall is_checkpoint_event t2
            /\ epoch_logs_of t2 = []
            /\ (forall p, ends_with "_model.h5" p = false ->
                   fs1 !! p = fs !! p)
            /\ exists st1, cbs = [(checkpoint (out_dir args) args, st1)]
                 /\ epochs_since_last_save st1 = 0)
      as (Hev & Hnl & Hfr & st1 & -> & Hs1).
    { destruct (improves _ _ _); simplify_eq; simpl.
      - repeat split; try done; [repeat constructor; done| |eauto].
        intros p Hp. rewrite lookup_insert_ne; [done|]. intros ->. congruence.
      - repeat split; try done; eauto. }
    apply (IH _ _ _ _ _ _ _ _ H) in Hs1 as (Hev2 & Hfr2 & Hlogs2 & Hok2).
    simpl. repeat split.
    + apply Forall_app_2; [done|]. constructor; [done|exact Hev2].
    + intros p Hp. rewrite Hfr2, Hfr; auto.
    + rewrite !epoch_logs_of_app, Hnl. simpl.
      constructor; [by exists o|done].
    + rewrite !epoch_logs_of_app, Hnl. simpl.
      destruct (Hok2 _ _ H0) as [-> _]. done.
    + rewrite !epoch_logs_of_app, Hnl. simpl.
      destruct (Hok2 _ _ H0) as [_ ->]. done.
Qed.

Lemma final_fit_loop args (d : @Data Img) nE n :
  has_brace (ckpt_path args) = false ->
  forall e m st h fs r fs' t seen,
    fit_loop backend (sgd_crossentropy ["accuracy"])
      (final_fit_args args d nE) n e m
      [(checkpoint (out_dir args) args, st)] h fs = (r, fs', t) ->
    ckpt_inv (ckpt_path args) seen st fs ->
    all_kept (ckpt_path args) seen ->
    all_kept (ckpt_path args) (seen ++ t) /\
    (epoch_logs_of (seen ++ t) = [] \/ best_kept (ckpt_path args) (seen ++ t)) /\
    (forall f, last_saved (ckpt_path args) (seen ++ t) = Some f ->
               fs' !! ckpt_path args = Some f) /\
    (forall p, p <> ckpt_path args -> fs' !! p = fs !! p) /\
    Forall (is_final_fit_event (ckpt_path args)) t /\
    Forall (fun logs =>
              exists o : @EpochOutcome W,
                logs = epoch_logs (sgd_crossentropy ["accuracy"])
                                  (final_fit_args args d nE) o)
           (epoch_logs_of t) /\
    (forall m' h', r = Ok (m', h') ->
       length (epoch_logs_of t) = n /\
       h' = foldl history_append h (epoch_logs_of t)).
Proof.
  intros Hnb.
  induction n as [|n IH]; intros e m st h fs r fs' t seen H Hinv Hall.
  - simpl in H. run_inv. rewrite app_nil_r.
    pose proof (ckpt_inv_end _ _ _ _ Hinv) as Hend.
    destruct Hinv as (_ & Hfs & _). repeat split; auto; try constructor.
    all: intros; by simplify_eq.
  - cbn [fit_loop] in H.
    apply bind_inv in H as [(o & fs0 & t0 & t1 & Ho & H & ->) | (x & Ho & ->)];
      apply lift_opt_inv in Ho as (Ho & -> & ->).
    2: { rewrite app_nil_r.
         pose proof (ckpt_inv_end _ _ _ _ Hinv) as Hend.
         destruct Hinv as (_ & Hfs & _).
         repeat split; auto; try constructor. all: intros; by simplify_eq. }
    set (logs := epoch_logs (sgd_crossentropy ["accuracy"])
                            (final_fit_args args d nE) o) in *.
    set (m1 := with_weights m (eo_weights o)) in *.
    destruct (final_logs_lookup args d nE o) as (_ & _ & _ & Hv).
    fold logs in Hv.
    pose proof (epoch_end_inv _ _ _ _ e logs m1 _ Hinv Hv) as [Hinv1 Hk1].
    destruct Hinv as (Hs & Hfs & Hbest).
    apply bind_inv in H as [(cbs & fs1 & t2 & t3 & Hc & H & ->) | (x & Hc & ->)];
      rewrite (checkpoint_step args st e logs m1 fs _ Hs Hv),
              (py_format_free _ _ _ Hnb), improves_checkpoint in Hc.
    2: { destruct (match best st with Some b => _ | None => _ end);
         discriminate. }
    apply bind_inv in H as [([] & fs2 & t4 & t5 & He & H & ->) | (x & He & ->)];
      apply emit_inv in He as (He & -> & ->); [|discriminate].
    set (saved := match best st with
                  | Some b => Q_ltb b (eo_val_acc o) | None => true end) in *.
    assert (all_kept (ckpt_path args) (seen ++ t2 ++ [EvEpochEnd e logs m1])
            /\ Forall (is_final_fit_event (ckpt_path args)) t2
            /\ epoch_logs_of t2 = []
            /\ (forall p, p <> ckpt_path args -> fs1 !! p = fs !! p))
      as (Hall1 & Hev & Hnl & Hfr).
    { destruct saved; simplify_eq; simpl.
      - repeat split; try done; [| repeat constructor
                                 | intros p Hp; by rewrite lookup_insert_ne].
        change (seen ++ EvSave (ckpt_path args) (ModelFile m1)
                     :: [EvEpochEnd e logs m1])
          with (seen ++ [EvSave (ckpt_path args) (ModelFile m1)]
                     ++ [EvEpochEnd e logs m1]).
        rewrite app_assoc. apply all_kept_snoc_epoch.
        + by apply all_kept_snoc_save.
        + by rewrite <- app_assoc.
      - repeat split; try done. by apply all_kept_snoc_epoch. }
    assert (ckpt_inv (ckpt_path args) (seen ++ t2 ++ [EvEpochEnd e logs m1])
              (snd (hd (checkpoint (out_dir args) args, st) cbs)) fs1
            /\ exists st1, cbs = [(checkpoint (out_dir args) args, st1)])
      as (Hinv2 & st1 & ->).
    { destruct saved; simplify_eq; simpl; eauto. }
    simpl in Hinv2.
    apply (IH _ _ _ _ _ _ _ _ _ H Hinv2) in Hall1
      as (Hall2 & Hend2 & Hfs2 & Hfr2 & Hev2 & Hlogs2 & Hok2).
    rewrite <- ?app_assoc in Hall2, Hfs2, Hend2.
    rewrite <- ?app_assoc. simpl.
    repeat split; auto.
    + intros p Hp. rewrite Hfr2, Hfr; auto.
    + apply Forall_app_2; [done|]. constructor; [done|exact Hev2].
    + rewrite !epoch_logs_of_app, Hnl. simpl.
      constructor; [by exists o|done].
    + rewrite !epoch_logs_of_app, Hnl. simpl.
      destruct (Hok2 _ _ H0) as [-> _]. done.
    + rewrite !epoch_logs_of_app, Hnl. simpl.
      destruct (Hok2 _ _ H0) as [_ ->]. done.
Qed.

Lemma final_logs_is_Some args (d : @Data Img) n (logs : gmap string Q) label key :
  (exists o : @EpochOutcome W,
     logs = epoch_logs (sgd_crossentropy ["accuracy"])
                       (final_fit_args args d n) o) ->
  (label, key) ∈ curve_keys -> is_Some (logs !! key).
Proof.
  intros [o ->] Hk.
  destruct (final_logs_lookup args d n o) as (? & ? & ? & ?).
  unfold curve_keys in Hk.
  repeat match goal with
  | H : _ ∈ _ :: _ |- _ => apply elem_of_cons in H as [H|H]
  | H : _ ∈ [] |- _ => by apply elem_of_nil in H
  end; simplify_eq; eauto.
Qed.

(** Everything the theorems below use about lines 182-229, whatever the
    checkpoint path expands to. *)
Lemma train_report_facts args d m n fs r fs' t :
  train_report backend args d m n fs r fs' t ->
  exists t_fit t_p,
    t = EvCompile CompileFinal (final_model m)
        :: EvFit FitFinal (final_model m) (final_fit_args args d n)
        :: t_fit ++ t_p /\
    Forall is_checkpoint_event t_fit /\
    Forall is_report_event t_p /\
    (forall p, ends_with "_model.h5" p = false -> p <> history_png args ->
               fs' !! p = fs !! p) /\
    Forall (fun e => forall p, written_path e = Some p -> p = history_png args)
           t_p /\
    Forall (fun e => read_path e = None) t_p /\
    (forall xs ys label, (xs, ys, label) ∈ plots_of t_p ->
       xs = py_range 1 (length ys) /\
       Z.of_nat (length ys) = n /\
       exists key, (label, key) ∈ curve_keys /\
         ys = omap (fun logs : gmap string Q => logs !! key)
                   (epoch_logs_of t_fit)) /\
    (is_Ok r ->
       length (epoch_logs_of t_fit) = Z.to_nat n /\
       (graphical_history args = true ->
        (plots_of t_p).*2 = curve_keys.*1)).
Proof.
  intros (r_t & fs_t & t_fit & Hfit & Hrest).
  destruct (final_fit_loop_events args d n (Z.to_nat n) _ _ _ _ _ _ _ _
              Hfit eq_refl) as (Hev & Hfr & Hlogs & Hok).
  destruct r_t as [[model h]|e].
  - destruct Hrest as (r_p & t_p & Hrep & -> & ->).
    apply report_phase_run in Hrep
      as (Hrev & Hrfs & Hrw & Hrr & Hplots & Hlabels).
    fold (history_png args) in *.
    destruct (Hok _ _ eq_refl) as [Hlen ->].
    exists t_fit, t_p. repeat split; auto.
    all: try match goal with
         | H : (_, _, _) ∈ plots_of _ |- _ =>
             destruct (Hplots _ _ _ H) as (Hxs & key & Hkey & Hh);
             rewrite history_fold_lookup, lookup_empty in Hh;
             pose proof (omap_lookup_length (epoch_logs_of t_fit) key
                           (Forall_impl _ _ _ Hlogs
                              (fun logs Hlg =>
                                 final_logs_is_Some _ _ _ logs _ key Hlg Hkey)))
               as Hl;
             rewrite Hlen in Hl;
             destruct (omap (fun logs : gmap string Q => logs !! key)
                            (epoch_logs_of t_fit)) as [|v vs] eqn:Ev;
               [done|];
             simpl in Hh; injection Hh as <-
         end.
    + intros p Hp1 Hp2. rewrite Hrfs, Hfr; auto.
    + done.
    + simpl in *. lia.
    + exists key. by rewrite Ev.
    + destruct r_p; [auto|done].
  - destruct Hrest as (-> & -> & ->).
    exists t_fit, []. rewrite app_nil_r. repeat split; auto; try constructor.
    all: try match goal with H : _ ∈ plots_of [] |- _ =>
           by apply elem_of_nil in H end.
    all: done.
Qed.

(** The same lines when the checkpoint path holds no brace: every save
    goes to that one path, and the file there is the best model so far. *)
Lemma train_report_kept args d m n fs r fs' t :
  has_brace (ckpt_path args) = false ->
  train_report backend args d m n fs r fs' t ->
  exists t_fit t_p,
    t = EvCompile CompileFinal (final_model m)
        :: EvFit FitFinal (final_model m) (final_fit_args args d n)
        :: t_fit ++ t_p /\
    Forall (is_final_fit_event (ckpt_path args)) t_fit /\
    Forall is_report_event t_p /\
    all_kept (ckpt_path args) t_fit /\
    (epoch_logs_of t_fit = [] \/ best_kept (ckpt_path args) t_fit) /\
    (forall f, last_saved (ckpt_path args) t_fit = Some f ->
               fs' !! ckpt_path args = Some f) /\
    (forall p, p <> ckpt_path args -> p <> history_png args ->
               fs' !! p = fs !! p).
Proof.
  intros Hnb (r_t & fs_t & t_fit & Hfit & Hrest).
  pose proof (final_fit_loop args d n (Z.to_nat n) Hnb _ _ _ _ _ _ _ _ [] Hfit)
    as Hloop.
  destruct Hloop as (Hall & Hend & Hfs & Hfr & Hev & Hlogs & Hok).
  { repeat split; simpl; done. }
  { apply all_kept_nil. }
  simpl in Hall, Hfs, Hend.
  destruct r_t as [[model h]|e].
  - destruct Hrest as (r_p & t_p & Hrep & -> & ->).
    apply report_phase_run in Hrep
      as (Hrev & Hrfs & Hrw & Hrr & Hplots & Hlabels).
    fold (history_png args) in *.
    exists t_fit, t_p. repeat split; auto.
    + intros f Hf. rewrite Hrfs; [auto|]. apply ckpt_path_not_png.
    + intros p Hp1 Hp2. rewrite Hrfs, Hfr; auto.
  - destruct Hrest as (-> & -> & ->).
    exists t_fit, []. rewrite app_nil_r. repeat split; auto; try constructor.
Qed.

(** *** Layer flags *)

Lemma for_layers_cons n f g x ls :
  for_layers_from (S n) g (for_layers_upto (S n) f (x :: ls)) =
  f x :: for_layers_from n g (for_layers_upto n f ls).
Proof. reflexivity. Qed.

Lemma frozen_lookup n ls i l :
  for_layers_from n (set_trainable true)
    (for_layers_upto n (set_trainable false) ls) !! i = Some l ->
  trainable l = (n <=? i)%nat.
Proof.
  revert ls i. induction n as [|n IH]; intros ls i.
  - unfold for_layers_from, for_layers_upto. simpl.
    rewrite list_lookup_fmap. intros (x & Hx & ->)%fmap_Some. done.
  - destruct ls as [|x ls]; [done|]. rewrite for_layers_cons.
    destruct i as [|i]; simpl.
    + by intros [= <-].
    + apply IH.
Qed.

Lemma for_layers_cons' n f g x ls :
  for_layers_upto (S n) f (for_layers_from (S n) g (x :: ls)) =
  f x :: for_layers_upto n f (for_layers_from n g ls).
Proof. reflexivity. Qed.

Lemma unfrozen_all n ls :
  Forall (fun l => trainable l = true)
    (for_layers_upto n (set_trainable true)
       (for_layers_from n (set_trainable true) ls)).
Proof.
  revert ls. induction n as [|n IH]; intros ls.
  - unfold for_layers_from, for_layers_upto. simpl.
    induction ls; simpl; constructor; auto.
  - destruct ls as [|x ls]; [constructor|]. rewrite for_layers_cons'.
    constructor; [done|apply IH].
Qed.

Lemma frozen_model_flags (m0 : @Model W) i l :
  layers (frozen_model m0) !! i = Some l -> trainable l = (280 <=? i)%nat.
Proof. apply frozen_lookup. Qed.

Lemma intermediate_model_flags (m0 : @Model W) o :
  Forall (fun l => trainable l = true) (layers (intermediate_model m0 o)).
Proof. apply unfrozen_all. Qed.

(** *** Calls of [fit] in the final phase *)

Lemma train_report_calls args d m n fs r fs' t :
  train_report backend args d m n fs r fs' t ->
  fit_calls FitFinal t = [(final_model m, final_fit_args args d n)] /\
  fit_calls FitHead t = [] /\
  (is_Ok r -> length (epoch_logs_of t) = Z.to_nat n).
Proof.
  intros H. apply train_report_facts in H
    as (t_fit & t_p & -> & Hev & Hrev & _ & _ & _ & _ & Hok).
  assert (Forall is_epoch_event t_fit) as Hev'.
  { eapply Forall_impl; [exact Hev|]. by intros []. }
  repeat split.
  - trace_simpl.
    by rewrite (fit_calls_epochs _ _ Hev'), (fit_calls_report _ _ Hrev).
  - trace_simpl.
    by rewrite (fit_calls_epochs _ _ Hev'), (fit_calls_report _ _ Hrev).
  - intros Hr. trace_simpl. rewrite (epoch_logs_of_report _ Hrev).
    rewrite app_nil_r. by apply Hok.
Qed.

(** C1.  In every run, each call of the final [model.fit] (line 203) is
    passed [epochs = max(1, args.epochs - 1)] when no input model was
    given (the test of line 99 fails, which includes an empty path) and
    [epochs = args.epochs] when one was; a run that ends without an
    exception makes exactly one such call. *)
Theorem final_fit_epochs args fs r fs' tr :
  main backend args fs = (r, fs', tr) ->
  Forall (fun c : @Model W * @FitArgs Img =>
            fit_epochs c.2 =
            match given_input_model args with
            | None => Z.max 1 (epochs args - 1)
            | Some _ => epochs args
            end) (fit_calls FitFinal tr)
  /\ (is_Ok r -> length (fit_calls FitFinal tr) = 1%nat).
Proof.
  intros H. destruct (given_input_model args) as [path|] eqn:Hp.
  - apply (main_resume_run _ _ _ _ _ _ Hp) in H.
    destruct H as [e t_d Hd | d t_d e Hd | d t_d m0 m r fs' t Hd Hf Hpl Htr];
      pose proof (load_data_run _ _ _ _ _ Hd) as [_ Ho];
      trace_simpl; rewrite ?(fit_calls_opens _ _ _ Ho); cbn [app].
    1,2: split; [constructor|done].
    apply train_report_calls in Htr as (-> & _ & _).
    split; [by repeat constructor|done].
  - apply (main_fresh_run _ _ _ _ _ Hp) in H.
    destruct H as [e t_d Hd | d t_d e Hd | d t_d m0 e Hd Hpl Ho
                   | d t_d m0 o e Hd Hpl Ho
                   | d t_d m0 o m3 r fs' t Hd Hpl Ho Hpl3 Htr];
      pose proof (load_data_run _ _ _ _ _ Hd) as [_ Hop];
      unfold head_events; trace_simpl;
      rewrite ?(fit_calls_opens _ _ _ Hop); cbn [app].
    1-4: split; [constructor|done].
    apply train_report_calls in Htr as (-> & _ & _).
    split; [by repeat constructor|done].
Qed.

(** *** Where the final fit sits in a run *)

Lemma split_final_train_report args d m n fs r fs' t t0 pre m' a post :
  train_report backend args d m n fs r fs' t ->
  fit_calls FitFinal t0 = [] ->
  split_at_fit FitFinal (t0 ++ t) = Some (pre, m', a, post) ->
  pre = t0 ++ [EvCompile CompileFinal (final_model m)] /\
  m' = final_model m /\ a = final_fit_args args d n /\
  t = EvCompile CompileFinal m' :: EvFit FitFinal m' a :: post.
Proof.
  intros Ht H0 Hs.
  destruct (train_report_facts _ _ _ _ _ _ _ _ Ht) as (t_fit & t_p & -> & _).
  rewrite (split_at_fit_skip _ _ _ H0), !split_at_fit_cons in Hs.
  cbn [fit_call_of] in Hs. by simplify_eq.
Qed.

Lemma fit_calls_head_events site args (d : @Data Img) (m0 : @Model W) o :
  fit_calls site (head_events args d m0 o) =
  match site with
  | FitHead => [(frozen_model m0, head_fit_args args d)]
  | FitFinal => []
  end.
Proof. by destruct site. Qed.

(** The shape of a run up to its final [fit], on either path. *)
Lemma final_split args fs r fs' tr pre m a post :
  main backend args fs = (r, fs', tr) ->
  split_at_fit FitFinal tr = Some (pre, m, a, post) ->
  exists d t_d m_p fs_in before,
    load_data args fs = (Ok d, fs, t_d) /\
    pre = t_d ++ before ++ [EvCompile CompileFinal m] /\
    m = final_model m_p /\
    train_report backend args d m_p (fit_epochs a) fs_in r fs'
      (EvCompile CompileFinal m :: EvFit FitFinal m a :: post) /\
    match given_input_model args with
    | Some path =>
        exists m0,
          before = [EvLoadModel path (Some (ModelFile m0))] /\
          placed backend args m0 m_p /\ fs_in = fs /\
          a = final_fit_args args d (epochs args)
    | None =>
        exists m0 o,
          placed backend args (fresh_graph backend) m0 /\
          train_epoch backend (frozen_model m0) (head_fit_args args d) 0
            = Some o /\
          before = head_events args d m0 o ++
                   [EvLoadModel intermediate_file
                      (Some (ModelFile (intermediate_model m0 o)))] /\
          placed backend args (intermediate_model m0 o) m_p /\
          fs_in = <[intermediate_file :=
                      ModelFile (intermediate_model m0 o)]> fs /\
          a = final_fit_args args d (Z.max 1 (epochs args - 1))
    end.
Proof.
  intros H Hs. destruct (given_input_model args) as [path|] eqn:Hp.
  - apply (main_resume_run _ _ _ _ _ _ Hp) in H.
    destruct H as [e t_d Hd | d t_d e Hd | d t_d m0 m1 r fs' t Hd Hf Hpl Htr];
      pose proof (load_data_run _ _ _ _ _ Hd) as [_ Ho].
    + rewrite split_at_fit_None in Hs; [done|]. by eapply fit_calls_opens.
    + rewrite split_at_fit_None in Hs; [done|].
      trace_simpl. by erewrite fit_calls_opens.
    + change (t_d ++ EvLoadModel path (Some (ModelFile m0)) :: t)
        with (t_d ++ [EvLoadModel path (Some (ModelFile m0))] ++ t) in Hs.
      rewrite app_assoc in Hs.
      eapply split_final_train_report in Hs as (-> & -> & -> & Ht);
        [|exact Htr|trace_simpl; by erewrite fit_calls_opens].
      rewrite Ht in Htr.
      exists d, t_d, m1, fs, [EvLoadModel path (Some (ModelFile m0))].
      rewrite <- app_assoc. repeat split; eauto; exact Htr.
  - apply (main_fresh_run _ _ _ _ _ Hp) in H.
    destruct H as [e t_d Hd | d t_d e Hd | d t_d m0 e Hd Hpl Ho
                   | d t_d m0 o e Hd Hpl Ho
                   | d t_d m0 o m3 r fs' t Hd Hpl Ho Hpl3 Htr];
      pose proof (load_data_run _ _ _ _ _ Hd) as [_ Hop].
    1-4: rewrite split_at_fit_None in Hs; [done|]; trace_simpl;
         rewrite ?fit_calls_head_events; by erewrite fit_calls_opens.
    change (t_d ++ head_events args d m0 o ++
              EvLoadModel intermediate_file
                (Some (ModelFile (intermediate_model m0 o))) :: t)
      with (t_d ++ head_events args d m0 o ++
              [EvLoadModel intermediate_file
                 (Some (ModelFile (intermediate_model m0 o)))] ++ t) in Hs.
    rewrite !app_assoc in Hs.
    eapply split_final_train_report in Hs as (-> & -> & -> & Ht);
      [|exact Htr
       |trace_simpl; rewrite fit_calls_head_events; by erewrite fit_calls_opens].
    rewrite Ht in Htr.
    exists d, t_d, m3,
      (<[intermediate_file := ModelFile (intermediate_model m0 o)]> fs),
      (head_events args d m0 o ++
         [EvLoadModel intermediate_file
            (Some (ModelFile (intermediate_model m0 o)))]).
    rewrite <- !app_assoc. repeat split; eauto 10; exact Htr.
Qed.

Lemma split_at_fit_is_Some site (t : list (@Event Img W)) :
  fit_calls site t <> [] -> is_Some (split_at_fit site t).
Proof.
  induction t as [|e t IH]; [done|].
  rewrite fit_calls_cons, split_at_fit_cons.
  destruct (fit_call_of site e) as [[m a]|]; [by eexists|].
  intros H. destruct (IH H) as [[[[pre m] a] post] ->]. by eexists.
Qed.

Lemma ok_final_fit args fs r fs' tr :
  main backend args fs = (r, fs', tr) ->
  is_Ok r -> is_Some (split_at_fit FitFinal tr).
Proof.
  intros H Hr. apply split_at_fit_is_Some.
  destruct (given_input_model args) as [path|] eqn:Hp.
  - apply (main_resume_run _ _ _ _ _ _ Hp) in H.
    destruct H as [| |d t_d m0 m r fs' t Hd Hf Hpl Htr]; try done.
    apply train_report_calls in Htr as (Hc & _).
    rewrite fit_calls_app, fit_calls_cons, Hc. cbn [fit_call_of].
    by destruct (fit_calls _ t_d).
  - apply (main_fresh_run _ _ _ _ _ Hp) in H.
    destruct H as [| | | |d t_d m0 o m3 r fs' t Hd Hpl Ho Hpl3 Htr]; try done.
    apply train_report_calls in Htr as (Hc & _).
    rewrite !fit_calls_app, fit_calls_cons, Hc, fit_calls_head_events.
    cbn [fit_call_of]. by destruct (fit_calls _ t_d).
Qed.

(** C3.  When no input model is given, a run that ends without an
    exception reaches the final [model.fit], and in any run that reaches
    it the events just before it are: [model.save] to the fixed name
    [intermediate_model.hdf5], [load_model] of that name finding exactly
    the model just saved, and the final [compile] of that model wrapped by
    lines 171-177. *)
Theorem intermediate_saved_then_reloaded args fs r fs' tr :
  given_input_model args = None ->
  main backend args fs = (r, fs', tr) ->
  (is_Ok r -> is_Some (split_at_fit FitFinal tr)) /\
  forall pre m a post,
    split_at_fit FitFinal tr = Some (pre, m, a, post) ->
    exists t1 m_i m_p,
      pre = t1 ++ [EvSave intermediate_file (ModelFile m_i);
                   EvLoadModel intermediate_file (Some (ModelFile m_i));
                   EvCompile CompileFinal m] /\
      placed backend args m_i m_p /\
      m = compile_with m_p (sgd_crossentropy ["accuracy"]).
Proof.
  intros Hp H. split; [by eapply ok_final_fit|].
  intros pre m a post Hs.
  destruct (final_split _ _ _ _ _ _ _ _ _ H Hs)
    as (d & t_d & m_p & fs_in & before & Hd & -> & -> & Htr & Hcase).
  rewrite Hp in Hcase.
  destruct Hcase as (m0 & o & Hpl & Ho & -> & Hpl3 & -> & ->).
  exists (t_d ++ [EvPrint "Freezing Inception Weights";
                  EvCompile CompileHead (frozen_model m0);
                  EvFit FitHead (frozen_model m0) (head_fit_args args d);
                  EvEpochEnd 0 (epoch_logs (sgd_crossentropy ["accuracy"])
                                           (head_fit_args args d) o)
                             (head_trained m0 o);
                  EvPrint "Unfreezing inception weights";
                  EvCompile CompileUnfrozen (intermediate_model m0 o)]),
         (intermediate_model m0 o), m_p.
  split; [|done]. unfold head_events. by rewrite <- !app_assoc.
Qed.

Lemma split_in_left {A} (l1 l2 p1 : list A) x p2 (P : A -> Prop) :
  l1 ++ l2 = p1 ++ x :: p2 -> Forall P l2 -> ~ P x ->
  exists p2', l1 = p1 ++ x :: p2' /\ p2 = p2' ++ l2.
Proof.
  revert p1. induction l1 as [|y l1 IH]; intros p1 H Hl2 Hx.
  - simpl in H. subst l2. apply Forall_app in Hl2 as [_ Hl2].
    by apply Forall_cons in Hl2 as [? _].
  - destruct p1 as [|z p1]; simpl in H; injection H as -> H.
    + exists l1. by subst.
    + destruct (IH _ H Hl2 Hx) as (p2' & -> & ->). by exists p2'.
Qed.

Lemma best_kept_app_report path t_fit t_p :
  Forall is_report_event t_p ->
  best_kept path t_fit -> best_kept path (t_fit ++ t_p).
Proof.
  intros Hr (vb & jb & logsb & mb & Hls & Hin & Hvb & Hall).
  exists vb, jb, logsb, mb.
  rewrite last_saved_app, (last_saved_report _ _ Hr), epoch_logs_of_app,
          (epoch_logs_of_report _ Hr), app_nil_r.
  repeat split; auto. set_solver.
Qed.

(** C4, as amended.  Let the checkpoint path be [output_directory]
    (trailing slashes stripped) followed by [/], [output_name] and
    [_model.h5], and let it hold neither [{] nor [}], so that Keras'
    [filepath.format(epoch=..., **logs)] leaves it as it is.  Then after
    the final [model.fit] is called, every file saved is a full model
    written to that path; at the end of every epoch the last model
    written there is the model of a finished epoch whose [val_acc] no
    finished epoch exceeds; and once an epoch has ended, the same holds
    of the whole run and the file on disk is that model. *)
Theorem checkpoint_keeps_best args fs r fs' tr pre m a post :
  main backend args fs = (r, fs', tr) ->
  split_at_fit FitFinal tr = Some (pre, m, a, post) ->
  let path := rstrip "/"%char (output_directory args) +:+ "/"
              +:+ output_name args +:+ "_model.h5" in
  has_brace path = false ->
  (forall p f, EvSave p f ∈ post -> p = path /\ exists m', f = ModelFile m') /\
  (forall p1 j logs mj p2,
     post = p1 ++ EvEpochEnd j logs mj :: p2 ->
     best_kept path (p1 ++ [EvEpochEnd j logs mj])) /\
  (epoch_logs_of post <> [] ->
     best_kept path post /\ fs' !! path = last_saved path post).
Proof.
  intros H Hs path Hnb.
  destruct (final_split _ _ _ _ _ _ _ _ _ H Hs)
    as (d & t_d & m_p & fs_in & before & Hd & -> & -> & Htr & _).
  apply (train_report_kept _ _ _ _ _ _ _ _ Hnb) in Htr
    as (t_fit & t_p & Ht & Hev & Hrev & Hall & Hend & Hfs & _).
  assert (post = t_fit ++ t_p) as -> by congruence. clear Ht.
  change path with (ckpt_path args).
  repeat split.
  - apply elem_of_app in H0 as [Hin|Hin].
    + eapply Forall_forall in Hev; [|exact Hin]. by destruct f.
    + eapply Forall_forall in Hrev; [|exact Hin]. done.
  - apply elem_of_app in H0 as [Hin|Hin].
    + eapply Forall_forall in Hev; [|exact Hin]. destruct f; try done. eauto.
    + eapply Forall_forall in Hrev; [|exact Hin]. done.
  - intros p1 j logs mj p2 Hp.
    eapply (split_in_left _ _ _ _ _ is_report_event) in Hp
      as (p2' & -> & ->); [|done|by intros []].
    by eapply Hall.
  - rewrite epoch_logs_of_app, (epoch_logs_of_report _ Hrev), app_nil_r in H0.
    destruct Hend as [?|Hk]; [done|]. by apply best_kept_app_report.
  - rewrite epoch_logs_of_app, (epoch_logs_of_report _ Hrev), app_nil_r in H0.
    destruct Hend as [?|Hk]; [done|].
    rewrite last_saved_app, (last_saved_report _ _ Hrev).
    destruct Hk as (vb & jb & logsb & mb & Hls & _). rewrite Hls. by apply Hfs.
Qed.

Lemma plots_of_head_events args (d : @Data Img) m0 o :
  plots_of (head_events args d m0 o) = [].
Proof. reflexivity. Qed.

(** Plots only occur in runs that reached the final fit, after it. *)
Lemma plots_after_final_fit args fs r fs' tr :
  main backend args fs = (r, fs', tr) ->
  plots_of tr = [] \/
  exists pre m a post,
    split_at_fit FitFinal tr = Some (pre, m, a, post) /\
    plots_of tr = plots_of post.
Proof.
  intros H. destruct (given_input_model args) as [path|] eqn:Hp.
  - apply (main_resume_run _ _ _ _ _ _ Hp) in H.
    destruct H as [e t_d Hd | d t_d e Hd | d t_d m0 m1 r fs' t Hd Hf Hpl Htr];
      pose proof (load_data_run _ _ _ _ _ Hd) as [_ Ho].
    1,2: left; trace_simpl; by rewrite (plots_of_opens _ _ Ho).
    right. destruct (train_report_facts _ _ _ _ _ _ _ _ Htr)
      as (t_fit & t_p & -> & _).
    eexists _, _, _, _. split.
    + rewrite split_at_fit_skip by (by eapply fit_calls_opens).
      rewrite !split_at_fit_cons. cbn [fit_call_of]. reflexivity.
    + trace_simpl. by rewrite (plots_of_opens _ _ Ho).
  - apply (main_fresh_run _ _ _ _ _ Hp) in H.
    destruct H as [e t_d Hd | d t_d e Hd | d t_d m0 e Hd Hpl Ho
                   | d t_d m0 o e Hd Hpl Ho
                   | d t_d m0 o m3 r fs' t Hd Hpl Ho Hpl3 Htr];
      pose proof (load_data_run _ _ _ _ _ Hd) as [_ Hop].
    1-4: left; trace_simpl; rewrite ?plots_of_head_events;
         by rewrite (plots_of_opens _ _ Hop).
    right. destruct (train_report_facts _ _ _ _ _ _ _ _ Htr)
      as (t_fit & t_p & -> & _).
    eexists _, _, _, _. split.
    + rewrite split_at_fit_skip by (by eapply fit_calls_opens).
      rewrite split_at_fit_skip by (by rewrite fit_calls_head_events).
      rewrite !split_at_fit_cons. cbn [fit_call_of]. reflexivity.
    + trace_simpl.
      by rewrite plots_of_head_events, (plots_of_opens _ _ Hop).
Qed.

(** C10.  Every curve drawn is one of the four series [loss],
    [val_loss], [acc], [val_acc] of the epochs that ended after the final
    [model.fit] was called, under its label and against 1, 2, ...; its
    length is [max(1, args.epochs - 1)] without an input model and
    [args.epochs] with one.  A run with [-H] that ends without an
    exception draws the four curves in the order of lines 220-223. *)
Theorem plotted_history args fs r fs' tr :
  main backend args fs = (r, fs', tr) ->
  (forall xs ys label, (xs, ys, label) ∈ plots_of tr ->
     exists pre m a post key,
       split_at_fit FitFinal tr = Some (pre, m, a, post) /\
       (label, key) ∈ [("training loss", "loss");
                       ("validation loss", "val_loss");
                       ("training accuracy", "acc");
                       ("validation accuracy", "val_acc")] /\
       ys = omap (fun logs : gmap string Q => logs !! key)
                 (epoch_logs_of post) /\
       xs = py_range 1 (length ys) /\
       Z.of_nat (length ys) =
         match given_input_model args with
         | None => Z.max 1 (epochs args - 1)
         | Some _ => epochs args
         end) /\
  (is_Ok r -> graphical_history args = true ->
   (plots_of tr).*2 = ["training loss"; "validation loss";
                       "training accuracy"; "validation accuracy"]).
Proof.
  intros H.
  destruct (plots_after_final_fit _ _ _ _ _ H)
    as [Hnil | (pre & m & a & post & Hs & Hpl)].
  { rewrite Hnil. split.
    - intros ??? Hin. by apply elem_of_nil in Hin.
    - intros Hr Hg. exfalso.
      destruct (ok_final_fit _ _ _ _ _ H Hr) as [[[[pre m] a] post] Hs].
      destruct (final_split _ _ _ _ _ _ _ _ _ H Hs)
        as (d & t_d & m_p & fs_in & before & Hd & -> & -> & Htr & _).
      apply train_report_facts in Htr
        as (t_fit & t_p & Ht & Hev & Hrev & _ & _ & _ & _ & Hok).
      assert (post = t_fit ++ t_p) as -> by congruence.
      destruct (Hok Hr) as [_ Hlab]. specialize (Hlab Hg).
      apply split_at_fit_spec in Hs. rewrite Hs in Hnil.
      revert Hnil. trace_simpl. intros Hnil.
      apply app_eq_nil in Hnil as [_ Hnil].
      apply app_eq_nil in Hnil as [_ Hnil].
      by rewrite Hnil in Hlab. }
  destruct (final_split _ _ _ _ _ _ _ _ _ H Hs)
    as (d & t_d & m_p & fs_in & before & Hd & -> & -> & Htr & Hcase).
  apply train_report_facts in Htr
    as (t_fit & t_p & Ht & Hev & Hrev & _ & _ & _ & Hplots & Hok).
  assert (post = t_fit ++ t_p) as -> by congruence.
  assert (Forall is_epoch_event t_fit) as Hev'.
  { eapply Forall_impl; [exact Hev|]. by intros []. }
  rewrite Hpl, plots_of_app, (plots_of_epochs _ Hev'). cbn [app].
  split.
  - intros xs ys label Hin.
    destruct (Hplots _ _ _ Hin) as (Hxs & Hlen & key & Hkey & Hys).
    exists (t_d ++ before ++ [EvCompile CompileFinal (final_model m_p)]),
           (final_model m_p), a, (t_fit ++ t_p), key.
    rewrite epoch_logs_of_app, (epoch_logs_of_report _ Hrev), app_nil_r.
    repeat split; try done.
    rewrite Hlen.
    destruct (given_input_model args);
      [destruct Hcase as (? & _ & _ & _ & ->)
      |destruct Hcase as (? & ? & _ & _ & _ & _ & _ & ->)]; done.
  - intros Hr Hg. by apply Hok.
Qed.

(** *** Files read and written *)

Lemma checkpoint_event_paths (t : list (@Event Img W)) :
  Forall is_checkpoint_event t ->
  Forall (fun e => (forall p, written_path e = Some p ->
                      ends_with "_model.h5" p = true)
                   /\ read_path e = None) t.
Proof.
  intros H. eapply Forall_impl; [exact H|].
  intros [] He; simpl in *; try done.
  destruct f; try done. split; [|done]. by intros ? [= <-].
Qed.

Lemma train_report_paths args d m n fs r fs' t :
  train_report backend args d m n fs r fs' t ->
  Forall (fun e => (forall p, written_path e = Some p ->
                      ends_with "_model.h5" p = true \/ p = history_png args)
                   /\ read_path e = None) t.
Proof.
  intros H. apply train_report_facts in H
    as (t_fit & t_p & -> & Hev & _ & _ & Hw & Hr & _).
  repeat constructor; try done.
  apply Forall_app_2.
  - eapply Forall_impl; [exact (checkpoint_event_paths _ Hev)|].
    intros e [Hwe Hre]. split; [|done]. intros p Hp. left. auto.
  - apply Forall_forall. intros e He.
    eapply Forall_forall in Hw; [|exact He].
    eapply Forall_forall in Hr; [|exact He].
    split; [|done]. intros p Hp. right. auto.
Qed.

(** C9, as amended.  When an input model is given at [path], the head
    [model.fit] is never called; the final [model.fit] is called at most
    once, with [epochs = args.epochs], and exactly once, running
    [args.epochs] epochs, in a run that ends without an exception; nothing
    is written to [intermediate_model.hdf5]; and the only files read are
    [path] and the data file. *)
Theorem resume_single_fit args path fs r fs' tr :
  given_input_model args = Some path ->
  main backend args fs = (r, fs', tr) ->
  fit_calls FitHead tr = [] /\
  (fit_calls FitFinal tr = [] \/
   exists m a, fit_calls FitFinal tr = [(m, a)] /\ fit_epochs a = epochs args) /\
  (is_Ok r ->
   length (fit_calls FitFinal tr) = 1%nat /\
   length (epoch_logs_of tr) = Z.to_nat (epochs args)) /\
  Forall (fun e => written_path e <> Some intermediate_file) tr /\
  Forall (fun e => forall p, read_path e = Some p ->
                     p = path \/ p = file_input args) tr.
Proof.
  intros Hp H. apply (main_resume_run _ _ _ _ _ _ Hp) in H.
  assert (forall t_d : list (@Event Img W),
            Forall (is_open (file_input args)) t_d ->
            epoch_logs_of t_d = [] /\
            Forall (fun e => written_path e <> Some intermediate_file) t_d /\
            Forall (fun e => forall p, read_path e = Some p ->
                               p = path \/ p = file_input args) t_d)
    as Hopen.
  { intros t_d Ho. split; [|split].
    - eapply omap_Forall_None; [|exact Ho]. by intros ? [? ->].
    - eapply Forall_impl; [exact Ho|]. by intros ? [? ->].
    - eapply Forall_impl; [exact Ho|]. intros ? [? ->] p [= <-]. by right. }
  destruct H as [e t_d Hd | d t_d e Hd | d t_d m0 m r fs' t Hd Hf Hpl Htr];
    pose proof (load_data_run _ _ _ _ _ Hd) as [_ Ho];
    destruct (Hopen _ Ho) as (Hel & Hw & Hr).
  - rewrite !(fit_calls_opens _ _ _ Ho). repeat split; auto.
    all: match goal with H : is_Ok (Raise _) |- _ => destruct H end.
  - trace_simpl. rewrite !(fit_calls_opens _ _ _ Ho).
    repeat split; auto; try done.
    all: try match goal with H : is_Ok (Raise _) |- _ => destruct H end.
    + apply Forall_app_2; [done|]. by repeat constructor.
    + apply Forall_app_2; [done|]. apply Forall_cons_2; [|constructor].
      intros ? [= <-]. by left.
  - pose proof (train_report_calls _ _ _ _ _ _ _ _ Htr) as (Hc & Hh & Hn).
    pose proof (train_report_paths _ _ _ _ _ _ _ _ Htr) as Hpaths.
    trace_simpl. rewrite !(fit_calls_opens _ _ _ Ho), Hc, Hh, Hel.
    cbn [app]. repeat split; eauto.
    + apply Forall_app_2; [done|]. constructor; [done|].
      eapply Forall_impl; [exact Hpaths|].
      intros ev [Hwe _] Heq. destruct (Hwe _ Heq) as [Hx|Hx].
      * by apply (model_suffix_not_intermediate _ Hx).
      * by apply (history_png_not_intermediate args).
    + apply Forall_app_2; [done|]. constructor.
      * intros ? [= <-]. by left.
      * eapply Forall_impl; [exact Hpaths|].
        intros ev [_ Hre] ? Hq. congruence.
Qed.

(** *** Where the head-training fit sits in a fresh run *)

Lemma head_split args fs r fs' tr pre m a post :
  given_input_model args = None ->
  main backend args fs = (r, fs', tr) ->
  split_at_fit FitHead tr = Some (pre, m, a, post) ->
  exists d t_d m0,
    load_data args fs = (Ok d, fs, t_d) /\
    placed backend args (fresh_graph backend) m0 /\
    m = frozen_model m0 /\ a = head_fit_args args d /\
    pre = t_d ++ [EvPrint "Freezing Inception Weights";
                  EvCompile CompileHead m] /\
    fit_calls FitHead tr = [(m, a)] /\
    ((post = [] /\ ~ is_Ok r) \/
     exists o rest,
       train_epoch backend m a 0 = Some o /\
       post = after_head_epoch args d m0 o rest /\
       fit_calls FitHead rest = [] /\
       Forall (fun e => written_path e <> Some intermediate_file) rest).
Proof.
  intros Hp H Hs. apply (main_fresh_run _ _ _ _ _ Hp) in H.
  destruct H as [e t_d Hd | d t_d e Hd | d t_d m0 e Hd Hpl Ho
                 | d t_d m0 o e Hd Hpl Ho
                 | d t_d m0 o m3 r fs' t Hd Hpl Ho Hpl3 Htr];
    pose proof (load_data_run _ _ _ _ _ Hd) as [_ Hop].
  1,2: rewrite split_at_fit_None in Hs; [done|]; by eapply fit_calls_opens.
  - rewrite split_at_fit_skip in Hs by (by eapply fit_calls_opens).
    rewrite !split_at_fit_cons in Hs. cbn [fit_call_of] in Hs. simplify_eq.
    exists d, t_d, m0. repeat split; auto.
    all: try (trace_simpl; by rewrite (fit_calls_opens _ _ _ Hop)).
    all: try (left; split; [done|]; by intros []).
  - rewrite split_at_fit_skip in Hs by (by eapply fit_calls_opens).
    unfold head_events in *. cbn [app] in Hs.
    rewrite !split_at_fit_cons in Hs. cbn [fit_call_of] in Hs. simplify_eq.
    exists d, t_d, m0. repeat split; auto.
    all: try (trace_simpl; by rewrite (fit_calls_opens _ _ _ Hop)).
    all: try (right; exists o, []; repeat split; auto; constructor).
  - rewrite split_at_fit_skip in Hs by (by eapply fit_calls_opens).
    unfold head_events in *. cbn [app] in Hs.
    rewrite !split_at_fit_cons in Hs. cbn [fit_call_of] in Hs. simplify_eq.
    pose proof (train_report_calls _ _ _ _ _ _ _ _ Htr) as (_ & Hh & _).
    pose proof (train_report_paths _ _ _ _ _ _ _ _ Htr) as Hpaths.
    exists d, t_d, m0. repeat split; auto.
    all: try (trace_simpl; by rewrite (fit_calls_opens _ _ _ Hop), Hh).
    right. exists o, t. repeat split; auto.
    eapply Forall_impl; [exact Hpaths|].
    intros ev [Hwe _] Heq. destruct (Hwe _ Heq) as [Hx|Hx].
    + by apply (ckpt_path_not_intermediate args).
    + by apply (history_png_not_intermediate args).
Qed.

Lemma ok_head_fit args fs r fs' tr :
  given_input_model args = None ->
  main backend args fs = (r, fs', tr) ->
  is_Ok r -> is_Some (split_at_fit FitHead tr).
Proof.
  intros Hp H Hr. apply split_at_fit_is_Some.
  apply (main_fresh_run _ _ _ _ _ Hp) in H.
  destruct H as [| | | |d t_d m0 o m3 r fs' t Hd Hpl Ho Hpl3 Htr]; try done.
  rewrite !fit_calls_app, fit_calls_head_events.
  by destruct (fit_calls _ t_d).
Qed.

(** C8.  When no input model is given and the head [model.fit] (line
    148) is reached, it is called on the loaded training data and labels
    with [epochs=1], the given batch size, [shuffle='batch'], no
    validation data and no callback, on a model whose layers of index
    below 280 are non-trainable and whose other layers are trainable; it
    is the only call at that site; and either the epoch fails and the run
    with it, or one epoch ends, leaving the layers as they were, before
    line 156 is printed. *)
Theorem head_fit_call args fs r fs' tr pre m a post :
  given_input_model args = None ->
  main backend args fs = (r, fs', tr) ->
  split_at_fit FitHead tr = Some (pre, m, a, post) ->
  (exists d,
     result (load_data args fs) = Ok d /\
     a = {| fit_x := train_data d;
            fit_y := train_labels d;
            fit_validation_data := None;
            fit_epochs := 1;
            fit_batch_size := batch_size args;
            fit_shuffle := "batch";
            fit_callbacks := [] |}) /\
  (forall i l, layers m !! i = Some l -> trainable l = (280 <=? i)%nat) /\
  fit_calls FitHead tr = [(m, a)] /\
  ((post = [] /\ ~ is_Ok r) \/
   exists logs m' post',
     post = EvEpochEnd 0 logs m'
            :: EvPrint "Unfreezing inception weights" :: post' /\
     layers m' = layers m /\
     fit_calls FitHead post' = []).
Proof.
  intros Hp H Hs.
  destruct (head_split _ _ _ _ _ _ _ _ _ Hp H Hs)
    as (d & t_d & m0 & Hd & Hpl & -> & -> & -> & Hc & Hpost).
  repeat split; auto.
  - exists d. by rewrite Hd.
  - apply frozen_model_flags.
  - destruct Hpost as [?|(o & rest & Ho & -> & Hr & _)]; [by left|].
    right. eexists _, _, _. split; [reflexivity|]. split; [done|].
    trace_simpl. done.
Qed.

(** C7.  When no input model is given, a run that ends without an
    exception reaches the head [model.fit]; and whenever it is reached,
    either its epoch fails and the run with it, or the epoch ends and is
    followed by the message of line 156 and a [compile] of a model with
    every layer trainable, the optimizer [sgd], the loss
    [categorical_crossentropy], no metric, and the weights the epoch
    left. *)
Theorem unfreeze_then_recompile args fs r fs' tr :
  given_input_model args = None ->
  main backend args fs = (r, fs', tr) ->
  (is_Ok r -> is_Some (split_at_fit FitHead tr)) /\
  forall pre m a post,
    split_at_fit FitHead tr = Some (pre, m, a, post) ->
    (post = [] /\ ~ is_Ok r) \/
    exists logs m' m2 post',
      post = EvEpochEnd 0 logs m'
             :: EvPrint "Unfreezing inception weights"
             :: EvCompile CompileUnfrozen m2 :: post' /\
      Forall (fun l => trainable l = true) (layers m2) /\
      compiled m2 = Some {| optimizer := "sgd";
                            loss := "categorical_crossentropy";
                            metrics := [] |} /\
      weights m2 = weights m'.
Proof.
  intros Hp H. split; [by eapply ok_head_fit|].
  intros pre m a post Hs.
  destruct (head_split _ _ _ _ _ _ _ _ _ Hp H Hs)
    as (d & t_d & m0 & Hd & Hpl & -> & -> & -> & Hc & Hpost).
  destruct Hpost as [?|(o & rest & Ho & -> & Hr & _)]; [by left|].
  right. eexists _, _, _, _. split; [reflexivity|].
  split; [apply intermediate_model_flags|done].
Qed.

Lemma saves_of_opens p (t : list (@Event Img W)) path f :
  Forall (is_open p) t -> EvSave path f ∉ t.
Proof.
  intros Ho Hin. eapply Forall_forall in Ho; [|exact Hin].
  by destruct Ho.
Qed.

(** C6, as amended.  When no input model is given, every model saved
    to [intermediate_model.hdf5] has all its layers marked trainable; its
    weights are those left by the one epoch of the head [model.fit], which
    ran on a model whose layers of index below 280 were non-trainable and
    whose other layers were trainable. *)
Theorem intermediate_checkpoint_state args fs r fs' tr :
  given_input_model args = None ->
  main backend args fs = (r, fs', tr) ->
  forall f, EvSave intermediate_file f ∈ tr ->
    exists m pre m1 a1 logs m1' post,
      f = ModelFile m /\
      Forall (fun l => trainable l = true) (layers m) /\
      split_at_fit FitHead tr
        = Some (pre, m1, a1, EvEpochEnd 0 logs m1' :: post) /\
      (forall i l, layers m1 !! i = Some l ->
                   trainable l = (280 <=? i)%nat) /\
      weights m = weights m1'.
Proof.
  intros Hp H f Hin.
  assert (is_Some (split_at_fit FitHead tr)) as [[[[pre m1] a1] post] Hs].
  { apply split_at_fit_is_Some. intros Hnil.
    pose proof H as H'. apply (main_fresh_run _ _ _ _ _ Hp) in H'.
    destruct H' as [e t_d Hd | d t_d e Hd | d t_d m0 e Hd Hpl Ho
                   | d t_d m0 o e Hd Hpl Ho
                   | d t_d m0 o m3 r fs' t Hd Hpl Ho Hpl3 Htr];
      pose proof (load_data_run _ _ _ _ _ Hd) as [_ Hop].
    1,2: by eapply saves_of_opens.
    all: revert Hnil; rewrite !fit_calls_app, ?fit_calls_head_events;
         rewrite (fit_calls_opens _ _ _ Hop); done. }
  destruct (head_split _ _ _ _ _ _ _ _ _ Hp H Hs)
    as (d & t_d & m0 & Hd & Hpl & -> & -> & -> & Hc & Hpost).
  pose proof (load_data_run _ _ _ _ _ Hd) as [_ Hop].
  apply split_at_fit_spec in Hs as Htr. rewrite Htr in Hin.
  destruct Hpost as [[-> _]|(o & rest & Ho & -> & Hr & Hw)].
  - exfalso. rewrite <- app_assoc in Hin.
    apply elem_of_app in Hin as [Hin|Hin];
      [by eapply saves_of_opens|].
    simpl in Hin.
    repeat (apply elem_of_cons in Hin as [Hin|Hin]; [done|]).
    by apply elem_of_nil in Hin.
  - exists (intermediate_model m0 o). eexists _, _, _, _, _, _.
    assert (f = ModelFile (intermediate_model m0 o)) as ->.
    { rewrite <- app_assoc in Hin.
      apply elem_of_app in Hin as [Hin|Hin];
        [by eapply saves_of_opens in Hin|].
      unfold after_head_epoch in Hin.
      repeat (apply elem_of_cons in Hin as [Hin|Hin]; [by simplify_eq|]).
      eapply Forall_forall in Hw; [|exact Hin]. by destruct Hw. }
    split; [done|]. split; [apply intermediate_model_flags|].
    split; [exact Hs|]. split; [apply frozen_model_flags|done].
Qed.

(** *** The subset slices *)

Lemma py_range_S a n : py_range a (S n) = a :: py_range (a + 1) n.
Proof.
  unfold py_range. cbn [seq map]. f_equal; [lia|].
  rewrite <- seq_shift, map_map. apply map_ext. intros i. lia.
Qed.

Lemma read_rows_prefix {A} (m : HDF5Matrix A) n a ys :
  hm_start m = 0 -> 0 <= a ->
  read_rows m (py_range a n) = Ok ys ->
  ys = take n (drop (Z.to_nat a) (hm_data m)) /\ length ys = n.
Proof.
  intros Hs. revert a ys. induction n as [|n IH]; intros a ys Ha.
  - simpl. intros [= <-]. by rewrite take_0.
  - rewrite py_range_S. cbn [read_rows]. unfold hm_getitem. rewrite Hs, Z.add_0_r.
    destruct (a <? hm_end m); [|done].
    destruct (Z.ltb_spec a 0); [lia|].
    destruct (hm_data m !! Z.to_nat a) as [x|] eqn:Hx; [|done].
    destruct (read_rows m (py_range (a + 1) n)) as [xs|] eqn:Hxs; [|done].
    intros [= <-]. destruct (IH (a + 1) xs) as [-> Hl]; [lia|done|].
    split; [|simpl; by rewrite Hl].
    rewrite (drop_S _ _ _ Hx). simpl. do 2 f_equal.
    replace (Z.to_nat (a + 1)) with (S (Z.to_nat a)) by lia. done.
Qed.

Lemma np_array_prefix {A} (data : list A) n ys :
  np_array (hm_init data (Some n)) = Ok ys ->
  ys = take (Z.to_nat n) data /\ Z.of_nat (length ys) = n.
Proof.
  unfold np_array, hm_len. simpl. rewrite Z.sub_0_r.
  destruct (Z.ltb_spec n 0); [done|]. intros Hr.
  apply read_rows_prefix in Hr as [-> Hl]; [|done|lia].
  simpl in *. rewrite drop_0 in *. split; [done|]. lia.
Qed.

Lemma one_hot_rows_length k y rows :
  one_hot_rows k y = Ok rows -> length rows = length y.
Proof.
  revert rows. induction y as [|c y IH]; simpl; intros rows.
  - by intros [= <-].
  - destruct (one_hot k c); [|done].
    destruct (one_hot_rows k y) as [rs|]; [|done].
    intros [= <-]. simpl. by rewrite (IH _ eq_refl).
Qed.

Lemma to_categorical_prefix (data : list Z) n rows :
  to_categorical (hm_init data (Some n)) = Ok rows ->
  Z.of_nat (length rows) = n /\
  exists k, one_hot_rows k (take (Z.to_nat n) data) = Ok rows.
Proof.
  unfold to_categorical.
  destruct (np_array _) as [y|] eqn:Hy; [|done].
  apply np_array_prefix in Hy as [-> Hl].
  destruct (np_max _) as [mx|]; [|done].
  destruct (mx + 1 <? 0); [done|]. intros H.
  split; [|eauto]. by rewrite (one_hot_rows_length _ _ _ H).
Qed.

Lemma HDF5Matrix_open_ok {A} proj p name end_ fs (m : HDF5Matrix A) fs' t :
  @HDF5Matrix_open Img W A proj p name end_ fs = (Ok m, fs', t) ->
  exists h5 data,
    fs !! p = Some (DataFile h5) /\ proj h5 !! name = Some data /\
    m = hm_init data end_.
Proof.
  unfold HDF5Matrix_open. intros H. run_inv.
  repeat destruct_match_hyp; run_inv; eauto.
Qed.

(** Binary64 rounding of a product that lies between two integers. *)
Lemma float_trunc_neg_exp (m s : Z) :
  0 <= s -> float_trunc (m, - s) = m / 2 ^ s.
Proof.
  intros Hs. unfold float_trunc; simpl.
  rewrite Z.shiftl_opp_r, Z.shiftr_div_pow2; auto.
Qed.

Lemma div_bracket (a b k : Z) :
  0 < b -> k * b <= a -> a < (k + 1) * b -> a / b = k.
Proof.
  intros Hb H1 H2. symmetry. apply Z.div_unique with (r := a - k * b); lia.
Qed.

Lemma round53_trunc_bracket (m s k : Z) :
  0 <= m -> 0 <= s ->
  Z.log2 m + 1 - 53 <= s ->
  k * 2 ^ s <= m ->
  m + 2 ^ (Z.log2 m + 1 - 53 - 1) < (k + 1) * 2 ^ s ->
  float_trunc (round53 m (- s)) = k.
Proof.
  intros Hm Hs Hd Hlo Hhi.
  unfold round53. set (d := Z.log2 m + 1 - 53) in *.
  assert (HS : 0 < 2 ^ s) by (apply Z.pow_pos_nonneg; lia).
  destruct (Z.leb_spec d 0) as [Hd0 | Hd0].
  - rewrite float_trunc_neg_exp by lia.
    apply div_bracket; auto.
    assert (0 <= 2 ^ (d - 1)) by (apply Z.pow_nonneg; lia). lia.
  - set (q := m / 2 ^ d). set (r := m mod 2 ^ d). set (h := 2 ^ (d - 1)) in *.
    assert (HD : 2 ^ d = 2 * h).
    { unfold h. rewrite <- Z.pow_succ_r by lia. f_equal. lia. }
    assert (Hh : 0 < h) by (apply Z.pow_pos_nonneg; lia).
    assert (HT : 2 ^ s = 2 ^ (s - d) * 2 ^ d).
    { rewrite <- Z.pow_add_r by lia. f_equal. lia. }
    assert (HT0 : 0 < 2 ^ (s - d)) by (apply Z.pow_pos_nonneg; lia).
    assert (Hm' : m = 2 ^ d * q + r) by (apply Z.div_mod; lia).
    assert (Hr : 0 <= r < 2 ^ d) by (apply Z.mod_pos_bound; lia).
    set (T := 2 ^ (s - d)) in *.
    assert (Hq : forall q', q <= q' -> q' * 2 ^ d <= m + h ->
                 float_trunc (q', - s + d) = k).
    { intros q' Hq1 Hq2.
      replace (- s + d) with (- (s - d)) by lia.
      rewrite float_trunc_neg_exp by lia. fold T.
      apply div_bracket; auto; nia. }
    destruct (Z.ltb_spec r h); [apply Hq; lia|].
    destruct (Z.ltb_spec h r); [apply Hq; lia|].
    destruct (Z.even q); apply Hq; lia.
Qed.

Lemma log2_mul_bound (n c a b : Z) :
  0 <= a -> 0 <= b -> 0 < n < 2 ^ a -> 0 < c < 2 ^ b ->
  Z.log2 (n * c) + 1 <= a + b.
Proof.
  intros Ha Hb Hn Hc.
  assert (Z.log2 (n * c) < a + b); [|lia].
  apply Z.log2_lt_pow2; [nia|].
  rewrite Z.pow_add_r by lia. nia.
Qed.

Lemma tiles_fractions (N : Z) :
  1 <= N <= 2 ^ 50 ->
  int_mul_float N f0_8 = Some (8 * N / 10) /\
  int_mul_float N f0_2 = Some (2 * N / 10).
Proof.
  intros HN.
  assert (H50 : (2:Z) ^ 50 = 1125899906842624) by reflexivity.
  assert (H53 : (2:Z) ^ 53 = 9007199254740992) by reflexivity.
  assert (H55 : (2:Z) ^ 55 = 36028797018963968) by reflexivity.
  assert (Hl : Z.log2 N <= 50).
  { destruct (Z.eq_dec N (2^50)) as [->|]; [reflexivity|].
    assert (Z.log2 N < 50); [apply Z.log2_lt_pow2; lia | lia]. }
  assert (Hf : float_of_int (Z.abs N) = Some (N, 0)).
  { rewrite Z.abs_eq by lia. unfold float_of_int, round53.
    destruct (Z.leb_spec (Z.log2 N + 1 - 53) 0); [|lia].
    unfold float_trunc. cbn [fst snd]. rewrite Z.shiftl_0_r.
    destruct (Z.leb_spec (2 ^ 1024) N) as [Hbig|]; auto.
    assert ((2:Z) ^ 50 < 2 ^ 1024) by (apply Z.pow_lt_mono_r; lia). lia. }
  assert (Hsg : Z.sgn N = 1) by (apply Z.sgn_pos; lia).
  assert (Hlog : Z.log2 (N * 7205759403792794) + 1 <= 104).
  { apply (log2_mul_bound N 7205759403792794 51 53); lia. }
  assert (Hpw : 2 ^ (Z.log2 (N * 7205759403792794) + 1 - 53 - 1) <= 2 ^ 50).
  { apply Z.pow_le_mono_r; lia. }
  unfold int_mul_float. rewrite Hf, Hsg.
  unfold float_mul, f0_8, f0_2; simpl fst; simpl snd.
  split; f_equal; rewrite Z.mul_1_l.
  - apply (round53_trunc_bracket _ 53); try lia.
    + rewrite H53. pose proof (Z.mul_div_le (8 * N) 10). lia.
    + rewrite H53. pose proof (Z.mod_pos_bound (8 * N) 10).
      pose proof (Z.div_mod (8 * N) 10). lia.
  - apply (round53_trunc_bracket _ 55); try lia.
    + rewrite H55. pose proof (Z.mul_div_le (2 * N) 10). lia.
    + rewrite H55. pose proof (Z.mod_pos_bound (2 * N) 10).
      pose proof (Z.div_mod (2 * N) 10). lia.
Qed.

(** C2, as amended.  For [-t N] with [1 <= N <= 2^50],
    [int(N*0.8)] and [int(N*0.2)] in binary64 are the floors of [8N/10] and
    [2N/10]; and when the data loads, the training and validation arrays
    are the named arrays with [start = 0] and these values as [end], hence
    of these lengths, and the label matrices are the one-hot rows of the
    first [8N/10] and [2N/10] labels of the named label arrays. *)
Theorem subset_slice_lengths args fs N :
  tiles args = Some N ->
  1 <= N <= 2 ^ 50 ->
  int_mul_float N f0_8 = Some (8 * N / 10) /\
  int_mul_float N f0_2 = Some (2 * N / 10) /\
  forall d : @Data Img,
    result (@load_data Img W args fs) = Ok d ->
    exists h5 timg tlab vimg vlab,
      fs !! file_input args = Some (DataFile h5) /\
      h5_images h5 !! "train_img" = Some timg /\
      h5_ints h5 !! "train_labels" = Some tlab /\
      h5_images h5 !! "val_img" = Some vimg /\
      h5_ints h5 !! "val_labels" = Some vlab /\
      train_data d = {| hm_data := timg; hm_start := 0;
                        hm_end := 8 * N / 10 |} /\
      val_data d = {| hm_data := vimg; hm_start := 0;
                      hm_end := 2 * N / 10 |} /\
      hm_len (train_data d) = 8 * N / 10 /\
      hm_len (val_data d) = 2 * N / 10 /\
      Z.of_nat (length (train_labels d)) = 8 * N / 10 /\
      Z.of_nat (length (val_labels d)) = 2 * N / 10 /\
      (exists k, one_hot_rows k (take (Z.to_nat (8 * N / 10)) tlab)
                 = Ok (train_labels d)) /\
      (exists k, one_hot_rows k (take (Z.to_nat (2 * N / 10)) vlab)
                 = Ok (val_labels d)).
Proof.
  intros Ht HN. destruct (tiles_fractions N HN) as [H8 H2].
  split; [done|]. split; [done|]. intros d Hd.
  destruct (load_data args fs) as [[r fs'] t] eqn:Hrun.
  unfold result in Hd. simpl in Hd. subst r.
  unfold load_data in Hrun. rewrite Ht, H8, H2 in Hrun.
  cbn [lift_opt] in Hrun.
  run_inv.
  repeat match goal with
  | H : HDF5Matrix_open _ _ _ _ _ = (Ok _, _, _) |- _ =>
      let H' := fresh in
      pose proof (HDF5Matrix_open_run _ _ _ _ _ _ _ _ H) as [H' _];
      apply HDF5Matrix_open_ok in H as (? & ? & ? & ? & ?); subst
  end.
  repeat match goal with
  | H : Ok _ = to_categorical _ |- _ => symmetry in H
  end.
  repeat match goal with
  | H1 : ?fs !! ?p = Some (DataFile ?a), H2 : ?fs !! ?p = Some (DataFile ?b) |- _ =>
      assert (a = b) by congruence; subst a; clear H2
  end.
  repeat match goal with
  | H1 : ?m !! ?k = Some ?a, H2 : ?m !! ?k = Some ?b |- _ =>
      assert (a = b) by congruence; subst a; clear H2
  end.
  repeat match goal with
  | H : to_categorical (hm_init _ (Some _)) = Ok _ |- _ =>
      apply to_categorical_prefix in H as (? & ?)
  end.
  eexists _, _, _, _, _. cbn [train_data val_data train_labels val_labels].
  repeat split; try eassumption; try reflexivity.
  all: unfold hm_len, hm_init; simpl; lia.
Qed.

(** What [last_saved] finds was saved in the trace. *)
Lemma last_saved_elem path t f :
  last_saved path t = Some f -> EvSave path f ∈ t.
Proof.
  unfold last_saved. intros H. apply last_Some_elem_of in H.
  apply list_elem_of_omap in H as (e & He & Hs).
  destruct e; try discriminate. cbn in Hs.
  destruct (String.eqb _ _) eqn:Heq; [|discriminate].
  apply String.eqb_eq in Heq. by simplify_eq.
Qed.

(** ** Further properties of the code

    *** The helpers: [rstrip], [HDF5Matrix], [to_categorical], the
    fractions of [-t] *)

(** X1.  [rstrip] removes a run of trailing [c]s and nothing else: the
    argument is the result followed by some number of [c]s, and the
    result does not end in [c] (line 73). *)
Theorem rstrip_spec c s :
  exists n,
    s = rstrip c s +:+ string_of_list_ascii (replicate n c) /\
    ends_with (String c EmptyString) (rstrip c s) = false.
Proof.
  induction s as [|a s (n & Hs & He)]; simpl.
  - by exists 0%nat.
  - destruct (rstrip c s) as [|b r] eqn:Hr.
    + destruct (Ascii.eqb_spec a c) as [->|Hne].
      * exists (S n). split; [rewrite Hs at 1; reflexivity|done].
      * exists n. split; [rewrite Hs at 1; reflexivity|].
        simpl. rewrite orb_false_r. by destruct (Ascii.eqb_spec a c).
    + exists n. split; [rewrite Hs at 1; reflexivity|].
      change (ends_with (String c "") (String a (String b r)))
        with (String.eqb (String a (String b r)) (String c "")
              || ends_with (String c "") (String b r)).
      rewrite He, orb_false_r. apply String.eqb_neq. congruence.
Qed.

Lemma read_rows_range {A} (m : HDF5Matrix A) n :
  hm_start m = 0 ->
  forall a, 0 <= a -> a + Z.of_nat n <= hm_end m ->
  (a + Z.of_nat n <= Z.of_nat (length (hm_data m)) ->
   read_rows m (py_range a n) = Ok (take n (drop (Z.to_nat a) (hm_data m)))) /\
  (Z.of_nat (length (hm_data m)) < a + Z.of_nat n -> (0 < n)%nat ->
   read_rows m (py_range a n) = Raise (ValueError "Index out of range")).
Proof.
  intros Hstart. induction n as [|n IH]; intros a Ha Hend.
  - split; [done|lia].
  - rewrite py_range_S. cbn [read_rows]. unfold hm_getitem. rewrite Hstart.
    rewrite Z.add_0_r.
    destruct (Z.ltb_spec a (hm_end m)); [|lia].
    destruct (Z.ltb_spec a 0); [lia|].
    destruct (IH (a + 1)) as [IHok IHbad]; [lia|lia|].
    destruct (hm_data m !! Z.to_nat a) as [x|] eqn:Hx.
    + apply lookup_lt_Some in Hx as Hlt.
      split.
      * intros Hlen. rewrite IHok by lia.
        replace (Z.to_nat (a + 1)) with (S (Z.to_nat a)) by lia.
        by rewrite (drop_S _ _ _ Hx).
      * intros Hlen _. rewrite IHbad; [done|lia|lia].
    + apply lookup_ge_None in Hx. split; [lia|done].
Qed.

Lemma np_array_cases {A} (data : list A) :
  np_array (hm_init data None) = Ok data /\
  forall e,
    np_array (hm_init data (Some e)) =
    if e <? 0 then Raise (ValueError "__len__() should return >= 0")
    else if e <=? Z.of_nat (length data) then Ok (take (Z.to_nat e) data)
    else Raise (ValueError "Index out of range").
Proof.
  assert (forall e,
    np_array (hm_init data (Some e)) =
    if e <? 0 then Raise (ValueError "__len__() should return >= 0")
    else if e <=? Z.of_nat (length data) then Ok (take (Z.to_nat e) data)
    else Raise (ValueError "Index out of range")) as Hend.
  { intros e. unfold np_array, hm_len. cbn [hm_init hm_end hm_start].
    rewrite Z.sub_0_r. destruct (Z.ltb_spec e 0); [done|].
    destruct (read_rows_range (hm_init data (Some e)) (Z.to_nat e) eq_refl 0)
      as [Hok Hbad]; [lia|cbn; lia|].
    cbn [hm_init hm_data] in Hok, Hbad.
    destruct (Z.leb_spec e (Z.of_nat (length data))).
    - rewrite Hok by lia. by rewrite drop_0.
    - apply Hbad; lia. }
  split; [|exact Hend].
  specialize (Hend (Z.of_nat (length data))).
  rewrite Z.leb_refl, Nat2Z.id, firstn_all in Hend.
  destruct (Z.ltb_spec (Z.of_nat (length data)) 0); [lia|]. exact Hend.
Qed.

(** X2.  A label array opened with [end=e] can be read in full exactly
    when [0 <= e] and [e] is at most the number of rows stored, and what is
    read is then the first [e] rows: the slice is never clamped to the
    array (lines 89-93). *)
Theorem np_array_ok_iff {A} (data : list A) e rows :
  np_array (hm_init data (Some e)) = Ok rows <->
  0 <= e <= Z.of_nat (length data) /\ rows = take (Z.to_nat e) data.
Proof.
  rewrite (proj2 (np_array_cases data) e).
  destruct (Z.ltb_spec e 0); [split; [done|lia]|].
  destruct (Z.leb_spec e (Z.of_nat (length data))).
  - split; [intros [= <-]; split; [lia|done]|by intros [_ ->]].
  - split; [done|lia].
Qed.

Lemma foldr_max_spec x xs :
  foldr Z.max x xs ∈ x :: xs /\ Forall (fun y => y <= foldr Z.max x xs) (x :: xs).
Proof.
  induction xs as [|y xs [Hin Hle]]; simpl.
  - split; [set_solver|]. constructor; [lia|constructor].
  - split.
    + destruct (Z.max_spec y (foldr Z.max x xs)) as [[_ ->]|[_ ->]].
      * apply elem_of_cons in Hin. rewrite !elem_of_cons. tauto.
      * rewrite !elem_of_cons. auto.
    + apply Forall_cons in Hle as [Hx Hxs].
      repeat constructor; try lia.
      eapply Forall_impl; [exact Hxs|]. simpl. lia.
Qed.

Lemma np_max_spec ys mx :
  mx ∈ ys -> Forall (fun y => y <= mx) ys -> np_max ys = Ok mx.
Proof.
  destruct ys as [|x xs]; [set_solver|]. intros Hin Hle. simpl. f_equal.
  destruct (foldr_max_spec x xs) as [Hin' Hle'].
  rewrite Forall_forall in Hle, Hle'.
  specialize (Hle _ Hin'). specialize (Hle' _ Hin). lia.
Qed.

Lemma insert_replicate_indicator (n i : nat) :
  (i < n)%nat ->
  <[i := 1]> (replicate n 0) = indicator_row (Z.of_nat n) (Z.of_nat i).
Proof.
  intros Hi. unfold indicator_row, py_range. rewrite Nat2Z.id.
  apply list_eq. intros k.
  rewrite !list_lookup_fmap.
  destruct (decide (k < n)%nat) as [Hk|Hk].
  - rewrite lookup_seq_lt by done. simpl.
    destruct (decide (k = i)) as [->|Hne].
    + rewrite list_lookup_insert_eq by (rewrite length_replicate; lia).
      by rewrite Z.eqb_refl.
    + rewrite list_lookup_insert_ne by done.
      rewrite lookup_replicate_2 by done.
      destruct (_ =? _) eqn:E; [apply Z.eqb_eq in E; lia|done].
  - rewrite lookup_seq_ge by lia. simpl.
    apply lookup_ge_None. rewrite length_insert, length_replicate. lia.
Qed.

Lemma one_hot_indicator w c :
  0 < w -> - w <= c < w ->
  one_hot w c = Ok (indicator_row w (c mod w)).
Proof.
  intros Hw Hc. unfold one_hot.
  set (i := if c <? 0 then c + w else c).
  assert (0 <= i < w /\ c mod w = i) as [Hi Hmod].
  { subst i. destruct (Z.ltb_spec c 0).
    - split; [lia|]. symmetry. apply (Z.mod_unique _ _ (-1)); lia.
    - split; [lia|]. apply Z.mod_small. lia. }
  destruct (Z.leb_spec 0 i); [|lia]. destruct (Z.ltb_spec i w); [|lia].
  simpl. f_equal. rewrite Hmod.
  rewrite <- (Z2Nat.id w) at 2 by lia. rewrite <- (Z2Nat.id i) at 2 by lia.
  apply insert_replicate_indicator. lia.
Qed.

Lemma one_hot_rows_indicator w ys :
  0 < w -> Forall (fun y => - w <= y < w) ys ->
  one_hot_rows w ys = Ok ((fun y => indicator_row w (y mod w)) <$> ys).
Proof.
  intros Hw. induction 1 as [|y ys Hy _ IH]; simpl; [done|].
  by rewrite one_hot_indicator, IH.
Qed.

(** X3.  [to_categorical] on labels whose maximum [mx] is non-negative
    and which are all at least [-(mx+1)]: every label [y] becomes a row of
    width [mx+1] with a single one, at position [y mod (mx+1)]; so a
    non-negative label marks its own position and a negative one counts
    from the end (lines 80, 83, 91, 94). *)
Theorem to_categorical_rows (ys : list Z) mx :
  mx ∈ ys -> 0 <= mx ->
  Forall (fun y => - (mx + 1) <= y <= mx) ys ->
  to_categorical (hm_init ys None)
  = Ok ((fun y => indicator_row (mx + 1) (y mod (mx + 1))) <$> ys).
Proof.
  intros Hin Hmx Hall. unfold to_categorical.
  rewrite (proj1 (np_array_cases ys)).
  rewrite (np_max_spec ys mx Hin).
  2:{ eapply Forall_impl; [exact Hall|]. simpl. lia. }
  cbn zeta. destruct (Z.ltb_spec (mx + 1) 0); [lia|].
  apply one_hot_rows_indicator; [lia|].
  eapply Forall_impl; [exact Hall|]. simpl. lia.
Qed.

(** X4.  For [-t N] with [1 <= N <= 2^50] the two slice lengths add up
    to [N] when [N] is a multiple of 5 and to [N - 1] otherwise (lines
    87-88). *)
Theorem subset_sizes_sum N a b :
  1 <= N <= 2 ^ 50 ->
  int_mul_float N f0_8 = Some a -> int_mul_float N f0_2 = Some b ->
  a + b = N - (if N mod 5 =? 0 then 0 else 1).
Proof.
  intros HN Ha Hb. destruct (tiles_fractions N HN) as [H8 H2].
  rewrite H8 in Ha. rewrite H2 in Hb. simplify_eq.
  pose proof (Z.div_mod (8 * N) 10). pose proof (Z.div_mod (2 * N) 10).
  pose proof (Z.mod_pos_bound (8 * N) 10). pose proof (Z.mod_pos_bound (2 * N) 10).
  pose proof (Z.div_mod N 5). pose proof (Z.mod_pos_bound N 5).
  destruct (Z.eqb_spec (N mod 5) 0); lia.
Qed.

(** *** Paths and files *)

(** X5.  Whatever the arguments, the checkpoint path, the figure path
    and the intermediate file name are three different paths: the outputs
    of a run never overwrite each other (lines 165, 191, 228). *)
Theorem output_paths_distinct args :
  let dir := rstrip "/"%char (output_directory args) in
  let ckpt := filepath (checkpoint dir args) in
  let png := dir +:+ "/" +:+ output_name args +:+ "_training_history.png" in
  ckpt <> png /\ ckpt <> intermediate_file /\ png <> intermediate_file.
Proof.
  exact (conj (ckpt_path_not_png args)
           (conj (ckpt_path_not_intermediate args)
                 (history_png_not_intermediate args))).
Qed.



(** X7.  If the data file has no [train_img] array the run stops at the
    first [HDF5Matrix] (line 78) with a [KeyError] for that array; it has
    opened nothing else, written nothing and built no model. *)
Theorem missing_array args fs h5 :
  fs !! file_input args = Some (DataFile h5) ->
  h5_images h5 !! "train_img" = None ->
  main backend args fs
  = (Raise (KeyError "train_img"), fs, [EvOpen (file_input args) "train_img"]).
Proof.
  intros H1 H2. unfold main, load_data, HDF5Matrix_open, bind, emit, read_file.
  rewrite H1. cbn beta iota. by rewrite H2.
Qed.

(** X8.  When the data loads but the file given with [-m] does not
    exist, the run stops in [load_model] (line 100) with an [OSError] for
    that path, after opening the arrays and before any training; no file
    is changed. *)
Theorem missing_input_model args path fs :
  given_input_model args = Some path ->
  fs !! path = None ->
  is_Ok (result (load_data args fs)) ->
  main backend args fs
  = (Raise (OSError path), fs,
     trace (load_data args fs) ++ [EvLoadModel path None]).
Proof.
  intros Hg Hp Hok.
  destruct (load_data args fs) as [[[d|e] fs1] t_d] eqn:Hd; [|destruct Hok].
  destruct (load_data_run _ _ _ _ _ Hd) as [-> _].
  unfold main, bind. rewrite Hd. cbn beta iota.
  unfold model_phase. rewrite Hg.
  unfold bind, load_model, bind, read_file, emit. cbn beta iota.
  rewrite Hp. reflexivity.
Qed.

(** *** Loading a subset *)

Lemma main_load_failed args fs e fs1 t :
  load_data args fs = (Raise e, fs1, t) ->
  main backend args fs = (Raise e, fs1, t).
Proof. intros H. unfold main, bind. by rewrite H. Qed.

Lemma to_categorical_nonempty labels rows :
  to_categorical labels = Ok rows -> rows <> [].
Proof.
  unfold to_categorical. destruct (np_array labels) as [y|]; [|done].
  destruct y as [|c y]; [done|]. cbn [np_max].
  destruct (_ <? 0); [done|]. intros H ->.
  by apply one_hot_rows_length in H.
Qed.

Lemma load_data_subset args fs N d fs' t :
  tiles args = Some N ->
  load_data args fs = (Ok d, fs', t) ->
  exists h5 tlab vlab a b,
    fs !! file_input args = Some (DataFile h5) /\
    h5_ints h5 !! "train_labels" = Some tlab /\
    h5_ints h5 !! "val_labels" = Some vlab /\
    int_mul_float N f0_8 = Some a /\
    int_mul_float N f0_2 = Some b /\
    to_categorical (hm_init tlab (Some a)) = Ok (train_labels d) /\
    to_categorical (hm_init vlab (Some b)) = Ok (val_labels d).
Proof.
  intros Ht Hrun. unfold load_data in Hrun. rewrite Ht in Hrun.
  destruct (int_mul_float N f0_8) as [a|] eqn:H8;
    destruct (int_mul_float N f0_2) as [b|] eqn:H2;
    cbn [lift_opt] in Hrun; run_inv.
  repeat match goal with
  | H : HDF5Matrix_open _ _ _ _ _ = (Ok _, _, _) |- _ =>
      let H' := fresh in
      pose proof (HDF5Matrix_open_run _ _ _ _ _ _ _ _ H) as [H' _];
      apply HDF5Matrix_open_ok in H as (? & ? & ? & ? & ?); subst
  end.
  repeat match goal with
  | H : Ok _ = to_categorical _ |- _ => symmetry in H
  end.
  repeat match goal with
  | H1 : ?fs !! ?p = Some (DataFile ?a), H2 : ?fs !! ?p = Some (DataFile ?b) |- _ =>
      assert (a = b) by congruence; subst a; clear H2
  end.
  repeat match goal with
  | H1 : ?m !! ?k = Some ?a, H2 : ?m !! ?k = Some ?b |- _ =>
      assert (a = b) by congruence; subst a; clear H2
  end.
  eexists _, _, _, _, _. cbn [train_labels val_labels].
  repeat split; try eassumption; reflexivity.
Qed.

Lemma round53_nonneg (n e : Z) : 0 <= n -> 0 <= fst (round53 n e).
Proof.
  intros Hm. unfold round53.
  destruct (_ <=? 0); [done|]. cbn [fst].
  assert (0 <= n / 2 ^ (Z.log2 n + 1 - 53))
    by (apply Z_div_nonneg_nonneg; lia).
  repeat destruct (_ <? _); try destruct (Z.even _); lia.
Qed.

Lemma float_trunc_nonneg x : 0 <= fst x -> 0 <= float_trunc x.
Proof. intros H. unfold float_trunc. by apply Z.shiftl_nonneg. Qed.

Lemma val_fraction_small N b :
  N < 5 -> int_mul_float N f0_2 = Some b -> b <= 0.
Proof.
  intros HN. destruct (Z.le_gt_cases N 0) as [Hneg|Hpos].
  - unfold int_mul_float. destruct (float_of_int _) as [x|] eqn:Hx; [|done].
    intros [= <-].
    assert (0 <= float_trunc (float_mul x f0_2)).
    { apply float_trunc_nonneg. unfold float_mul. apply round53_nonneg.
      unfold float_of_int in Hx. destruct (_ <=? _); [done|].
      injection Hx as <-. pose proof (round53_nonneg (Z.abs N) 0). cbn in *. lia. }
    destruct (Z.sgn_spec N) as [[? ->]|[[? ->]|[? ->]]]; lia.
  - assert (N = 1 \/ N = 2 \/ N = 3 \/ N = 4) as [-> | [-> | [-> | ->]]]
      by lia;
      vm_compute; intros [= <-]; done.
Qed.

(** X9.  With [-t N] for [N < 5] no run succeeds: [int(N*0.2)] is not
    positive, so the validation labels are empty and [to_categorical]
    (line 94) raises, if nothing did before.  The run ends while loading:
    all it has done is open arrays of the data file. *)
Theorem tiles_below_five_fail args fs r fs' tr N :
  tiles args = Some N -> N < 5 ->
  main backend args fs = (r, fs', tr) ->
  ~ is_Ok r /\ Forall (is_open (file_input args)) tr.
Proof.
  intros Ht HN Hm.
  destruct (load_data args fs) as [[[d|e] fs1] t] eqn:Hd.
  - destruct (load_data_subset _ _ _ _ _ _ Ht Hd)
      as (h5 & tlab & vlab & a & b & _ & _ & _ & _ & Hb & _ & Hv).
    pose proof (val_fraction_small _ _ HN Hb).
    pose proof (to_categorical_nonempty _ _ Hv) as Hne.
    apply to_categorical_prefix in Hv as [Hlen _].
    destruct (val_labels d); [done|]. simpl in Hlen. lia.
  - destruct (load_data_run _ _ _ _ _ Hd) as [-> Hop].
    rewrite (main_load_failed _ _ _ _ _ Hd) in Hm. simplify_eq.
    split; [by intros []|done].
Qed.

(** X10.  When the data loads with [-t N], both slice lengths are at
    least 1 and at most the number of labels stored for their split: a
    subset larger than the arrays makes loading fail instead of using what
    is there (lines 86-94). *)
Theorem subset_within_labels args fs N h5 tlab vlab :
  tiles args = Some N ->
  is_Ok (result (@load_data Img W args fs)) ->
  fs !! file_input args = Some (DataFile h5) ->
  h5_ints h5 !! "train_labels" = Some tlab ->
  h5_ints h5 !! "val_labels" = Some vlab ->
  exists a b,
    int_mul_float N f0_8 = Some a /\ int_mul_float N f0_2 = Some b /\
    1 <= a <= Z.of_nat (length tlab) /\ 1 <= b <= Z.of_nat (length vlab).
Proof.
  intros Ht Hr Hf Htl Hvl.
  destruct (load_data args fs) as [[[d|e] fs1] t] eqn:Hd; [|destruct Hr].
  destruct (load_data_subset _ _ _ _ _ _ Ht Hd)
    as (h5' & tlab' & vlab' & a & b & Hf' & Htl' & Hvl' & Ha & Hb & Htc & Hvc).
  simplify_eq. exists a, b. split; [done|]. split; [done|].
  pose proof (to_categorical_nonempty _ _ Htc).
  pose proof (to_categorical_nonempty _ _ Hvc).
  apply to_categorical_prefix in Htc as [Hla (k1 & Hk1)].
  apply to_categorical_prefix in Hvc as [Hlb (k2 & Hk2)].
  apply one_hot_rows_length in Hk1, Hk2.
  rewrite length_take in Hk1, Hk2.
  destruct (train_labels d); [done|]. destruct (val_labels d); [done|].
  simpl in *. lia.
Qed.

(** *** Whole runs *)

Lemma epoch_logs_of_opens p t : Forall (is_open p) t -> epoch_logs_of t = [].
Proof.
  intros H. unfold epoch_logs_of.
  eapply omap_Forall_None; [|exact H]. by intros ? [? ->].
Qed.

Lemma epoch_logs_of_head_events args (d : @Data Img) m0 o :
  epoch_logs_of (head_events args d m0 o)
  = [epoch_logs (sgd_crossentropy ["accuracy"]) (head_fit_args args d) o].
Proof. reflexivity. Qed.

(** X11.  A fresh run that ends without an exception has trained
    [1 + max(1, args.epochs - 1)] epochs in all, the head epoch included:
    never fewer than two, whatever [-e] says (lines 148-154, 169,
    203-211). *)
Theorem fresh_run_epochs args fs r fs' tr :
  given_input_model args = None ->
  main backend args fs = (r, fs', tr) ->
  is_Ok r ->
  length (epoch_logs_of tr) = S (Z.to_nat (Z.max 1 (epochs args - 1))) /\
  (2 <= length (epoch_logs_of tr))%nat.
Proof.
  intros Hg Hm Hok.
  destruct (main_fresh_run _ _ _ _ _ Hg Hm)
    as [| | | |d t_d m0 o m3 r fs' t Hd ? ? ? Ht]; try by destruct Hok.
  destruct (load_data_run _ _ _ _ _ Hd) as [_ Hop].
  apply train_report_calls in Ht as (_ & _ & Hlen).
  rewrite !epoch_logs_of_app, (epoch_logs_of_opens _ _ Hop),
    epoch_logs_of_head_events, epoch_logs_of_cons.
  cbn [epoch_end_logs app length]. rewrite (Hlen Hok). lia.
Qed.

(** X12.  A resumed run with [-e] zero or negative trains no epoch and
    saves nothing.  It cannot end without an exception when [-H] is
    given, and a run that does end without one returns the empty history
    (lines 180, 203-217). *)
Theorem resume_without_epochs args path fs r fs' tr :
  given_input_model args = Some path ->
  epochs args <= 0 ->
  main backend args fs = (r, fs', tr) ->
  epoch_logs_of tr = [] /\
  Forall (fun e => written_path e = None) tr /\
  (forall model h, r = Ok (model, h) ->
     graphical_history args = false /\ h = ∅).
Proof.
  intros Hg He Hm.
  destruct (main_resume_run _ _ _ _ _ _ Hg Hm)
    as [e t_d Hd|d t_d e Hd|d t_d m0 m r fs' t Hd Hp Hpl Ht];
    destruct (load_data_run _ _ _ _ _ Hd) as [_ Hop];
    pose proof (epoch_logs_of_opens _ _ Hop) as Hlogs;
    assert (Forall (fun e => written_path e = None) t_d) as Hw
      by (eapply Forall_impl; [exact Hop|]; by intros ? [? ->]).
  - split; [done|]. split; [done|]. done.
  - split; [by rewrite epoch_logs_of_app, Hlogs|].
    split; [apply Forall_app_2; [done|by repeat constructor]|]. done.
  - destruct Ht as (r_t & fs_t & t_fit & Hfit & Hrest).
    replace (Z.to_nat (epochs args)) with 0%nat in Hfit by lia.
    cbn [fit_loop] in Hfit. apply ret_inv in Hfit as (-> & -> & ->).
    destruct Hrest as (r_p & t_p & Hrep & -> & ->).
    unfold report_phase in Hrep.
    destruct (graphical_history args) eqn:Hflag.
    + unfold plot_history, bind, lift_opt in Hrep.
      rewrite lookup_empty in Hrep. injection Hrep as <- <- <-.
      split; [by rewrite epoch_logs_of_app, Hlogs|].
      split; [apply Forall_app_2; [done|by repeat constructor]|]. done.
    + apply ret_inv in Hrep as (-> & -> & ->).
      split; [by rewrite epoch_logs_of_app, Hlogs|].
      split; [apply Forall_app_2; [done|by repeat constructor]|].
      by intros ? ? [= <- <-].
Qed.

(** X13.  On the fresh path, once [intermediate_model.hdf5] has been
    saved (line 165) it stays on disk with that content to the end of the
    run: nothing removes or overwrites it. *)
Theorem intermediate_file_remains args fs r fs' tr f :
  given_input_model args = None ->
  main backend args fs = (r, fs', tr) ->
  EvSave intermediate_file f ∈ tr ->
  fs' !! intermediate_file = Some f.
Proof.
  intros Hg Hm Hin.
  destruct (main_fresh_run _ _ _ _ _ Hg Hm)
    as [e t_d Hd|d t_d e Hd|d t_d m0 e Hd|d t_d m0 o e Hd
        |d t_d m0 o m3 r fs' t Hd ? ? ? Ht];
    destruct (load_data_run _ _ _ _ _ Hd) as [_ Hop];
    pose proof (saves_of_opens _ _ intermediate_file f Hop) as Hno.
  - done.
  - done.
  - apply elem_of_app in Hin as [Hin|Hin]; [done|].
    set_unfold in Hin. by destruct_or!.
  - apply elem_of_app in Hin as [Hin|Hin]; [done|].
    unfold head_events in Hin. set_unfold in Hin.
    destruct_or!; simplify_eq. by rewrite lookup_insert_eq.
  - apply elem_of_app in Hin as [Hin|Hin]; [done|].
    apply elem_of_app in Hin as [Hin|Hin].
    + unfold head_events in Hin. set_unfold in Hin.
      destruct_or!; simplify_eq.
      apply train_report_facts in Ht as (? & ? & _ & _ & _ & Hfr & _).
      rewrite Hfr; [by rewrite lookup_insert_eq|done|].
      intros Heq. by apply (history_png_not_intermediate args).
    + apply elem_of_cons in Hin as [Hin|Hin]; [done|].
      apply train_report_paths in Ht. rewrite Forall_forall in Ht.
      destruct (Ht _ Hin) as [Hw _]. destruct (Hw _ eq_refl) as [Heq|Heq].
      * discriminate Heq.
      * by destruct (history_png_not_intermediate args).
Qed.

(** *** The report *)

Lemma train_report_parts args d m n fs r fs' t :
  train_report backend args d m n fs r fs' t ->
  exists fs_t t_fit t_p,
    t = EvCompile CompileFinal (final_model m)
        :: EvFit FitFinal (final_model m) (final_fit_args args d n)
        :: t_fit ++ t_p /\
    Forall is_epoch_event t_fit /\
    (forall p, ends_with "_model.h5" p = false -> fs_t !! p = fs !! p) /\
    ((~ is_Ok r /\ fs' = fs_t /\ t_p = []) \/
     exists h r_p,
       report_phase args (out_dir args) h fs_t = (r_p, fs', t_p) /\
       (is_Ok r -> r_p = Ok tt)).
Proof.
  intros (r_t & fs_t & t_fit & Hfit & Hrest).
  destruct (final_fit_loop_events args d n (Z.to_nat n) _ _ _ _ _ _ _ _
              Hfit eq_refl) as (Hev & Hfr & _).
  assert (Forall is_epoch_event t_fit) as Hev'.
  { eapply Forall_impl; [exact Hev|]. by intros []. }
  exists fs_t, t_fit.
  destruct r_t as [[model h]|e].
  - destruct Hrest as (r_p & t_p & Hrep & -> & ->).
    exists t_p. split; [done|]. split; [done|]. split; [done|].
    right. exists h, r_p. split; [done|].
    intros Hok. destruct r_p as [[]|]; [done|destruct Hok].
  - destruct Hrest as (-> & -> & ->).
    exists []. rewrite app_nil_r. split; [done|]. split; [done|].
    split; [done|]. left. split; [|done]. by intros [].
Qed.

Lemma epoch_event_not_report (e : @Event Img W) :
  is_epoch_event e -> ~ is_report_event e.
Proof. destruct e; simpl; tauto. Qed.

Lemma open_not_report p (e : @Event Img W) :
  is_open p e -> ~ is_report_event e.
Proof. intros [? ->]. simpl. tauto. Qed.

Lemma train_report_no_flag args d m n fs r fs' t :
  graphical_history args = false ->
  train_report backend args d m n fs r fs' t ->
  Forall (fun e => ~ is_report_event e) t.
Proof.
  intros Hflag Ht.
  apply train_report_parts in Ht
    as (fs_t & t_fit & t_p & -> & Hev & Hfr & Hrep).
  assert (t_p = []) as ->.
  { destruct Hrep as [(_ & _ & ->)|(h & r_p & Hrep & _)]; [done|].
    unfold report_phase in Hrep. rewrite Hflag in Hrep.
    by apply ret_inv in Hrep as (_ & _ & ->). }
  rewrite app_nil_r. constructor; [simpl; tauto|].
  constructor; [simpl; tauto|].
  eapply Forall_impl; [exact Hev|]. apply epoch_event_not_report.
Qed.

(** X14.  Without [-H] a run draws no curve and saves no figure (line
    215). *)
Theorem no_figure_without_flag args fs r fs' tr :
  graphical_history args = false ->
  main backend args fs = (r, fs', tr) ->
  Forall (fun e => ~ is_report_event e) tr.
Proof.
  intros Hflag Hm.
  assert (forall t_d, Forall (is_open (file_input args)) t_d ->
            Forall (fun e : @Event Img W => ~ is_report_event e) t_d) as Hopen.
  { intros t_d H. eapply Forall_impl; [exact H|]. apply open_not_report. }
  destruct (given_input_model args) as [path|] eqn:Hg.
  - destruct (main_resume_run _ _ _ _ _ _ Hg Hm)
      as [e t_d Hd|d t_d e Hd|d t_d m0 m r fs' t Hd Hp Hpl Ht];
      destruct (load_data_run _ _ _ _ _ Hd) as [_ Hop].
    + auto.
    + apply Forall_app_2; [auto|]. repeat constructor; simpl; tauto.
    + pose proof (train_report_no_flag _ _ _ _ _ _ _ _ Hflag Ht) as Ht1.
      apply Forall_app_2; [auto|]. constructor; [simpl; tauto|done].
  - destruct (main_fresh_run _ _ _ _ _ Hg Hm)
      as [e t_d Hd|d t_d e Hd|d t_d m0 e Hd|d t_d m0 o e Hd
          |d t_d m0 o m3 r fs' t Hd ? ? ? Ht];
      destruct (load_data_run _ _ _ _ _ Hd) as [_ Hop].
    + auto.
    + auto.
    + apply Forall_app_2; [auto|]. repeat constructor; simpl; tauto.
    + apply Forall_app_2; [auto|]. repeat constructor; simpl; tauto.
    + pose proof (train_report_no_flag _ _ _ _ _ _ _ _ Hflag Ht) as Ht1.
      apply Forall_app_2; [auto|].
      apply Forall_app_2; [repeat constructor; simpl; tauto|].
      constructor; [simpl; tauto|done].
Qed.

Lemma plot_history_ok dir name h fs fs' t :
  @plot_history Img W dir name h fs = (Ok tt, fs', t) ->
  let png := dir +:+ "/" +:+ name +:+ "_training_history.png" in
  exists curves,
    fs' = <[png := FigureFile curves]> fs /\
    t = ((fun c : string * list Z * list Q => EvPlot c.1.2 c.2 c.1.1)
           <$> curves) ++ [EvSavefig png] /\
    plots_of t = (fun c : string * list Z * list Q => (c.1.2, c.2, c.1.1))
                   <$> curves.
Proof.
  unfold plot_history, plot, bind, lift_opt, ret, raise, emit, write_file.
  destruct (h !! "loss") as [l1|] eqn:E1; cbn beta iota; [|done].
  rewrite py_range_length, Nat.eqb_refl; cbn beta iota.
  destruct (h !! "val_loss") as [l2|] eqn:E2; cbn beta iota; [|done].
  destruct (Nat.eqb_spec (length l1) (length l2)) as [L2|L2];
    cbn beta iota; [|done].
  destruct (h !! "acc") as [l3|] eqn:E3; cbn beta iota; [|done].
  destruct (Nat.eqb_spec (length l1) (length l3)) as [L3|L3];
    cbn beta iota; [|done].
  destruct (h !! "val_acc") as [l4|] eqn:E4; cbn beta iota; [|done].
  destruct (Nat.eqb_spec (length l1) (length l4)) as [L4|L4];
    cbn beta iota; [|done].
  intros [= <- <-]. eexists. split; [reflexivity|]. split; reflexivity.
Qed.

(** X15.  A run with [-H] that ends without an exception ends with
    [savefig] to the figure path, and the figure on disk holds exactly the
    curves that were plotted, in order (lines 215-228). *)
Theorem figure_holds_plotted_curves args fs r fs' tr :
  graphical_history args = true ->
  main backend args fs = (r, fs', tr) ->
  is_Ok r ->
  exists curves,
    fs' !! history_png args = Some (FigureFile curves) /\
    plots_of tr = (fun c : string * list Z * list Q => (c.1.2, c.2, c.1.1))
                    <$> curves /\
    last tr = Some (EvSavefig (history_png args)).
Proof.
  intros Hflag Hm Hok.
  assert (forall d m n fs0 t,
            train_report backend args d m n fs0 r fs' t ->
            exists curves,
              fs' !! history_png args = Some (FigureFile curves) /\
              plots_of t
              = (fun c : string * list Z * list Q => (c.1.2, c.2, c.1.1))
                  <$> curves /\
              last t = Some (EvSavefig (history_png args))) as Hrep.
  { intros d m n fs0 t Ht.
    apply train_report_parts in Ht
      as (fs_t & t_fit & t_p & -> & Hev & _ & [(Hno & _)|(h & r_p & Hrp & Hrok)]);
      [done|].
    rewrite (Hrok Hok) in Hrp. unfold report_phase in Hrp.
    rewrite Hflag in Hrp.
    apply plot_history_ok in Hrp as (curves & -> & Htp & Hplots).
    fold (history_png args) in *.
    exists curves. split; [by rewrite lookup_insert_eq|]. split.
    - trace_simpl. by rewrite (plots_of_epochs _ Hev), Hplots.
    - rewrite Htp, !app_comm_cons, !app_assoc. apply last_snoc. }
  destruct (given_input_model args) as [path|] eqn:Hg.
  - destruct (main_resume_run _ _ _ _ _ _ Hg Hm)
      as [| |d t_d m0 m r fs' t Hd Hp Hpl Ht]; try by destruct Hok.
    destruct (load_data_run _ _ _ _ _ Hd) as [_ Hop].
    destruct (Hrep _ _ _ _ _ Ht) as (curves & Hf & Hpt & Hlast).
    exists curves. split; [done|]. split.
    + trace_simpl. by rewrite (plots_of_opens _ _ Hop).
    + rewrite last_app, last_cons, Hlast. done.
  - destruct (main_fresh_run _ _ _ _ _ Hg Hm)
      as [| | | |d t_d m0 o m3 r fs' t Hd ? ? ? Ht]; try by destruct Hok.
    destruct (load_data_run _ _ _ _ _ Hd) as [_ Hop].
    destruct (Hrep _ _ _ _ _ Ht) as (curves & Hf & Hpt & Hlast).
    exists curves. split; [done|]. split.
    + trace_simpl.
      by rewrite (plots_of_opens _ _ Hop), plots_of_head_events.
    + rewrite !last_app, last_cons, Hlast. done.
Qed.

(** *** Which epoch the checkpoint holds *)

Lemma last_saved_no_saves path t :
  (forall p f, EvSave p f ∉ t) -> last_saved path t = None.
Proof.
  intros H. unfold last_saved.
  rewrite (omap_Forall_None _ (fun e => forall p f, e <> EvSave p f)); [done| |].
  - intros [] He; try done. by destruct (He path0 f).
  - apply Forall_forall. intros e He p f ->. by apply (H p f).
Qed.

Lemma first_best_step path seen b e (logs : gmap string Q) (m1 : @Model W) v :
  first_best_inv path seen b ->
  logs !! "val_acc" = Some v ->
  let saved := match b with None => true | Some vb => Q_ltb vb v end in
  first_best_inv path
    (seen ++ (if saved then [EvSave path (ModelFile m1)] else [])
          ++ [EvEpochEnd e logs m1])
    (if saved then Some v else b).
Proof.
  intros Hinv Hv. destruct b as [vb|]; simpl in *.
  - destruct Hinv as (s1 & j & logsb & mb & s2 & -> & Hvb & Hlt & Hle & Hns).
    destruct (Q_ltb vb v) eqn:Hcmp.
    + apply Q_ltb_lt in Hcmp.
      exists (s1 ++ EvSave path (ModelFile mb) :: EvEpochEnd j logsb mb :: s2),
             e, logs, m1, [].
      split; [done|]. split; [done|]. split; [|split].
      * intros l Hl. rewrite epoch_logs_of_app in Hl.
        apply elem_of_app in Hl as [Hl|Hl].
        { destruct (Hlt _ Hl) as (v' & ? & ?). exists v'. split; [done|].
          by eapply Qlt_trans. }
        rewrite !epoch_logs_of_cons in Hl. cbn [epoch_end_logs] in Hl.
        apply elem_of_cons in Hl as [->|Hl]; [by exists vb|].
        destruct (Hle _ Hl) as (v' & ? & ?). exists v'. split; [done|].
        by eapply Qle_lt_trans.
      * intros l Hl. by apply elem_of_nil in Hl.
      * intros p f Hin. by apply elem_of_nil in Hin.
    + assert (v <= vb)%Q as Hvle.
      { apply Qnot_lt_le. intros Hc. apply Q_ltb_lt in Hc. congruence. }
      exists s1, j, logsb, mb, (s2 ++ [EvEpochEnd e logs m1]).
      split; [simpl; by rewrite <- app_assoc|]. split; [done|]. split; [done|].
      split.
      * intros l Hl. rewrite epoch_logs_of_app in Hl.
        apply elem_of_app in Hl as [Hl|Hl]; [auto|].
        apply list_elem_of_singleton in Hl as ->. by exists v.
      * intros p f Hin. apply elem_of_app in Hin as [Hin|Hin].
        { by apply (Hns p f). }
        by apply list_elem_of_singleton in Hin.
  - subst seen. exists [], e, logs, m1, [].
    split; [done|]. split; [done|]. split; [|split].
    + intros l Hl. by apply elem_of_nil in Hl.
    + intros l Hl. by apply elem_of_nil in Hl.
    + intros p f Hin. by apply elem_of_nil in Hin.
Qed.

Lemma first_best_loop args (d : @Data Img) nE n :
  has_brace (ckpt_path args) = false ->
  forall e m st h fs r fs' t seen,
    fit_loop backend (sgd_crossentropy ["accuracy"])
      (final_fit_args args d nE) n e m
      [(checkpoint (out_dir args) args, st)] h fs = (r, fs', t) ->
    epochs_since_last_save st = 0 ->
    first_best_inv (ckpt_path args) seen (best st) ->
    exists b, first_best_inv (ckpt_path args) (seen ++ t) b.
Proof.
  intros Hnb.
  induction n as [|n IH]; intros e m st h fs r fs' t seen H Hs Hinv.
  - simpl in H. run_inv. rewrite app_nil_r. eauto.
  - cbn [fit_loop] in H.
    apply bind_inv in H as [(o & fs0 & t0 & t1 & Ho & H & ->) | (x & Ho & ->)];
      apply lift_opt_inv in Ho as (Ho & -> & ->).
    2: { rewrite app_nil_r. eauto. }
    set (logs := epoch_logs (sgd_crossentropy ["accuracy"])
                            (final_fit_args args d nE) o) in *.
    set (m1 := with_weights m (eo_weights o)) in *.
    destruct (final_logs_lookup args d nE o) as (_ & _ & _ & Hv).
    fold logs in Hv.
    pose proof (first_best_step _ _ _ e logs m1 _ Hinv Hv) as Hstep.
    apply bind_inv in H as [(cbs & fs1 & t2 & t3 & Hc & H & ->) | (x & Hc & ->)];
      rewrite (checkpoint_step args st e logs m1 fs _ Hs Hv),
              (py_format_free _ _ _ Hnb), improves_checkpoint in Hc.
    2: { destruct (match best st with Some b => _ | None => _ end);
         discriminate. }
    apply bind_inv in H as [([] & fs2 & t4 & t5 & He & H & ->) | (x & He & ->)];
      apply emit_inv in He as (He & -> & ->); [|discriminate].
    simpl in Hstep.
    destruct (match best st with Some b => Q_ltb b (eo_val_acc o) | None => true end);
      simplify_eq; simpl.
    + eapply (IH _ _ _ _ _ _ _ _ _ H) in Hstep as [b Hb]; [|done].
      exists b. by rewrite <- !app_assoc in Hb.
    + eapply (IH _ _ _ _ _ _ _ _ _ H) in Hstep as [b Hb]; [|done].
      exists b. by rewrite <- !app_assoc in Hb.
Qed.

Lemma first_best_app_report path t_fit t_p (mb : @Model W) :
  Forall is_report_event t_p ->
  first_best path t_fit mb -> first_best path (t_fit ++ t_p) mb.
Proof.
  intros Hr (s1 & j & logs & vb & s2 & -> & Hvb & Hlt & Hle & Hns).
  exists s1, j, logs, vb, (s2 ++ t_p).
  split; [by rewrite <- app_assoc|]. split; [done|]. split; [done|]. split.
  - intros l Hl.
    rewrite epoch_logs_of_app, (epoch_logs_of_report _ Hr), app_nil_r in Hl.
    auto.
  - intros p f Hin. apply elem_of_app in Hin as [Hin|Hin].
    + by apply (Hns p f).
    + rewrite Forall_forall in Hr. by apply Hr in Hin.
Qed.

Lemma first_best_last_saved path t (mb : @Model W) :
  first_best path t mb -> last_saved path t = Some (ModelFile mb).
Proof.
  intros (s1 & j & logs & vb & s2 & -> & _ & _ & _ & Hns).
  change (s1 ++ EvSave path (ModelFile mb) :: EvEpochEnd j logs mb :: s2)
    with (s1 ++ [EvSave path (ModelFile mb)] ++ EvEpochEnd j logs mb :: s2).
  rewrite !last_saved_app.
  rewrite (last_saved_no_saves path (EvEpochEnd j logs mb :: s2)).
  - by rewrite last_saved_same.
  - intros p f Hin. apply elem_of_cons in Hin as [Hin|Hin]; [done|].
    by apply (Hns p f).
Qed.

Lemma train_report_first_best args d m n fs r fs' t :
  has_brace (ckpt_path args) = false ->
  train_report backend args d m n fs r fs' t ->
  exists post,
    t = EvCompile CompileFinal (final_model m)
        :: EvFit FitFinal (final_model m) (final_fit_args args d n) :: post /\
    (epoch_logs_of post <> [] ->
     exists mb,
       first_best (ckpt_path args) post mb /\
       fs' !! ckpt_path args = Some (ModelFile mb)).
Proof.
  intros Hnb (r_t & fs_t & t_fit & Hfit & Hrest).
  pose proof (final_fit_loop args d n (Z.to_nat n) Hnb _ _ _ _ _ _ _ _ []
                Hfit) as Hloop.
  destruct Hloop as (_ & _ & Hfs & _).
  { repeat split; simpl; done. }
  { apply all_kept_nil. }
  destruct (first_best_loop args d n (Z.to_nat n) Hnb _ _ _ _ _ _ _ _ []
              Hfit) as [b Hb]; [done|done|].
  simpl in Hfs, Hb.
  assert (epoch_logs_of t_fit <> [] ->
          exists mb, first_best (ckpt_path args) t_fit mb /\
                     fs_t !! ckpt_path args = Some (ModelFile mb)) as Hfit_best.
  { intros Hne. destruct b as [vb|]; cbn in Hb; [|by rewrite Hb in Hne].
    destruct Hb as (s1 & j & logs & mb & s2 & Heq & Hrest').
    assert (first_best (ckpt_path args) t_fit mb) as Hfb
      by (exists s1, j, logs, vb, s2; by split).
    exists mb. split; [done|]. apply Hfs. by apply first_best_last_saved. }
  destruct r_t as [[model h]|e].
  - destruct Hrest as (r_p & t_p & Hrep & -> & _).
    apply report_phase_run in Hrep as (Hrev & Hrfs & _).
    exists (t_fit ++ t_p). split; [done|].
    rewrite epoch_logs_of_app, (epoch_logs_of_report _ Hrev), app_nil_r.
    intros Hne. destruct (Hfit_best Hne) as (mb & Hfb & Hdisk).
    exists mb. split; [by apply first_best_app_report|].
    rewrite Hrfs; [done|]. apply ckpt_path_not_png.
  - destruct Hrest as (_ & -> & ->). exists t_fit. split; [done|]. exact Hfit_best.
Qed.

(** X16.  When the checkpoint path holds no brace (so that
    [filepath.format] leaves it as it is): after the final [model.fit] is
    called and an epoch has ended, the checkpoint on disk is the model of
    the first epoch that reached the highest [val_acc] so far: it was
    written at the end of an epoch that strictly beat every earlier one,
    no later epoch exceeds it, and a later epoch that only equals it does
    not replace it (lines 190-211). *)
Theorem checkpoint_first_best args fs r fs' tr pre m a post :
  has_brace (ckpt_path args) = false ->
  main backend args fs = (r, fs', tr) ->
  split_at_fit FitFinal tr = Some (pre, m, a, post) ->
  epoch_logs_of post <> [] ->
  exists mb,
    first_best (ckpt_path args) post mb /\
    fs' !! ckpt_path args = Some (ModelFile mb).
Proof.
  intros Hnb Hm Hs Hne.
  destruct (final_split _ _ _ _ _ _ _ _ _ Hm Hs)
    as (d & t_d & m_p & fs_in & before & _ & _ & _ & Ht & _).
  apply (train_report_first_best _ _ _ _ _ _ _ _ Hnb) in Ht
    as (post' & Heq & Hbest).
  assert (post = post') as -> by congruence. by apply Hbest.
Qed.

(** *** Devices *)

Lemma bind_ext {A B} (c1 c2 : @M Img W A) (k1 k2 : A -> @M Img W B) fs :
  c1 fs = c2 fs -> (forall a fs1, k1 a fs1 = k2 a fs1) ->
  bind c1 k1 fs = bind c2 k2 fs.
Proof.
  intros Hc Hk. unfold bind. rewrite Hc.
  destruct (c2 fs) as [[[a|e] fs1] t1]; [|done]. by rewrite Hk.
Qed.

Section TwoBackends.
Variables b1 b2 : @Backend Img W.
Hypothesis same_network : InceptionV3 b1 = InceptionV3 b2.
Hypothesis same_weights : initial_weights b1 = initial_weights b2.
Hypothesis same_training : train_epoch b1 = train_epoch b2.
Hypothesis same_format : str_format b1 = str_format b2.

Lemma py_format_ext s e logs : py_format b1 s e logs = py_format b2 s e logs.
Proof. unfold py_format. by rewrite same_format. Qed.

Lemma callbacks_on_epoch_end_ext cbs e logs m fs :
  callbacks_on_epoch_end b1 cbs e logs m fs
  = callbacks_on_epoch_end b2 cbs e logs m fs.
Proof.
  revert fs. induction cbs as [|[cb st] cbs IH]; intros fs; [done|].
  cbn [callbacks_on_epoch_end].
  apply bind_ext.
  - unfold checkpoint_on_epoch_end. by rewrite py_format_ext.
  - intros st' fs1. apply bind_ext; [apply IH|done].
Qed.

Lemma fit_loop_ext c a n :
  forall e m cbs h fs,
    fit_loop b1 c a n e m cbs h fs = fit_loop b2 c a n e m cbs h fs.
Proof.
  induction n as [|n IH]; intros e m cbs h fs; [done|].
  cbn [fit_loop]. rewrite same_training.
  apply bind_ext; [done|]. intros o fs1.
  apply bind_ext; [apply callbacks_on_epoch_end_ext|]. intros cbs' fs2.
  apply bind_ext; [done|]. intros [] fs3. apply IH.
Qed.

Lemma fit_ext site m a fs : fit b1 site m a fs = fit b2 site m a fs.
Proof.
  unfold fit. destruct (compiled m); [|done].
  apply bind_ext; [done|]. intros [] fs1. apply fit_loop_ext.
Qed.

Lemma place_model_single b args m fs :
  GPUs args <= 1 -> place_model b args m fs = (Ok (Model_of m), fs, []).
Proof.
  intros H. unfold place_model.
  by destruct (Z.leb_spec (GPUs args) 1); [|lia].
Qed.

(** X17.  With [-g] at most 1 the run does not depend on
    [multi_gpu_model]: two backends that agree on everything else (the
    network, the initial weights, the training step and the expansion of
    replacement fields) give the same result, files and trace (lines
    101-106, 126-132, 171-177). *)
Theorem single_device_never_replicates args fs :
  GPUs args <= 1 -> main b1 args fs = main b2 args fs.
Proof.
  intros Hg. unfold main.
  apply bind_ext; [done|]. intros d fs1.
  apply bind_ext.
  - unfold model_phase. destruct (given_input_model args).
    + apply bind_ext; [done|]. intros input fs2.
      apply bind_ext; [|done]. by rewrite !place_model_single.
    + apply bind_ext; [|done]. unfold new_model_phase.
      rewrite same_network, same_weights.
      apply bind_ext; [by rewrite !place_model_single|]. intros m0 fs2.
      apply bind_ext; [done|]. intros [] fs3.
      apply bind_ext; [done|]. intros m1 fs4.
      apply bind_ext; [apply fit_ext|]. done.
  - intros [model new_model] fs2.
    apply bind_ext.
    + unfold reload_phase. destruct new_model; [|done].
      apply bind_ext; [done|]. intros im fs3.
      apply bind_ext; [|done]. by rewrite !place_model_single.
    + intros [model' n] fs3.
      apply bind_ext; [|done]. unfold train_phase.
      apply bind_ext; [done|]. intros m2 fs4. apply fit_ext.
Qed.

End TwoBackends.

End Properties.

(** * The theorems on the concrete runs *)

(** ** The fresh run [demo_run] and the resumed run [resume_run] *)

(** C1 on the fresh run with [-e 4]: the final [fit] is called once, with
    [epochs=3]. *)
Lemma final_fit_epochs_demo :
  Forall (fun c => fit_epochs c.2 = 3) (fit_calls FitFinal (trace demo_run)) /\
  (is_Ok (result demo_run) ->
   length (fit_calls FitFinal (trace demo_run)) = 1%nat).
Proof.
  apply (final_fit_epochs demo_backend demo_args demo_fs
           (result demo_run) (files demo_run) (trace demo_run)).
  reflexivity.
Defined.

(** C2 with [-t 20]: 16 training rows and 4 validation rows. *)
Lemma subset_slice_lengths_demo :
  tiles demo_args = Some 20 /\ 1 <= 20 <= 2 ^ 50 /\
  int_mul_float 20 f0_8 = Some 16 /\
  int_mul_float 20 f0_2 = Some 4 /\
  exists d,
    result (load_data demo_args demo_fs) = Ok d /\
    train_data d = {| hm_data := seq 0 40; hm_start := 0; hm_end := 16 |} /\
    val_data d = {| hm_data := seq 100 10; hm_start := 0; hm_end := 4 |} /\
    length (train_labels d) = 16%nat /\ length (val_labels d) = 4%nat.
Proof.
  split; [reflexivity|]. split; [lia|].
  destruct (subset_slice_lengths (Img := nat) (W := nat) demo_args demo_fs 20
              eq_refl ltac:(lia)) as (H8 & H2 & Hd).
  split; [exact H8|]. split; [exact H2|].
  destruct (result (load_data demo_args demo_fs)) as [d|e] eqn:Hr;
    [|vm_compute in Hr; discriminate].
  exists d. split; [reflexivity|].
  destruct (Hd d eq_refl)
    as (h5 & timg & tlab & vimg & vlab & Hf & Hti & Htl & Hvi & Hvl
        & Htd & Hvd & _ & _ & Hnt & Hnv & _).
  vm_compute in Hf. injection Hf as <-.
  vm_compute in Hti. injection Hti as <-.
  vm_compute in Hvi. injection Hvi as <-.
  split; [exact Htd|]. split; [exact Hvd|].
  change (8 * 20 / 10) with 16 in Hnt. change (2 * 20 / 10) with 4 in Hnv.
  split; lia.
Defined.

(** C3 on the fresh run. *)
Lemma intermediate_saved_then_reloaded_demo :
  (is_Ok (result demo_run) ->
   is_Some (split_at_fit FitFinal (trace demo_run))) /\
  forall pre m a post,
    split_at_fit FitFinal (trace demo_run) = Some (pre, m, a, post) ->
    exists t1 m_i m_p,
      pre = t1 ++ [EvSave intermediate_file (ModelFile m_i);
                   EvLoadModel intermediate_file (Some (ModelFile m_i));
                   EvCompile CompileFinal m] /\
      placed demo_backend demo_args m_i m_p /\
      m = compile_with m_p (sgd_crossentropy ["accuracy"]).
Proof.
  apply (intermediate_saved_then_reloaded demo_backend demo_args demo_fs
           (result demo_run) (files demo_run) (trace demo_run));
    reflexivity.
Defined.

(** C4, as amended, on the fresh run: the path [out/run_model.h5] holds
    no brace, validation accuracy is 0.5, 0.7, 0.6 over the three epochs,
    and [out/run_model.h5] ends as the model of the second. *)
Lemma checkpoint_keeps_best_demo :
  exists pre m a post,
    split_at_fit FitFinal (trace demo_run) = Some (pre, m, a, post) /\
    (forall p f, EvSave p f ∈ post ->
                 p = "out/run_model.h5" /\ exists m', f = ModelFile m') /\
    (forall p1 j logs mj p2,
       post = p1 ++ EvEpochEnd j logs mj :: p2 ->
       best_kept "out/run_model.h5" (p1 ++ [EvEpochEnd j logs mj])) /\
    (epoch_logs_of post <> [] ->
     best_kept "out/run_model.h5" post /\
     files demo_run !! "out/run_model.h5" = last_saved "out/run_model.h5" post).
Proof.
  destruct (split_at_fit FitFinal (trace demo_run))
    as [[[[pre m] a] post]|] eqn:Hs; [|vm_compute in Hs; discriminate].
  exists pre, m, a, post. split; [reflexivity|].
  apply (checkpoint_keeps_best demo_backend demo_args demo_fs
           (result demo_run) (files demo_run) (trace demo_run) pre m a post);
    [reflexivity|exact Hs|reflexivity].
Defined.

(** C6, as amended, on the fresh run: the model in
    [intermediate_model.hdf5] has every layer trainable. *)
Lemma intermediate_checkpoint_state_demo :
  exists f,
    EvSave intermediate_file f ∈ trace demo_run /\
    exists m pre m1 a1 logs m1' post,
      f = ModelFile m /\
      Forall (fun l => trainable l = true) (layers m) /\
      split_at_fit FitHead (trace demo_run)
        = Some (pre, m1, a1, EvEpochEnd 0 logs m1' :: post) /\
      (forall i l, layers m1 !! i = Some l ->
                   trainable l = (280 <=? i)%nat) /\
      weights m = weights m1'.
Proof.
  destruct (last_saved intermediate_file (trace demo_run)) as [f|] eqn:Hf;
    [|vm_compute in Hf; discriminate].
  assert (Hin := last_saved_elem intermediate_file (trace demo_run) f Hf).
  exists f. split; [exact Hin|].
  apply (intermediate_checkpoint_state demo_backend demo_args demo_fs
           (result demo_run) (files demo_run) (trace demo_run));
    [reflexivity|reflexivity|exact Hin].
Defined.

(** C7 on the fresh run. *)
Lemma unfreeze_then_recompile_demo :
  (is_Ok (result demo_run) ->
   is_Some (split_at_fit FitHead (trace demo_run))) /\
  forall pre m a post,
    split_at_fit FitHead (trace demo_run) = Some (pre, m, a, post) ->
    (post = [] /\ ~ is_Ok (result demo_run)) \/
    exists logs m' m2 post',
      post = EvEpochEnd 0 logs m'
             :: EvPrint "Unfreezing inception weights"
             :: EvCompile CompileUnfrozen m2 :: post' /\
      Forall (fun l => trainable l = true) (layers m2) /\
      compiled m2 = Some {| optimizer := "sgd";
                            loss := "categorical_crossentropy";
                            metrics := [] |} /\
      weights m2 = weights m'.
Proof.
  apply (unfreeze_then_recompile demo_backend demo_args demo_fs
           (result demo_run) (files demo_run) (trace demo_run));
    reflexivity.
Defined.

(** C8 on the fresh run with [-b 8 -t 20]. *)
Lemma head_fit_call_demo :
  exists pre m a post,
    split_at_fit FitHead (trace demo_run) = Some (pre, m, a, post) /\
    (exists d,
       result (load_data demo_args demo_fs) = Ok d /\
       a = {| fit_x := train_data d;
              fit_y := train_labels d;
              fit_validation_data := None;
              fit_epochs := 1;
              fit_batch_size := 8;
              fit_shuffle := "batch";
              fit_callbacks := [] |}) /\
    (forall i l, layers m !! i = Some l -> trainable l = (280 <=? i)%nat) /\
    fit_calls FitHead (trace demo_run) = [(m, a)] /\
    ((post = [] /\ ~ is_Ok (result demo_run)) \/
     exists logs m' post',
       post = EvEpochEnd 0 logs m'
              :: EvPrint "Unfreezing inception weights" :: post' /\
       layers m' = layers m /\
       fit_calls FitHead post' = []).
Proof.
  destruct (split_at_fit FitHead (trace demo_run))
    as [[[[pre m] a] post]|] eqn:Hs; [|vm_compute in Hs; discriminate].
  exists pre, m, a, post. split; [reflexivity|].
  apply (head_fit_call demo_backend demo_args demo_fs
           (result demo_run) (files demo_run) (trace demo_run) pre m a post);
    [reflexivity|reflexivity|exact Hs].
Defined.

(** C9, as amended, on the resumed run [-m prior.h5 -e 5]. *)
Lemma resume_single_fit_demo :
  fit_calls FitHead (trace resume_run) = [] /\
  (fit_calls FitFinal (trace resume_run) = [] \/
   exists m a, fit_calls FitFinal (trace resume_run) = [(m, a)] /\
               fit_epochs a = 5) /\
  (is_Ok (result resume_run) ->
   length (fit_calls FitFinal (trace resume_run)) = 1%nat /\
   length (epoch_logs_of (trace resume_run)) = 5%nat) /\
  Forall (fun e => written_path e <> Some intermediate_file)
         (trace resume_run) /\
  Forall (fun e => forall p, read_path e = Some p ->
                             p = "prior.h5" \/ p = "data.h5")
         (trace resume_run).
Proof.
  apply (resume_single_fit demo_backend resume_args "prior.h5" resume_fs
           (result resume_run) (files resume_run) (trace resume_run));
    reflexivity.
Defined.

(** C10 on the fresh run with [-e 4 -H]: four curves of three points. *)
Lemma plotted_history_demo :
  (forall xs ys label,
     (xs, ys, label) ∈ plots_of (trace demo_run) ->
     exists pre m a post key,
       split_at_fit FitFinal (trace demo_run) = Some (pre, m, a, post) /\
       (label, key) ∈ [("training loss", "loss");
                       ("validation loss", "val_loss");
                       ("training accuracy", "acc");
                       ("validation accuracy", "val_acc")] /\
       ys = omap (fun logs => logs !! key) (epoch_logs_of post) /\
       xs = py_range 1 (length ys) /\
       Z.of_nat (length ys) = 3) /\
  (is_Ok (result demo_run) -> graphical_history demo_args = true ->
   (plots_of (trace demo_run)).*2
   = ["training loss"; "validation loss";
      "training accuracy"; "validation accuracy"]).
Proof.
  apply (plotted_history demo_backend demo_args demo_fs
           (result demo_run) (files demo_run) (trace demo_run)).
  reflexivity.
Defined.

(** ** Runs that set the limits of the theorems *)

(** C2 at [-t 9007199254740992] (2^53): the exact product 0.8 * 2^53 is
    7205759403792793.6, but the double 0.8 lies above 4/5 and the product
    is rounded to 53 bits, so [int(args.tiles*0.8)] is 7205759403792794,
    one more than the floor; the kernel's hardware doubles agree.  The
    training slice is opened with that [end], which is its length. *)
Lemma train_slice_length_at_2_53 :
  1 <= 2 ^ 53 /\
  int_mul_float (2 ^ 53) f0_8 = Some 7205759403792794 /\
  prim_int_mul_float (2 ^ 53) 0x1.999999999999ap-1 = Some 7205759403792794 /\
  hm_len (hm_init (seq 0 40) (Some 7205759403792794)) = 7205759403792794 /\
  8 * 2 ^ 53 / 10 = 7205759403792793 /\
  int_mul_float (2 ^ 53) f0_8 <> Some (8 * 2 ^ 53 / 10).
Proof.
  split; [lia|]. split; [reflexivity|]. split; [reflexivity|].
  split; [reflexivity|]. split; [reflexivity|].
  intros H. vm_compute in H. discriminate H.
Qed.

(** C4 on [-n {epoch}]: the checkpoint path is [out/{epoch}_model.h5]
    and the run succeeds.  Validation accuracy is 0.5, 0.7, 0.6 over the
    three epochs, so the callback saves after the first and the second;
    the path is expanded with the epoch number each time, and the two
    models go to [out/1_model.h5] and [out/2_model.h5].  No model is ever
    written to the path itself, no file is there when the run ends, and
    the first, worse model is still on disk. *)
Lemma checkpoint_path_is_expanded :
  filepath (checkpoint (rstrip "/"%char (output_directory numbered_args))
                       numbered_args)
  = "out/{epoch}_model.h5" /\
  is_Ok (result numbered_run) /\
  match split_at_fit FitFinal (trace numbered_run) with
  | Some (_, _, _, post) =>
      omap written_path post
      = ["out/1_model.h5"; "out/2_model.h5";
         "out/{epoch}_training_history.png"] /\
      omap (fun logs : gmap string Q => logs !! "val_acc") (epoch_logs_of post)
      = [5 # 10; 7 # 10; 6 # 10]%Q /\
      last_saved "out/{epoch}_model.h5" post = None /\
      ~ best_kept "out/{epoch}_model.h5" post
  | None => False
  end /\
  files numbered_run !! "out/{epoch}_model.h5" = None /\
  is_Some (files numbered_run !! "out/1_model.h5") /\
  is_Some (files numbered_run !! "out/2_model.h5").
Proof.
  assert (match split_at_fit FitFinal (trace numbered_run) with
          | Some (_, _, _, post) =>
              omap written_path post
              = ["out/1_model.h5"; "out/2_model.h5";
                 "out/{epoch}_training_history.png"] /\
              omap (fun logs : gmap string Q => logs !! "val_acc")
                   (epoch_logs_of post)
              = [5 # 10; 7 # 10; 6 # 10]%Q /\
              last_saved "out/{epoch}_model.h5" post = None
          | None => False
          end) as Hpost
    by (vm_compute; split; [reflexivity|split; reflexivity]).
  split; [reflexivity|]. split; [exact I|]. split.
  - destruct (split_at_fit FitFinal (trace numbered_run))
      as [[[[pre m] a] post]|]; [|done].
    destruct Hpost as (Hw & Hv & Hn).
    split; [exact Hw|]. split; [exact Hv|]. split; [exact Hn|].
    intros (vb & jb & logsb & mb & Hls & _). congruence.
  - split; [reflexivity|]. split; vm_compute; eauto.
Qed.

(** C6 on the fresh run: the model saved to [intermediate_model.hdf5]
    does not have its layers of index below 280 marked non-trainable;
    layer 0 is trainable in it. *)
Lemma intermediate_checkpoint_not_frozen :
  given_input_model demo_args = None /\
  ~ (forall m, EvSave intermediate_file (ModelFile m) ∈ trace demo_run ->
     forall i l, (i < 280)%nat -> layers m !! i = Some l ->
                 trainable l = false).
Proof.
  split; [reflexivity|]. intros H.
  destruct (last_saved intermediate_file (trace demo_run)) as [[m| | |]|] eqn:Hf;
    try (vm_compute in Hf; discriminate).
  pose proof (last_saved_elem intermediate_file (trace demo_run) _ Hf) as Hin.
  destruct (layers m !! 0%nat) as [l|] eqn:Hl.
  - pose proof (H m Hin 0%nat l ltac:(lia) Hl) as Hfalse.
    vm_compute in Hf. injection Hf as <-.
    vm_compute in Hl. injection Hl as <-. discriminate.
  - vm_compute in Hf. injection Hf as <-. vm_compute in Hl. discriminate.
Qed.

(** C9 on [-m intermediate_model.hdf5 -e 5]: an input model is supplied,
    the run succeeds, and its fifth event is the read of
    [intermediate_model.hdf5]. *)
Lemma resume_reads_intermediate_file :
  given_input_model restart_args = Some "intermediate_model.hdf5" /\
  is_Ok (result restart_run) /\
  trace restart_run !! 4%nat
  = Some (EvLoadModel intermediate_file (Some (ModelFile demo_prior))) /\
  ~ Forall (fun e => written_path e <> Some intermediate_file /\
                     read_path e <> Some intermediate_file)
           (trace restart_run).
Proof.
  assert (trace restart_run !! 4%nat
          = Some (EvLoadModel intermediate_file (Some (ModelFile demo_prior))))
    as He by reflexivity.
  split; [reflexivity|]. split; [exact I|]. split; [exact He|].
  intros H. rewrite Forall_lookup in H.
  destruct (H _ _ He) as [_ Hr]. by apply Hr.
Qed.

(** ** The label widths (C5)

    [-t 20] on a file whose first four validation labels are all 0:
    loading succeeds, the training labels are one-hot over two classes and
    the validation labels over one, while the last layer of the model has
    two units. *)
Theorem label_widths_differ :
  exists d,
    result (load_data (Img := nat) (W := nat) demo_args skewed_fs) = Ok d /\
    num_classes_of (train_labels d) = Some 2%nat /\
    num_classes_of (val_labels d) = Some 1%nat /\
    last head_layers = Some {| kind := Dense 2 "softmax"; trainable := true |}.
Proof.
  vm_compute. eexists. split; [reflexivity|]. split; [reflexivity|].
  split; reflexivity.
Qed.

(** ** The binary64 model against the kernel's doubles *)

Example int_mul_float_matches_hardware :
  Forall (fun n => prim_int_mul_float n 0x1.999999999999ap-1 = int_mul_float n f0_8 /\
                   prim_int_mul_float n 0x1.999999999999ap-3 = int_mul_float n f0_2)
         [1; 2; 3; 4; 5; 6; 7; 9; 10; 14; 19; 20; 21; 99; 100; 1000; 12345;
          2 ^ 31 - 1; 2 ^ 50; 2 ^ 50 + 1; 2 ^ 53 - 1; 2 ^ 53; 2 ^ 53 + 1;
          2 ^ 62 + 12345].
Proof. repeat constructor. Qed.

(** * Further properties on the concrete runs *)


(** A data file without arrays. *)
Lemma missing_array_demo :
  main demo_backend demo_args bare_fs
  = (Raise (KeyError "train_img"), bare_fs, [EvOpen "data.h5" "train_img"]).
Proof.
  apply (missing_array demo_backend demo_args bare_fs
           {| h5_images := ∅; h5_ints := ∅ |}); reflexivity.
Defined.

(** [-m prior.h5] without that file on disk. *)
Lemma missing_input_model_demo :
  main demo_backend resume_args demo_fs
  = (Raise (OSError "prior.h5"), demo_fs,
     trace (load_data resume_args demo_fs) ++ [EvLoadModel "prior.h5" None]).
Proof.
  apply (missing_input_model demo_backend resume_args "prior.h5" demo_fs).
  - reflexivity.
  - reflexivity.
  - vm_compute. exact I.
Defined.

(** [-t 4]: the validation slice is empty and loading fails. *)
Lemma tiles_below_five_fail_demo :
  ~ is_Ok (result (main demo_backend tiny_args demo_fs)) /\
  Forall (is_open "data.h5") (trace (main demo_backend tiny_args demo_fs)).
Proof.
  apply (tiles_below_five_fail demo_backend tiny_args demo_fs
           (result (main demo_backend tiny_args demo_fs))
           (files (main demo_backend tiny_args demo_fs))
           (trace (main demo_backend tiny_args demo_fs)) 4);
    [reflexivity|lia|reflexivity].
Defined.

(** [-t 20] on 40 training and 10 validation labels. *)
Lemma subset_within_labels_demo :
  exists a b,
    int_mul_float 20 f0_8 = Some a /\ int_mul_float 20 f0_2 = Some b /\
    1 <= a <= 40 /\ 1 <= b <= 10.
Proof.
  apply (subset_within_labels (Img := nat) (W := nat) demo_args demo_fs 20
           demo_data (demo_labels 20) (demo_labels 5)).
  - reflexivity.
  - vm_compute. exact I.
  - reflexivity.
  - reflexivity.
  - reflexivity.
Defined.

(** Labels 0, 1, -1, 1: the label -1 is encoded as the last class. *)
Lemma to_categorical_rows_demo :
  to_categorical (hm_init [0; 1; -1; 1] None)
  = Ok [[1; 0]; [0; 1]; [0; 1]; [0; 1]].
Proof.
  apply (to_categorical_rows [0; 1; -1; 1] 1).
  - apply (list_elem_of_lookup_2 _ 1%nat). reflexivity.
  - lia.
  - repeat constructor; lia.
Defined.

(** [-t 7]: five training rows and one validation row. *)
Lemma subset_sizes_sum_demo :
  int_mul_float 7 f0_8 = Some 5 /\ int_mul_float 7 f0_2 = Some 1 /\
  5 + 1 = 7 - 1.
Proof.
  split; [reflexivity|]. split; [reflexivity|].
  apply (subset_sizes_sum 7 5 1); [lia|reflexivity|reflexivity].
Defined.

(** The fresh run with [-e 4] trains four epochs in all. *)
Lemma fresh_run_epochs_demo :
  length (epoch_logs_of (trace demo_run)) = 4%nat /\
  (2 <= length (epoch_logs_of (trace demo_run)))%nat.
Proof.
  apply (fresh_run_epochs demo_backend demo_args demo_fs
           (result demo_run) (files demo_run) (trace demo_run)).
  - reflexivity.
  - reflexivity.
  - vm_compute. exact I.
Defined.

(** [-m prior.h5 -e 0 -H]: nothing is trained or written, and the run
    does not end without an exception. *)
Lemma resume_without_epochs_demo :
  epoch_logs_of (trace idle_run) = [] /\
  Forall (fun e => written_path e = None) (trace idle_run) /\
  (forall model h, result idle_run = Ok (model, h) ->
     graphical_history idle_args = false /\ h = ∅).
Proof.
  apply (resume_without_epochs demo_backend idle_args "prior.h5" resume_fs
           (result idle_run) (files idle_run) (trace idle_run)).
  - reflexivity.
  - vm_compute. discriminate.
  - reflexivity.
Defined.

(** The intermediate file is still on disk when the fresh run ends. *)
Lemma intermediate_file_remains_demo :
  exists f,
    EvSave intermediate_file f ∈ trace demo_run /\
    files demo_run !! intermediate_file = Some f.
Proof.
  destruct (last_saved intermediate_file (trace demo_run)) as [f|] eqn:Hf;
    [|vm_compute in Hf; discriminate].
  assert (Hin := last_saved_elem intermediate_file (trace demo_run) f Hf).
  exists f. split; [exact Hin|].
  apply (intermediate_file_remains demo_backend demo_args demo_fs
           (result demo_run) (files demo_run) (trace demo_run));
    [reflexivity|reflexivity|exact Hin].
Defined.

(** The fresh run without [-H]. *)
Lemma no_figure_without_flag_demo :
  Forall (fun e => ~ is_report_event e) (trace quiet_run).
Proof.
  apply (no_figure_without_flag demo_backend quiet_args demo_fs
           (result quiet_run) (files quiet_run) (trace quiet_run));
    reflexivity.
Defined.

(** The fresh run with [-H]. *)
Lemma figure_holds_plotted_curves_demo :
  exists curves,
    files demo_run !! "out/run_training_history.png"
    = Some (FigureFile curves) /\
    plots_of (trace demo_run)
    = (fun c : string * list Z * list Q => (c.1.2, c.2, c.1.1)) <$> curves /\
    last (trace demo_run) = Some (EvSavefig "out/run_training_history.png").
Proof.
  apply (figure_holds_plotted_curves demo_backend demo_args demo_fs
           (result demo_run) (files demo_run) (trace demo_run)).
  - reflexivity.
  - reflexivity.
  - vm_compute. exact I.
Defined.

(** The resumed run with [-e 5]: validation accuracy is 0.5, 0.7, 0.6,
    0.7, 0.1, and the checkpoint holds the model of the second epoch, not
    of the fourth. *)
Lemma checkpoint_first_best_demo :
  exists pre m a post,
    split_at_fit FitFinal (trace resume_run) = Some (pre, m, a, post) /\
    epoch_logs_of post <> [] /\
    exists mb,
      first_best "./_model.h5" post mb /\
      files resume_run !! "./_model.h5" = Some (ModelFile mb) /\
      weights mb = 9%nat.
Proof.
  assert (match split_at_fit FitFinal (trace resume_run) with
          | Some (_, _, _, post) => length (epoch_logs_of post)
          | None => 0%nat
          end = 5%nat) as Hlen by (vm_compute; reflexivity).
  assert (match files resume_run !! ckpt_path resume_args with
          | Some (ModelFile mb) => weights mb
          | _ => 0%nat
          end = 9%nat) as Hw by (vm_compute; reflexivity).
  destruct (split_at_fit FitFinal (trace resume_run))
    as [[[[pre m] a] post]|] eqn:Hs; [|discriminate Hlen].
  assert (epoch_logs_of post <> []) as Hne.
  { intros E. rewrite E in Hlen. discriminate Hlen. }
  exists pre, m, a, post. split; [reflexivity|]. split; [exact Hne|].
  destruct (checkpoint_first_best demo_backend resume_args resume_fs
              (result resume_run) (files resume_run) (trace resume_run)
              pre m a post eq_refl eq_refl Hs Hne) as (mb & Hfb & Hdisk).
  exists mb. split; [exact Hfb|]. split; [exact Hdisk|].
  rewrite Hdisk in Hw. exact Hw.
Defined.

(** The fresh run on one device does not depend on how the backend
    replicates models. *)
Lemma single_device_never_replicates_demo :
  main demo_backend demo_args demo_fs
  = main single_device_backend demo_args demo_fs.
Proof.
  apply (single_device_never_replicates demo_backend single_device_backend
           eq_refl eq_refl eq_refl eq_refl demo_args demo_fs).
  vm_compute. discriminate.
Defined.
